(** * bluemira: equilibrium states and the charged-particle solver

    A shallow embedding of
      - [bluemira/equilibria/equilibrium.py]
        ([MHDState], [CoilSetMHDState], [Breakdown], [Equilibrium]) and
      - [bluemira/radiation_transport/advective_transport.py]
        ([ChargedParticleSolver.__init__] and [_check_params]) and
      - [bluemira/base/components.py]
        ([Component.get_component], [add_child] and [add_children]).

    Python floats are IEEE binary64 numbers ([PrimFloat.float]), numpy
    grid arrays are lists of rows, and a method that mutates [self] or may
    raise is a function from the object to an outcome and the object as the
    call leaves it: a raised exception keeps every assignment made before
    it.  Classes of the package that the two modules only call into
    (CoilSet, Profile, the Grad-Shafranov solver, the critical-point finder,
    the controllers, ...) are interfaces, given as type classes. *)

From Stdlib Require Import Floats.PrimFloat ZArith List String Ascii Bool Lia.
From Stdlib Require Import DecimalString.
Import ListNotations.

Set Implicit Arguments.

(** ** Exceptions and the state-and-exception monad *)

Inductive exn : Type :=
| EquilibriaError (msg : string)
| AdvectionTransportError (msg : string)
| ValueError (msg : string)
| TypeError
| NotImplementedError
| AttributeError
| IndexError
| FileNotFoundError
| InternalOptError
| StopIteration.

Inductive outcome (A : Type) : Type :=
| Return (a : A)
| Raise (e : exn).

Arguments Return {A} a.
Arguments Raise {A} e.

(** A method of an object of type [S] with a result in [A]. *)
Definition M (S A : Type) : Type := S -> outcome A * S.

Definition ret {S A} (a : A) : M S A := fun s => (Return a, s).

Definition bind {S A B} (m : M S A) (k : A -> M S B) : M S B :=
  fun s =>
    match m s with
    | (Return a, s') => k a s'
    | (Raise e, s') => (Raise e, s')
    end.

Definition raise {S A} (e : exn) : M S A := fun s => (Raise e, s).

Definition getattr {S A} (f : S -> A) : M S A := fun s => (Return (f s), s).

Definition setattr {S} (f : S -> S) : M S unit := fun s => (Return tt, f s).

(** [lift_outcome o]: a call that cannot touch [self]. *)
Definition lift_outcome {S A} (o : outcome A) : M S A := fun s => (o, s).

(** [try: body except E: handler], where [catches e] says whether [e] is
    an instance of [E]. *)
Definition try_except {S A} (body : M S A) (catches : exn -> bool)
    (handler : M S A) : M S A :=
  fun s =>
    match body s with
    | (Return a, s') => (Return a, s')
    | (Raise e, s') => if catches e then handler s' else (Raise e, s')
    end.

Declare Scope py_scope.
Delimit Scope py_scope with py.
Notation "x <- m ;; k" := (bind m (fun x => k))
  (at level 61, m at next level, right associativity) : py_scope.
Notation "m ;;; k" := (bind m (fun _ => k))
  (at level 61, right associativity) : py_scope.

Definition is_StopIteration (e : exn) : bool :=
  match e with StopIteration => true | _ => false end.

(** [keeps R m]: however the method [m] ends, by returning or by raising,
    the object it leaves is related by [R] to the object it found. *)
Definition keeps {S A : Type} (R : S -> S -> Prop) (m : M S A) : Prop :=
  forall s : S, R s (snd (m s)).

(** ** Numbers and numpy arrays *)

(** A 2-D array over the grid, as the list of its rows. *)
Definition ndarray : Type := list (list float).

(** [Union[float, np.ndarray]]. *)
Inductive arraylike : Type :=
| Scalar (v : float)
| Array (a : ndarray).

Fixpoint zip_with {A B C} (f : A -> B -> C) (l : list A) (m : list B) : list C :=
  match l, m with
  | a :: l', b :: m' => f a b :: zip_with f l' m'
  | _, _ => []
  end.

(** Element-wise operations.  Every array met here lives on the one grid of
    its state, so both operands have the same shape. *)
Definition arr_map (f : float -> float) (a : ndarray) : ndarray :=
  map (map f) a.

Definition arr_map2 (f : float -> float -> float) (a b : ndarray) : ndarray :=
  zip_with (zip_with f) a b.

(** numpy broadcasting of a binary operation over floats and grid arrays. *)
Definition broadcast (f : float -> float -> float) (a b : arraylike) : arraylike :=
  match a, b with
  | Scalar u, Scalar v => Scalar (f u v)
  | Scalar u, Array y => Array (arr_map (f u) y)
  | Array x, Scalar v => Array (arr_map (fun u => f u v) x)
  | Array x, Array y => Array (arr_map2 f x y)
  end.

Definition np_add : arraylike -> arraylike -> arraylike := broadcast PrimFloat.add.
Definition np_sub : arraylike -> arraylike -> arraylike := broadcast PrimFloat.sub.
Definition np_mul : arraylike -> arraylike -> arraylike := broadcast PrimFloat.mul.
Definition np_div : arraylike -> arraylike -> arraylike := broadcast PrimFloat.div.

(** Unary numpy functions: [-a], [a ** 2] and a function mapped over [a]. *)
Definition np_map (f : float -> float) (a : arraylike) : arraylike :=
  match a with
  | Scalar v => Scalar (f v)
  | Array x => Array (arr_map f x)
  end.

Definition np_neg : arraylike -> arraylike := np_map PrimFloat.opp.
Definition np_square : arraylike -> arraylike := np_map (fun u => PrimFloat.mul u u).

(** [a[i, j]]. *)
Definition arr_get (a : ndarray) (i j : nat) : option float :=
  match nth_error a i with
  | Some row => nth_error row j
  | None => None
  end.

(** [n_x, n_z = a.shape]: unpacking the shape of a float fails. *)
Definition shape (a : arraylike) : option (Z * Z) :=
  match a with
  | Scalar _ => None
  | Array rows => Some (Z.of_nat (List.length rows), Z.of_nat (List.length (hd [] rows)))
  end.

(** [np.isnan(u)]. *)
Definition np_isnan (u : float) : bool := negb (PrimFloat.eqb u u).

(** One step of numpy's minimum reduction: the value held stays when it is
    less than the next one or is not a number; otherwise the next one is
    taken, so that a NaN anywhere in the array is the result. *)
Definition np_minimum_step (m u : float) : float :=
  if PrimFloat.ltb m u || np_isnan m then m else u.

(** [np.amin(a)]: a [ValueError] for an array without elements. *)
Definition np_amin (a : arraylike) : outcome float :=
  match a with
  | Scalar v => Return v
  | Array rows =>
      match List.concat rows with
      | [] =>
          Raise (ValueError
            "zero-size array to reduction operation minimum which has no identity")
      | v :: vs => Return (fold_left np_minimum_step vs v)
      end
  end.

(** Python's [!=] and [<=] on floats. *)
Definition py_ne (a b : float) : bool := negb (PrimFloat.eqb a b).
Definition py_le (a b : float) : bool := PrimFloat.leb a b.

(** [min(v, *vs)] of floats. *)
Definition fmin (a b : float) : float := if PrimFloat.ltb b a then b else a.

Definition minimum (v : float) (vs : list float) : float := fold_left fmin vs v.

(** ** Strings *)

(** [pat in s]. *)
Fixpoint contains (pat s : string) : bool :=
  String.prefix pat s ||
  match s with
  | EmptyString => false
  | String _ s' => contains pat s'
  end.

Definition lower_ascii (c : ascii) : ascii :=
  let n := nat_of_ascii c in
  if (65 <=? n)%nat && (n <=? 90)%nat then ascii_of_nat (n + 32) else c.

(** [s.lower()], on ASCII. *)
Fixpoint lower (s : string) : string :=
  match s with
  | EmptyString => EmptyString
  | String c s' => String (lower_ascii c) (lower s')
  end.

(** [s.endswith(suf)]. *)
Definition endswith (s suf : string) : bool :=
  let n := String.length s in
  let k := String.length suf in
  (k <=? n)%nat && String.eqb (String.substring (n - k) k s) suf.

(** ** Data of the collaborating modules *)

(** [bluemira.equilibria.grid.Grid]: the attributes the states read. *)
Record Grid : Type := {
  x_min : float; x_max : float; z_min : float; z_max : float;
  nx : Z; nz : Z;
  grid_dx : float; grid_dz : float;
  grid_x : arraylike; grid_z : arraylike;
  x_1d : list float; z_1d : list float;
  x_size : float; z_size : float; z_mid : float
}.

(** [bluemira.equilibria.find.Opoint] and [Xpoint]: [(x, z, psi)]. *)
Record Opoint : Type := { Opoint_x : float; Opoint_z : float; Opoint_psi : float }.
Record Xpoint : Type := { Xpoint_x : float; Xpoint_z : float; Xpoint_psi : float }.

(** [bluemira.equilibria.limiter.Limiter(x, z)]. *)
Record Limiter : Type := { limiter_x : list float; limiter_z : list float }.

(** [bluemira.geometry.coordinates.Coordinates] in the x-z plane. *)
Record Coordinates : Type := { coords_x : list float; coords_z : list float }.

(** The dictionary built by [Equilibrium.to_dict], and the
    [EQDSKInterface] object made from its keys in [to_eqdsk]: one field
    per key.  A key that may be absent is an [option]. *)
Record EQDSKInterface : Type := {
  name : option string;
  e_nx : Z; e_nz : Z;
  xdim : float; zdim : float;
  e_x : list float; e_z : list float;
  xcentre : float; bcentre : float;
  xgrid1 : float; zmid : float;
  xmag : float; zmag : float; psimag : float; psibdry : float;
  cplasma : float;
  e_psi : arraylike;
  fpol : list float; e_ffprime : list float; e_pprime : list float;
  e_pressure : list float; psinorm : list float;
  nbdry : Z; xbdry : list float; zbdry : list float;
  ncoil : Z;
  xc : list float; zc : list float; dxc : list float; dzc : list float;
  Ic : list float;
  qpsi : option (list float);
  nlim : Z; xlim : list float; zlim : list float
}.

(** [np.pi]. *)
Definition np_pi : float := 0x1.921fb54442d18p+1%float.

Definition set_name (e : EQDSKInterface) (n : string) : EQDSKInterface :=
  {| name := Some n;
     e_nx := e_nx e; e_nz := e_nz e; xdim := xdim e; zdim := zdim e;
     e_x := e_x e; e_z := e_z e; xcentre := xcentre e; bcentre := bcentre e;
     xgrid1 := xgrid1 e; zmid := zmid e; xmag := xmag e; zmag := zmag e;
     psimag := psimag e; psibdry := psibdry e; cplasma := cplasma e;
     e_psi := e_psi e; fpol := fpol e; e_ffprime := e_ffprime e;
     e_pprime := e_pprime e; e_pressure := e_pressure e; psinorm := psinorm e;
     nbdry := nbdry e; xbdry := xbdry e; zbdry := zbdry e; ncoil := ncoil e;
     xc := xc e; zc := zc e; dxc := dxc e; dzc := dzc e; Ic := Ic e;
     qpsi := qpsi e; nlim := nlim e; xlim := xlim e; zlim := zlim e |}.

(** [e.dxc = e.dxc / 2; e.dzc = e.dzc / 2]. *)
Definition halve_coil_sizes (e : EQDSKInterface) : EQDSKInterface :=
  {| name := name e;
     e_nx := e_nx e; e_nz := e_nz e; xdim := xdim e; zdim := zdim e;
     e_x := e_x e; e_z := e_z e; xcentre := xcentre e; bcentre := bcentre e;
     xgrid1 := xgrid1 e; zmid := zmid e; xmag := xmag e; zmag := zmag e;
     psimag := psimag e; psibdry := psibdry e; cplasma := cplasma e;
     e_psi := e_psi e; fpol := fpol e; e_ffprime := e_ffprime e;
     e_pprime := e_pprime e; e_pressure := e_pressure e; psinorm := psinorm e;
     nbdry := nbdry e; xbdry := xbdry e; zbdry := zbdry e; ncoil := ncoil e;
     xc := xc e; zc := zc e;
     dxc := map (fun d => PrimFloat.div d 2) (dxc e);
     dzc := map (fun d => PrimFloat.div d 2) (dzc e);
     Ic := Ic e;
     qpsi := qpsi e; nlim := nlim e; xlim := xlim e; zlim := zlim e |}.

(** [e.cplasma = abs(e.cplasma)]. *)
Definition abs_cplasma (e : EQDSKInterface) : EQDSKInterface :=
  {| name := name e;
     e_nx := e_nx e; e_nz := e_nz e; xdim := xdim e; zdim := zdim e;
     e_x := e_x e; e_z := e_z e; xcentre := xcentre e; bcentre := bcentre e;
     xgrid1 := xgrid1 e; zmid := zmid e; xmag := xmag e; zmag := zmag e;
     psimag := psimag e; psibdry := psibdry e;
     cplasma := PrimFloat.abs (cplasma e);
     e_psi := e_psi e; fpol := fpol e; e_ffprime := e_ffprime e;
     e_pprime := e_pprime e; e_pressure := e_pressure e; psinorm := psinorm e;
     nbdry := nbdry e; xbdry := xbdry e; zbdry := zbdry e; ncoil := ncoil e;
     xc := xc e; zc := zc e; dxc := dxc e; dzc := dzc e; Ic := Ic e;
     qpsi := qpsi e; nlim := nlim e; xlim := xlim e; zlim := zlim e |}.

(** ** Interfaces of the collaborating classes *)

(** [bluemira.equilibria.coils.CoilSet], with [symmetrise_coilset]. *)
Class CoilSetAPI (CoilSet : Type) : Type := {
  Greens : Type;
  psi_response : CoilSet -> arraylike -> arraylike -> Greens;
  Bx_response : CoilSet -> arraylike -> arraylike -> Greens;
  Bz_response : CoilSet -> arraylike -> arraylike -> Greens;
  _psi_greens : CoilSet -> Greens -> arraylike;
  _Bx_greens : CoilSet -> Greens -> arraylike;
  _Bz_greens : CoilSet -> Greens -> arraylike;
  coilset_psi : CoilSet -> option arraylike -> option arraylike -> arraylike;
  coilset_Bx : CoilSet -> option arraylike -> option arraylike -> arraylike;
  coilset_Bz : CoilSet -> option arraylike -> option arraylike -> arraylike;
  to_group_vecs :
    CoilSet -> list float * list float * list float * list float * list float;
  from_group_vecs : EQDSKInterface -> CoilSet;
  n_coils : CoilSet -> Z;
  symmetrise_coilset : CoilSet -> CoilSet
}.

(** [bluemira.equilibria.profiles.Profile]; [BetaLiIpProfile] is the
    variant with an inductance target. *)
Class ProfileAPI (Profile : Type) : Type := {
  jtor :
    Profile -> arraylike -> arraylike -> arraylike ->
    option (list Opoint) -> option (list Xpoint) -> arraylike;
  is_BetaLiIpProfile : Profile -> bool;
  _l_i_target : Profile -> float;
  _l_i_rel_tol : Profile -> float;
  shape_coeffs : Profile -> list float;
  shape_adjust_parameters : Profile -> list float -> Profile;
  R_0 : Profile -> float;
  I_p : Profile -> float;
  _B_0 : Profile -> float;
  profile_fRBpol : Profile -> list float -> list float;
  profile_ffprime : Profile -> list float -> list float;
  profile_pprime : Profile -> list float -> list float;
  profile_pressure : Profile -> list float -> list float;
  CustomProfile_from_eqdsk : EQDSKInterface -> Profile
}.

(** [bluemira.equilibria.plasma.PlasmaCoil(plasma_psi, j_tor, grid)] keeps
    its arguments; [NoPlasmaCoil(grid)] is the plasma of a breakdown. *)
Record PlasmaCoil : Type := {
  plasma_psi : arraylike;
  j_tor : option arraylike;
  plasma_grid : Grid
}.

Record NoPlasmaCoil : Type := { no_plasma_grid : Grid }.

(** [GSSolver(grid, force_symmetry=...)] and [FreeBoundary(grid)]. *)
Record GSSolver : Type := { solver_grid : Grid; solver_force_symmetry : bool }.
Record FreeBoundary : Type := { boundary_grid : Grid }.

(** [scipy.optimize.minimize] as the caller sees it: a strategy that asks
    for the objective at a point and goes on from its value, or stops with
    a result [(x, success, status)].  Every run asks finitely often. *)
Record OptimizeResult : Type := {
  res_x : list float; res_success : bool; res_status : Z
}.

Inductive optimiser : Type :=
| Finish (res : OptimizeResult)
| Evaluate (x : list float) (k : float -> optimiser).

(** Functions imported from [bluemira.base.constants],
    [bluemira.equilibria.boundary], [.find], [.grad_shafranov], [.grid],
    [.physics], [.plasma], [bluemira.optimisation._tools],
    [bluemira.utilities.tools], numpy and scipy.  [FreeBoundary_call] and
    [apply_boundary] work in place in Python; here they return the array
    they leave. *)
Class EquilibriaLib : Type := {
  MU_0 : float;
  np_exp : float -> float;
  np_hypot : float -> float -> float;
  np_linspace : float -> float -> Z -> list float;
  Grid_from_eqdsk : EQDSKInterface -> Grid;
  find_OX_points :
    arraylike -> arraylike -> arraylike -> option Limiter -> list Opoint * list Xpoint;
  in_plasma :
    arraylike -> arraylike -> arraylike ->
    option (list Opoint) -> option (list Xpoint) -> arraylike;
  find_LCFS_separatrix :
    arraylike -> arraylike -> arraylike ->
    option (list Opoint) -> option (list Xpoint) -> float -> Coordinates;
  FreeBoundary_call : FreeBoundary -> arraylike -> arraylike -> arraylike;
  apply_boundary : arraylike -> arraylike -> arraylike;
  GSSolver_call : GSSolver -> arraylike -> arraylike;
  PlasmaCoil_psi : PlasmaCoil -> option arraylike -> option arraylike -> arraylike;
  PlasmaCoil_Bx : PlasmaCoil -> option arraylike -> option arraylike -> arraylike;
  PlasmaCoil_Bz : PlasmaCoil -> option arraylike -> option arraylike -> arraylike;
  calc_li3minargs :
    arraylike -> arraylike -> arraylike -> arraylike -> float -> float -> float ->
    float -> arraylike -> float;
  abs_rel_difference : float -> float -> float;
  minimize : list float -> list (float * float) -> optimiser;
  process_scipy_result : OptimizeResult -> outcome (list float);
  get_bluemira_path : string -> string -> outcome string;
  Path : string -> string -> string
}.

(** Modelled from the spec: [EQDSKInterface.write] and
    [EQDSKInterface.from_file] of [bluemira.equilibria.file], which are not
    among the sources.  The exchange schema is "produced by a to_dict /
    serialize step, consumed by a from_* loader" and both "must match": the
    files are a map from paths to the records written, and reading a path
    gives back the record last written there. *)
Definition files : Type := string -> option EQDSKInterface.

Definition EQDSKInterface_write (fs : files) (path : string) (e : EQDSKInterface) :
    files :=
  fun p => if String.eqb p path then Some e else fs p.

Definition EQDSKInterface_from_file (fs : files) (path : string) :
    outcome EQDSKInterface :=
  match fs path with
  | Some e => Return e
  | None => Raise FileNotFoundError
  end.

(** In [MHDState._get_eqdsk], a class method, [isinstance(cls, Breakdown)]
    asks whether the class object is an instance of [Breakdown]: it is not,
    for [Breakdown] and [Equilibrium] alike. *)
Definition isinstance_cls_Breakdown : bool := false.

Set Warnings "-inexact-float".

(** ** [MHDState] and [CoilSetMHDState]: what both states inherit *)

(** The starting flux of [CoilSetMHDState._set_init_plasma] when no [psi]
    is passed: a Gaussian bump on the normed grid with its edge set to 0.
    [x] and [z] are [self.x] and [self.z]. *)
Definition initial_psi_guess `{EquilibriaLib} (grid : Grid) (x z : arraylike) : arraylike :=
  let zm := (1 - z_max grid / (z_max grid - z_min grid))%float in
  let xn := np_div x (Scalar (x_max grid)) in
  let zn :=
    np_div (np_sub z (Scalar (z_min grid)))
           (Scalar (z_max grid - z_min grid)%float) in
  let psi :=
    np_mul (Scalar 100%float)
      (np_map np_exp
         (np_div
            (np_neg (np_add (np_square (np_sub xn (Scalar 0.5%float)))
                            (np_square (np_sub zn (Scalar zm)))))
            (Scalar 0.1%float))) in
  apply_boundary psi (Scalar 0%float).

(** The flux that [_set_init_plasma] returns. *)
Definition init_psi `{EquilibriaLib} (grid : Grid) (x z : arraylike)
    (psi : option arraylike) : arraylike :=
  match psi with
  | None => initial_psi_guess grid x z
  | Some p => p
  end.

(** ** [Breakdown] *)

Module Breakdown.
Section Breakdown.
Context {CoilSet : Type} `{CoilSetAPI CoilSet} `{EquilibriaLib}.

Record t : Type := {
  x : arraylike; z : arraylike; dx : float; dz : float; grid : Grid;
  limiter : option Limiter;
  _psi_green : Greens; _bx_green : Greens; _bz_green : Greens;
  coilset : CoilSet;
  plasma : NoPlasmaCoil;
  breakdown_point : float * float;
  filename : option string
}.

(** The keyword arguments that [__init__] looks up in [**kwargs]. *)
Record kwargs : Type := {
  kw_limiter : option Limiter;
  kw_breakdown_point : option (float * float)
}.

(** [kwargs.get(key, default)]. *)
Definition kwargs_get {A} (v : option A) (default : A) : A :=
  match v with
  | Some a => a
  | None => default
  end.

(** [Breakdown.__init__(coilset, grid, psi, filename, **kwargs)].
    [set_grid] copies the grid's coordinates and spacing,
    [_set_init_plasma] maps the Green's functions ([_remap_greens]) and its
    flux is dropped. *)
Definition __init__ (coilset0 : CoilSet) (grid0 : Grid) (psi0 : option arraylike)
    (filename0 : option string) (kw : kwargs) : t :=
  let x0 := grid_x grid0 in
  let z0 := grid_z grid0 in
  let _psi := init_psi grid0 x0 z0 psi0 in
  let x_mid := (x_min grid0 + 0.5 * (x_max grid0 + x_min grid0))%float in
  {| x := x0; z := z0; dx := grid_dx grid0; dz := grid_dz grid0; grid := grid0;
     limiter := kwargs_get (option_map Some (kw_limiter kw)) None;
     _psi_green := psi_response coilset0 x0 z0;
     _bx_green := Bx_response coilset0 x0 z0;
     _bz_green := Bz_response coilset0 x0 z0;
     coilset := coilset0;
     plasma := {| no_plasma_grid := grid0 |};
     breakdown_point := kwargs_get (kw_breakdown_point kw) (x_mid, 0%float);
     filename := filename0 |}.

(** [set_breakdown_point(x_bd, z_bd)]. *)
Definition set_breakdown_point (self : t) (x_bd z_bd : float) : t :=
  {| x := x self; z := z self; dx := dx self; dz := dz self; grid := grid self;
     limiter := limiter self;
     _psi_green := _psi_green self; _bx_green := _bx_green self;
     _bz_green := _bz_green self;
     coilset := coilset self; plasma := plasma self;
     breakdown_point := (x_bd, z_bd);
     filename := filename self |}.

(** [psi(x=None, z=None)]: the whole map from the Green's functions, or the
    coilset's flux at the given coordinates. *)
Definition psi (self : t) (x0 z0 : option arraylike) : arraylike :=
  match x0, z0 with
  | None, None => _psi_greens (coilset self) (_psi_green self)
  | _, _ => coilset_psi (coilset self) x0 z0
  end.

(** The property [breakdown_psi]: [self.psi( *self.breakdown_point)]. *)
Definition breakdown_psi (self : t) : arraylike :=
  let '(x_bd, z_bd) := breakdown_point self in
  psi self (Some (Scalar x_bd)) (Some (Scalar z_bd)).

(** The flux map sampled on a list of points, for statements about the
    edge of a region: each point queried as [psi(x, z)]. *)
Definition psi_samples (self : t) (pts : list (float * float)) : list arraylike :=
  map (fun p => psi self (Some (Scalar (fst p))) (Some (Scalar (snd p)))) pts.

End Breakdown.
End Breakdown.

(** ** [Equilibrium] *)

Definition dquote : string := String (ascii_of_nat 34) EmptyString.
Definition newline : string := String (ascii_of_nat 10) EmptyString.

(** [QpsiCalcMode]. *)
Inductive QpsiCalcMode : Type := NO_CALC | CALC | ZEROS.

(** [str(n)] of an integer. *)
Definition str_int (n : Z) : string := NilZero.string_of_int (Z.to_int n).

(** [QpsiCalcMode(n)]: a [ValueError] for a number that is no mode. *)
Definition QpsiCalcMode_of_int (n : Z) : outcome QpsiCalcMode :=
  if (n =? 0)%Z then Return NO_CALC
  else if (n =? 1)%Z then Return CALC
  else if (n =? 2)%Z then Return ZEROS
  else Raise (ValueError (str_int n ++ " is not a valid QpsiCalcMode")).

(** [not l] for a list or [None]. *)
Definition py_not {A} (l : option (list A)) : bool :=
  match l with
  | None => true
  | Some [] => true
  | Some (_ :: _) => false
  end.

(** [l[0]]. *)
Definition first {A} (l : option (list A)) : outcome A :=
  match l with
  | None => Raise TypeError
  | Some [] => Raise IndexError
  | Some (a :: _) => Return a
  end.

Module Equilibrium.
Section Equilibrium.
Context {CoilSet Profile Controller : Type}
        `{CoilSetAPI CoilSet} `{ProfileAPI Profile} `{EquilibriaLib}.

Local Open Scope py_scope.

Record t : Type := {
  x : arraylike; z : arraylike; dx : float; dz : float; grid : Grid;
  limiter : option Limiter;
  _psi_green : Greens; _bx_green : Greens; _bz_green : Greens;
  coilset : CoilSet;
  _jtor : option arraylike;
  profiles : Profile;
  _o_points : option (list Opoint);
  _x_points : option (list Xpoint);
  _solver : GSSolver;
  _eqdsk : option EQDSKInterface;
  _li_flag : bool;
  _li : option float;
  _li_iter : Z;
  _li_temp : option float;
  plasma : PlasmaCoil;
  force_symmetry : bool;
  controller : option Controller;
  boundary : FreeBoundary;
  filename : option string;
  _kwargs_vcontrol : option string;
  _plasmacoil : option PlasmaCoil
}.

(** Assignments to the attributes that the methods below write. *)
Definition set_OX_points (o : option (list Opoint)) (xp : option (list Xpoint))
    (s : t) : t :=
  Build_t (x s) (z s) (dx s) (dz s) (grid s) (limiter s) (_psi_green s)
    (_bx_green s) (_bz_green s) (coilset s) (_jtor s) (profiles s) o xp
    (_solver s) (_eqdsk s) (_li_flag s) (_li s) (_li_iter s) (_li_temp s)
    (plasma s) (force_symmetry s) (controller s) (boundary s) (filename s)
    (_kwargs_vcontrol s) (_plasmacoil s).

Definition set_jtor (j : option arraylike) (s : t) : t :=
  Build_t (x s) (z s) (dx s) (dz s) (grid s) (limiter s) (_psi_green s)
    (_bx_green s) (_bz_green s) (coilset s) j (profiles s) (_o_points s)
    (_x_points s) (_solver s) (_eqdsk s) (_li_flag s) (_li s) (_li_iter s)
    (_li_temp s) (plasma s) (force_symmetry s) (controller s) (boundary s)
    (filename s) (_kwargs_vcontrol s) (_plasmacoil s).

Definition set_profiles (p : Profile) (s : t) : t :=
  Build_t (x s) (z s) (dx s) (dz s) (grid s) (limiter s) (_psi_green s)
    (_bx_green s) (_bz_green s) (coilset s) (_jtor s) p (_o_points s)
    (_x_points s) (_solver s) (_eqdsk s) (_li_flag s) (_li s) (_li_iter s)
    (_li_temp s) (plasma s) (force_symmetry s) (controller s) (boundary s)
    (filename s) (_kwargs_vcontrol s) (_plasmacoil s).

Definition set_li_iter (n : Z) (s : t) : t :=
  Build_t (x s) (z s) (dx s) (dz s) (grid s) (limiter s) (_psi_green s)
    (_bx_green s) (_bz_green s) (coilset s) (_jtor s) (profiles s)
    (_o_points s) (_x_points s) (_solver s) (_eqdsk s) (_li_flag s) (_li s) n
    (_li_temp s) (plasma s) (force_symmetry s) (controller s) (boundary s)
    (filename s) (_kwargs_vcontrol s) (_plasmacoil s).

Definition set_li_temp (v : option float) (s : t) : t :=
  Build_t (x s) (z s) (dx s) (dz s) (grid s) (limiter s) (_psi_green s)
    (_bx_green s) (_bz_green s) (coilset s) (_jtor s) (profiles s)
    (_o_points s) (_x_points s) (_solver s) (_eqdsk s) (_li_flag s) (_li s)
    (_li_iter s) v (plasma s) (force_symmetry s) (controller s) (boundary s)
    (filename s) (_kwargs_vcontrol s) (_plasmacoil s).

Definition set_plasma (p : PlasmaCoil) (s : t) : t :=
  Build_t (x s) (z s) (dx s) (dz s) (grid s) (limiter s) (_psi_green s)
    (_bx_green s) (_bz_green s) (coilset s) (_jtor s) (profiles s)
    (_o_points s) (_x_points s) (_solver s) (_eqdsk s) (_li_flag s) (_li s)
    (_li_iter s) (_li_temp s) p (force_symmetry s) (controller s) (boundary s)
    (filename s) (_kwargs_vcontrol s) (_plasmacoil s).

Definition set_controller (c : option Controller) (s : t) : t :=
  Build_t (x s) (z s) (dx s) (dz s) (grid s) (limiter s) (_psi_green s)
    (_bx_green s) (_bz_green s) (coilset s) (_jtor s) (profiles s)
    (_o_points s) (_x_points s) (_solver s) (_eqdsk s) (_li_flag s) (_li s)
    (_li_iter s) (_li_temp s) (plasma s) (force_symmetry s) c (boundary s)
    (filename s) (_kwargs_vcontrol s) (_plasmacoil s).

Definition set_filename (f : option string) (s : t) : t :=
  Build_t (x s) (z s) (dx s) (dz s) (grid s) (limiter s) (_psi_green s)
    (_bx_green s) (_bz_green s) (coilset s) (_jtor s) (profiles s)
    (_o_points s) (_x_points s) (_solver s) (_eqdsk s) (_li_flag s) (_li s)
    (_li_iter s) (_li_temp s) (plasma s) (force_symmetry s) (controller s)
    (boundary s) f (_kwargs_vcontrol s) (_plasmacoil s).

Definition set_plasmacoil (p : option PlasmaCoil) (s : t) : t :=
  Build_t (x s) (z s) (dx s) (dz s) (grid s) (limiter s) (_psi_green s)
    (_bx_green s) (_bz_green s) (coilset s) (_jtor s) (profiles s)
    (_o_points s) (_x_points s) (_solver s) (_eqdsk s) (_li_flag s) (_li s)
    (_li_iter s) (_li_temp s) (plasma s) (force_symmetry s) (controller s)
    (boundary s) (filename s) (_kwargs_vcontrol s) p.

(** The end of [__init__]: [self.limiter], [self.filename], [self._kwargs]. *)
Definition set_limiter_filename_kwargs (l : option Limiter) (f : option string)
    (v : option string) (s : t) : t :=
  Build_t (x s) (z s) (dx s) (dz s) (grid s) l (_psi_green s)
    (_bx_green s) (_bz_green s) (coilset s) (_jtor s) (profiles s)
    (_o_points s) (_x_points s) (_solver s) (_eqdsk s) (_li_flag s) (_li s)
    (_li_iter s) (_li_temp s) (plasma s) (force_symmetry s) (controller s)
    (boundary s) f v (_plasmacoil s).

(** [bluemira.equilibria.num_control]: the two controllers, which the
    equilibrium builds and calls.  [VirtualController(eq, gz)] keeps the
    equilibrium it is given, so [stabilise] reads the equilibrium as it is
    at the call.  [Equilibrium_q] is the method [Equilibrium.q], which
    [to_dict] calls in [CALC] mode only and which is taken as given. *)
Class ControllerAPI : Type := {
  DummyController : arraylike -> Controller;
  VirtualController : t -> float -> Controller;
  stabilise : Controller -> t -> Controller;
  controller_psi : Controller -> arraylike;
  Equilibrium_q :
    list float -> option (list Opoint) -> option (list Xpoint) -> M t (list float)
}.

Context `{ControllerAPI}.

(** [self.controller], which is [None] until [set_vcontrol] ran. *)
Definition the_controller : M t Controller :=
  fun self =>
    match controller self with
    | Some c => (Return c, self)
    | None => (Raise AttributeError, self)
    end.

(** [self.controller.stabilise()]. *)
Definition controller_stabilise : M t unit :=
  c <- the_controller ;;
  setattr (fun self => set_controller (Some (stabilise c self)) self).

(** [_clear_OX_points()]. *)
Definition _clear_OX_points : M t unit := setattr (set_OX_points None None).

(** [_update_plasma(plasma_psi, j_tor)]. *)
Definition _update_plasma (plasma_psi0 : arraylike) (j_tor0 : option arraylike) :
    M t unit :=
  setattr (fun self =>
    set_plasma {| plasma_psi := plasma_psi0; j_tor := j_tor0;
                  plasma_grid := grid self |} self).

(** [psi(x=None, z=None)]. *)
Definition psi (x0 z0 : option arraylike) : M t arraylike :=
  match x0, z0 with
  | None, None =>
      j <- getattr _jtor ;;
      match j with
      | Some _ => controller_stabilise
      | None => ret tt
      end ;;;
      self <- getattr (fun self => self) ;;
      let plasma_and_coils :=
        np_add (PlasmaCoil_psi (plasma self) None None)
               (_psi_greens (coilset self) (_psi_green self)) in
      c <- the_controller ;;
      ret (np_add plasma_and_coils (controller_psi c))
  | _, _ =>
      getattr (fun self =>
        np_add (PlasmaCoil_psi (plasma self) x0 z0)
               (coilset_psi (coilset self) x0 z0))
  end.

(** [Bx(x=None, z=None)], [Bz(x=None, z=None)] and [Bp(x=None, z=None)]. *)
Definition Bx (x0 z0 : option arraylike) : M t arraylike :=
  match x0, z0 with
  | None, None =>
      getattr (fun self =>
        np_add (PlasmaCoil_Bx (plasma self) None None)
               (_Bx_greens (coilset self) (_bx_green self)))
  | _, _ =>
      getattr (fun self =>
        np_add (PlasmaCoil_Bx (plasma self) x0 z0)
               (coilset_Bx (coilset self) x0 z0))
  end.

Definition Bz (x0 z0 : option arraylike) : M t arraylike :=
  match x0, z0 with
  | None, None =>
      getattr (fun self =>
        np_add (PlasmaCoil_Bz (plasma self) None None)
               (_Bz_greens (coilset self) (_bz_green self)))
  | _, _ =>
      getattr (fun self =>
        np_add (PlasmaCoil_Bz (plasma self) x0 z0)
               (coilset_Bz (coilset self) x0 z0))
  end.

Definition Bp (x0 z0 : option arraylike) : M t arraylike :=
  bx <- Bx x0 z0 ;;
  bz <- Bz x0 z0 ;;
  ret (broadcast np_hypot bx bz).

(** [if psi is None: psi = self.psi()], as [solve], [solve_li],
    [get_OX_points] and [get_LCFS] begin. *)
Definition psi_or_default (psi0 : option arraylike) : M t arraylike :=
  match psi0 with
  | None => psi None None
  | Some p => ret p
  end.

(** [get_OX_points(psi=None, force_update=False)]. *)
Definition get_OX_points (psi0 : option arraylike) (force_update : bool) :
    M t (option (list Opoint) * option (list Xpoint)) :=
  cached <- getattr (fun self => (_o_points self, _x_points self)) ;;
  let both_none :=
    match cached with
    | (None, None) => true
    | _ => false
    end in
  (if both_none || force_update then
     psi1 <- psi_or_default psi0 ;;
     setattr (fun self =>
       let found := find_OX_points (x self) (z self) psi1 (limiter self) in
       set_OX_points (Some (fst found)) (Some (snd found)) self)
   else ret tt) ;;;
  getattr (fun self => (_o_points self, _x_points self)).

(** [get_LCFS(psi=None, psi_n_tol=1e-6)]. *)
Definition get_LCFS (psi0 : option arraylike) (psi_n_tol : float) : M t Coordinates :=
  psi1 <- psi_or_default psi0 ;;
  ox <- get_OX_points (Some psi1) false ;;
  getattr (fun self =>
    find_LCFS_separatrix (x self) (z self) psi1 (fst ox) (snd ox) psi_n_tol).

(** [set_vcontrol(vcontrol=None)]. *)
Definition set_vcontrol (vcontrol : option string) : M t unit :=
  match vcontrol with
  | Some v =>
      if String.eqb v "virtual" then
        setattr (fun self =>
          set_controller (Some (VirtualController self 2.2%float)) self)
      else if String.eqb v "feedback" then raise NotImplementedError
      else
        raise (ValueError
          ("Please select a numerical stabilisation strategy from: 1) "
           ++ dquote ++ "virtual" ++ dquote ++ " " ++ newline ++ " 2) "
           ++ dquote ++ "feedback" ++ dquote ++ " 3) None."))
  | None =>
      setattr (fun self =>
        set_controller
          (Some (DummyController (PlasmaCoil_psi (plasma self) None None))) self)
  end.

(** [Equilibrium.__init__(coilset, grid, profiles, force_symmetry, vcontrol,
    limiter, psi, jtor, filename)].  The inductance attributes [_li],
    [_li_iter] and [_li_temp] exist only for a [BetaLiIpProfile]; without
    one they read [None], 0 and [None] here.  The object as it is when
    [set_vcontrol] is called: [set_grid] has set the coordinates and the
    solver, [_set_init_plasma] has mapped the Green's functions, taken the
    coils' flux off the starting flux and built the plasma; the controller
    and the limiter are still [None]. *)
Definition before_set_vcontrol (coilset0 : CoilSet) (grid0 : Grid)
    (profiles0 : Profile) (force_symmetry0 : bool) (psi0 jtor0 : option arraylike) : t :=
  let x0 := grid_x grid0 in
  let z0 := grid_z grid0 in
  let li_flag := is_BetaLiIpProfile profiles0 in
  let psi1 := init_psi grid0 x0 z0 psi0 in
  let psi2 := np_sub psi1 (coilset_psi coilset0 (Some x0) (Some z0)) in
  {| x := x0; z := z0; dx := grid_dx grid0; dz := grid_dz grid0; grid := grid0;
     limiter := None;
     _psi_green := psi_response coilset0 x0 z0;
     _bx_green := Bx_response coilset0 x0 z0;
     _bz_green := Bz_response coilset0 x0 z0;
     coilset := coilset0;
     _jtor := jtor0;
     profiles := profiles0;
     _o_points := None; _x_points := None;
     _solver := {| solver_grid := grid0; solver_force_symmetry := force_symmetry0 |};
     _eqdsk := None;
     _li_flag := li_flag;
     _li := if li_flag then Some (_l_i_target profiles0) else None;
     _li_iter := 0;
     _li_temp := None;
     plasma := {| plasma_psi := psi2; j_tor := jtor0; plasma_grid := grid0 |};
     force_symmetry := force_symmetry0;
     controller := None;
     boundary := {| boundary_grid := grid0 |};
     filename := None;
     _kwargs_vcontrol := None;
     _plasmacoil := None |}.

Definition __init__ (coilset0 : CoilSet) (grid0 : Grid) (profiles0 : Profile)
    (force_symmetry0 : bool) (vcontrol : option string)
    (limiter0 : option Limiter) (psi0 jtor0 : option arraylike)
    (filename0 : option string) : outcome t :=
  let self0 :=
    before_set_vcontrol coilset0 grid0 profiles0 force_symmetry0 psi0 jtor0 in
  match set_vcontrol vcontrol self0 with
  | (Return _, self1) =>
      Return (set_limiter_filename_kwargs limiter0 filename0 vcontrol self1)
  | (Raise e, _) => Raise e
  end.

(** The Grad-Shafranov step shared by [solve] and the objective of
    [solve_li]: the free-boundary update of the plasma flux, the right-hand
    side, the linear solve and [_update_plasma].  In Python the
    free-boundary update writes into the array that [self.plasma.psi()]
    returned; the plasma that may hold that array is replaced by
    [_update_plasma] before anything reads it again. *)
Definition grad_shafranov_step (jtor1 : arraylike) : M t unit :=
  self <- getattr (fun self => self) ;;
  let plasma_psi1 := PlasmaCoil_psi (plasma self) None None in
  let plasma_psi2 := FreeBoundary_call (boundary self) plasma_psi1 jtor1 in
  let rhs := np_mul (np_mul (Scalar (- MU_0)%float) (x self)) jtor1 in
  let rhs1 := apply_boundary rhs plasma_psi2 in
  let plasma_psi3 := GSSolver_call (_solver self) rhs1 in
  _update_plasma plasma_psi3 (Some jtor1).

(** [solve(jtor=None, psi=None)]. *)
Definition solve (jtor0 psi0 : option arraylike) : M t unit :=
  _clear_OX_points ;;;
  jtor1 <- match jtor0 with
           | None =>
               psi1 <- psi_or_default psi0 ;;
               ox <- get_OX_points (Some psi1) true ;;
               if py_not (fst ox) then
                 raise (EquilibriaError "No O-point found in equilibrium.")
               else
                 getattr (fun self =>
                   jtor (profiles self) (x self) (z self) psi1 (fst ox) (snd ox))
           | Some j => ret j
           end ;;
  grad_shafranov_step jtor1 ;;;
  setattr (set_jtor (Some jtor1)) ;;;
  setattr (set_plasmacoil None).

(** [minimize(minimise_dli, x0, ...)]: the optimiser's strategy run against
    the objective; an exception of the objective leaves through [minimize]. *)
Fixpoint run_minimize (o : optimiser) (objective : list float -> M t float) :
    M t OptimizeResult :=
  match o with
  | Finish res => ret res
  | Evaluate x0 k => v <- objective x0 ;; run_minimize (k v) objective
  end.

(** The closure [minimise_dli(x)] of [solve_li], over its [psi],
    [o_points], [x_points] and [mask].  The progress line it prints is not
    part of the state. *)
Definition minimise_dli (psi1 : arraylike) (o_points : option (list Opoint))
    (x_points : option (list Xpoint)) (mask : arraylike) (x0 : list float) :
    M t float :=
  setattr (fun self =>
    set_profiles (shape_adjust_parameters (profiles self) x0) self) ;;;
  jtor_opt <- getattr (fun self =>
    jtor (profiles self) (x self) (z self) psi1 o_points x_points) ;;
  grad_shafranov_step jtor_opt ;;;
  psi_now <- psi None None ;;
  bp <- Bp None None ;;
  li <- getattr (fun self =>
    calc_li3minargs (x self) (z self) psi_now bp (R_0 (profiles self))
      (I_p (profiles self)) (dx self) (dz self) mask) ;;
  setattr (set_li_temp (Some li)) ;;;
  setattr (set_jtor (Some jtor_opt)) ;;;
  target <- (fun self =>
    match _li self with
    | Some v => (Return v, self)
    | None => (Raise AttributeError, self)
    end) ;;
  tol <- getattr (fun self => _l_i_rel_tol (profiles self)) ;;
  if py_le (abs_rel_difference li target) tol then raise StopIteration
  else
    setattr (fun self => set_li_iter (_li_iter self + 1) self) ;;;
    ret (PrimFloat.abs (target - li)).

(** [solve_li(jtor=None, psi=None)]; [jtor] is not used. *)
Definition solve_li (jtor0 psi0 : option arraylike) : M t unit :=
  flag <- getattr _li_flag ;;
  if negb flag then
    raise (EquilibriaError "Cannot use solve_li without the BetaLiIpProfile.")
  else
    _clear_OX_points ;;;
    setattr (set_li_iter 0) ;;;
    psi1 <- psi_or_default psi0 ;;
    ox <- get_OX_points (Some psi1) true ;;
    mask <- getattr (fun self =>
      in_plasma (x self) (z self) psi1 (fst ox) (snd ox)) ;;
    try_except
      (coeffs <- getattr (fun self => shape_coeffs (profiles self)) ;;
       let bounds := map (fun _ => ((-1)%float, 3%float)) coeffs in
       coeffs0 <- getattr (fun self => shape_coeffs (profiles self)) ;;
       res <- run_minimize (minimize coeffs0 bounds)
                (minimise_dli psi1 (fst ox) (snd ox) mask) ;;
       alpha_star <- lift_outcome (process_scipy_result res) ;;
       setattr (fun self =>
         set_profiles (shape_adjust_parameters (profiles self) alpha_star) self))
      is_StopIteration
      (ret tt).

(** [to_dict(qpsi_calcmode=0)]. *)
Definition to_dict (qpsi_calcmode : Z) : M t EQDSKInterface :=
  mode <- lift_outcome (QpsiCalcMode_of_int qpsi_calcmode) ;;
  psi1 <- psi None None ;;
  n_xz <- lift_outcome
            match shape psi1 with
            | Some n => Return n
            | None => Raise (ValueError "not enough values to unpack")
            end ;;
  let n_x := fst n_xz in
  let n_z := snd n_xz in
  ox <- get_OX_points (Some psi1) false ;;
  opoint <- lift_outcome (first (fst ox)) ;;
  psi_bndry <- (if py_not (snd ox) then lift_outcome (np_amin psi1)
                else xp <- lift_outcome (first (snd ox)) ;; ret (Xpoint_psi xp)) ;;
  let psinorm0 := np_linspace 0 1 n_x in
  q <- match mode with
       | CALC => q1 <- Equilibrium_q psinorm0 (fst ox) (snd ox) ;; ret (Some q1)
       | ZEROS => ret (Some (repeat 0%float (Z.to_nat n_x)))
       | NO_CALC => ret None
       end ;;
  lcfs <- get_LCFS (Some psi1) 1e-6%float ;;
  getattr (fun self =>
    let '(x_c, z_c, dxc0, dzc0, currents) := to_group_vecs (coilset self) in
    {| name := None;
       e_nx := n_x; e_nz := n_z;
       xdim := x_size (grid self); zdim := z_size (grid self);
       e_x := x_1d (grid self); e_z := z_1d (grid self);
       xcentre := R_0 (profiles self); bcentre := _B_0 (profiles self);
       xgrid1 := x_min (grid self); zmid := z_mid (grid self);
       xmag := Opoint_x opoint; zmag := Opoint_z opoint;
       psimag := Opoint_psi opoint; psibdry := psi_bndry;
       cplasma := I_p (profiles self);
       e_psi := psi1;
       fpol := profile_fRBpol (profiles self) psinorm0;
       e_ffprime := profile_ffprime (profiles self) psinorm0;
       e_pprime := profile_pprime (profiles self) psinorm0;
       e_pressure := profile_pressure (profiles self) psinorm0;
       psinorm := psinorm0;
       nbdry := Z.of_nat (List.length (coords_x lcfs));
       xbdry := coords_x lcfs; zbdry := coords_z lcfs;
       ncoil := n_coils (coilset self);
       xc := x_c; zc := z_c; dxc := dxc0; dzc := dzc0; Ic := currents;
       qpsi := q;
       nlim := match limiter self with
               | None => 0
               | Some l => Z.of_nat (List.length (limiter_x l))
               end;
       xlim := match limiter self with None => [] | Some l => limiter_x l end;
       zlim := match limiter self with None => [] | Some l => limiter_z l end |}).

(** A method of the equilibrium, run beside the files. *)
Definition on_self {A} (m : M t A) : M (t * files) A :=
  fun w => let '(r, self) := m (fst w) in (r, (self, snd w)).

(** [MHDState.to_eqdsk(data, filename, header, directory, filetype)]. *)
Definition MHDState_to_eqdsk (data : EQDSKInterface) (filename0 header : string)
    (directory : option string) (filetype : string) : M (t * files) unit :=
  let data1 := set_name data (filename0 ++ "_" ++ header)%string in
  let filename1 :=
    if negb (endswith filename0 ("." ++ filetype)%string)
    then (filename0 ++ "." ++ filetype)%string
    else filename0 in
  path <- match directory with
          | None =>
              match get_bluemira_path "eqdsk/equilibria" "data" with
              | Return d => ret (Path d filename1)
              | Raise (ValueError error) =>
                  raise (ValueError
                           ("Unable to find default data directory: " ++ error))
              | Raise e => raise e
              end
          | Some d => ret (Path d filename1)
          end ;;
  on_self (setattr (set_filename (Some path))) ;;;
  setattr (fun w => (fst w, EQDSKInterface_write (snd w) path data1)).

(** [Equilibrium.to_eqdsk(filename, header="BP_equilibria", directory=None,
    filetype="json", qpsi_calcmode=0)]. *)
Definition to_eqdsk (filename0 header : string) (directory : option string)
    (filetype : string) (qpsi_calcmode : Z) : M (t * files) unit :=
  let qpsi_calcmode1 :=
    if contains "eqdsk" filetype && (qpsi_calcmode =? 0)%Z then 2%Z
    else qpsi_calcmode in
  data <- on_self (to_dict qpsi_calcmode1) ;;
  MHDState_to_eqdsk data filename0 header directory filetype.

(** [MHDState._get_eqdsk(filename)]: the record read, the flux and the
    grid.  The branch is chosen by the name in the file; the last one is
    for files made by CREATE. *)
Definition MHDState_get_eqdsk (fs : files) (filename0 : string) :
    outcome (EQDSKInterface * arraylike * Grid) :=
  match EQDSKInterface_from_file fs filename0 with
  | Raise err => Raise err
  | Return e =>
      match name e with
      | None => Raise TypeError
      | Some n =>
          let '(e1, psi1) :=
            if contains "equilibria" n then (e, e_psi e)
            else if contains "SCENE" n && negb isinstance_cls_Breakdown then
              (halve_coil_sizes e, e_psi e)
            else if contains "fiesta" (lower n) then (e, e_psi e)
            else
              (abs_cplasma (halve_coil_sizes e),
               np_div (e_psi e) (Scalar (2 * np_pi)%float)) in
          Return (e1, psi1, Grid_from_eqdsk e1)
      end
  end.

(** [CoilSetMHDState._get_eqdsk(filename, force_symmetry, user_coils)]. *)
Definition CoilSetMHDState_get_eqdsk (fs : files) (filename0 : string)
    (force_symmetry0 : bool) (user_coils : option CoilSet) :
    outcome (EQDSKInterface * arraylike * CoilSet * Grid * option Limiter) :=
  match MHDState_get_eqdsk fs filename0 with
  | Raise err => Raise err
  | Return (e, psi1, grid0) =>
      let coilset0 :=
        match user_coils with
        | Some c => c
        | None => from_group_vecs e
        end in
      let coilset1 :=
        if force_symmetry0 then symmetrise_coilset coilset0 else coilset0 in
      let limiter0 :=
        if (nlim e =? 0)%Z then None
        else if (nlim e <? 5)%Z then
          Some {| limiter_x := xlim e; limiter_z := zlim e |}
        else None in
      Return (e, psi1, coilset1, grid0, limiter0)
  end.

(** [Equilibrium.from_eqdsk(filename, force_symmetry=False, user_coils=None)];
    [CustomProfile.from_eqdsk] reads the same file. *)
Definition from_eqdsk (fs : files) (filename0 : string) (force_symmetry0 : bool)
    (user_coils : option CoilSet) : outcome t :=
  match CoilSetMHDState_get_eqdsk fs filename0 force_symmetry0 user_coils with
  | Raise err => Raise err
  | Return (e, psi1, coilset0, grid0, limiter0) =>
      match EQDSKInterface_from_file fs filename0 with
      | Raise err => Raise err
      | Return file =>
          let profiles0 := CustomProfile_from_eqdsk file in
          let ox := find_OX_points (grid_x grid0) (grid_z grid0) psi1 limiter0 in
          let jtor0 :=
            jtor profiles0 (grid_x grid0) (grid_z grid0) psi1
                 (Some (fst ox)) (Some (snd ox)) in
          __init__ coilset0 grid0 profiles0 false None limiter0 (Some psi1)
                   (Some jtor0) (Some filename0)
      end
  end.

(** *** Resetting the grid, and the flux at the critical points *)

(** [MHDState.set_grid(grid)] and what [Equilibrium.set_grid] adds to it:
    the coordinates and spacing of the grid, and a solver on the grid with
    the equilibrium's [force_symmetry]. *)
Definition set_grid (grid0 : Grid) : M t unit :=
  setattr (fun s =>
    Build_t (grid_x grid0) (grid_z grid0) (grid_dx grid0) (grid_dz grid0) grid0
      (limiter s) (_psi_green s) (_bx_green s) (_bz_green s) (coilset s)
      (_jtor s) (profiles s) (_o_points s) (_x_points s)
      {| solver_grid := grid0; solver_force_symmetry := force_symmetry s |}
      (_eqdsk s) (_li_flag s) (_li s) (_li_iter s) (_li_temp s) (plasma s)
      (force_symmetry s) (controller s) (boundary s) (filename s)
      (_kwargs_vcontrol s) (_plasmacoil s)).

(** [_remap_greens()]. *)
Definition _remap_greens : M t unit :=
  setattr (fun s =>
    Build_t (x s) (z s) (dx s) (dz s) (grid s) (limiter s)
      (psi_response (coilset s) (x s) (z s))
      (Bx_response (coilset s) (x s) (z s))
      (Bz_response (coilset s) (x s) (z s))
      (coilset s) (_jtor s) (profiles s) (_o_points s) (_x_points s)
      (_solver s) (_eqdsk s) (_li_flag s) (_li s) (_li_iter s) (_li_temp s)
      (plasma s) (force_symmetry s) (controller s) (boundary s) (filename s)
      (_kwargs_vcontrol s) (_plasmacoil s)).

(** [CoilSetMHDState._set_init_plasma(grid, psi)]: the starting flux,
    after the Green's functions are mapped again. *)
Definition CoilSetMHDState_set_init_plasma (grid0 : Grid)
    (psi0 : option arraylike) : M t arraylike :=
  psi1 <- getattr (fun self => init_psi grid0 (x self) (z self) psi0) ;;
  _remap_greens ;;;
  ret psi1.

(** [Equilibrium._set_init_plasma(grid, psi, j_tor)]. *)
Definition _set_init_plasma (grid0 : Grid) (psi0 j_tor0 : option arraylike) :
    M t unit :=
  psi1 <- CoilSetMHDState_set_init_plasma grid0 psi0 ;;
  psi2 <- getattr (fun self =>
            np_sub psi1 (coilset_psi (coilset self) (Some (x self)) (Some (z self)))) ;;
  _update_plasma psi2 j_tor0.

(** The keyword arguments of a call [reset_grid(grid, **kwargs)]: [psi]
    and [vcontrol], each absent or given (perhaps as [None]), and the names
    of any others. *)
Record reset_grid_kwargs : Type := {
  kw_psi : option (option arraylike);
  kw_vcontrol : option (option string);
  kw_others : list string
}.

(** [CoilSetMHDState.reset_grid(grid, psi=None)] called as
    [super().reset_grid(grid, **kwargs)]: a keyword other than [psi] is a
    [TypeError] of the call.  [self._set_init_plasma] is the equilibrium's
    own, with [j_tor] left at [None]. *)
Definition CoilSetMHDState_reset_grid (grid0 : Grid) (kw : reset_grid_kwargs) :
    M t unit :=
  match kw_vcontrol kw, kw_others kw with
  | None, [] =>
      let psi0 :=
        match kw_psi kw with
        | Some p => p
        | None => None
        end in
      set_grid grid0 ;;;
      _set_init_plasma grid0 psi0 None
  | _, _ => raise TypeError
  end.

(** [Equilibrium.reset_grid(grid, **kwargs)]. *)
Definition reset_grid (grid0 : Grid) (kw : reset_grid_kwargs) : M t unit :=
  CoilSetMHDState_reset_grid grid0 kw ;;;
  vcontrol <- getattr (fun self =>
                match kw_vcontrol kw with
                | Some v => v
                | None => _kwargs_vcontrol self
                end) ;;
  set_vcontrol vcontrol.

(** [get_OX_psis(psi=None)]. *)
Definition get_OX_psis (psi0 : option arraylike) : M t (float * float) :=
  psi1 <- psi_or_default psi0 ;;
  ox <- get_OX_points (Some psi1) false ;;
  o <- lift_outcome (first (fst ox)) ;;
  xp <- lift_outcome (first (snd ox)) ;;
  ret (Opoint_psi o, Xpoint_psi xp).

(** *** Pickling *)

(** [__getstate__()]: the object's attributes without [_solver].  The
    dictionary is the record of the attributes; [absent] stands where the
    entry that was popped would be, and nothing reads it. *)
Definition __getstate__ (self : t) (absent : GSSolver) : t :=
  Build_t (x self) (z self) (dx self) (dz self) (grid self) (limiter self)
    (_psi_green self) (_bx_green self) (_bz_green self) (coilset self)
    (_jtor self) (profiles self) (_o_points self) (_x_points self) absent
    (_eqdsk self) (_li_flag self) (_li self) (_li_iter self) (_li_temp self)
    (plasma self) (force_symmetry self) (controller self) (boundary self)
    (filename self) (_kwargs_vcontrol self) (_plasmacoil self).

(** [__setstate__(d)], for a dictionary that has a [grid]. *)
Definition __setstate__ (d : t) : t := snd (set_grid (grid d) d).

(** The coordinates, the spacing and the solver are those of the
    equilibrium's grid. *)
Definition on_its_grid (s : t) : Prop :=
  x s = grid_x (grid s) /\ z s = grid_z (grid s)
  /\ dx s = grid_dx (grid s) /\ dz s = grid_dz (grid s)
  /\ _solver s
     = {| solver_grid := grid s; solver_force_symmetry := force_symmetry s |}.

(** *** Vocabulary for statements about [solve] and [solve_li] *)

(** The cache holds the critical points of the flux map that [psi()] now
    returns. *)
Definition cache_of_current_flux (self : t) : Prop :=
  exists (p : arraylike) (s : t),
    psi None None self = (Return p, s)
    /\ _o_points self = Some (fst (find_OX_points (x self) (z self) p (limiter self)))
    /\ _x_points self = Some (snd (find_OX_points (x self) (z self) p (limiter self))).

(** The controller as [psi()] leaves it: stabilised when a current
    density is stored. *)
Definition stabilised (c : Controller) (self : t) : Controller :=
  match _jtor self with
  | Some _ => stabilise c self
  | None => c
  end.

(** Modelled from the spec: what [solve] relies on in the Free-Boundary
    Operator and in [apply_boundary], of [bluemira.equilibria.boundary],
    which is not among the sources.  The operator, "given the plasma's own
    flux contribution and the current-density map, mutates/derives boundary
    flux values ... via a precomputed boundary Green's-function matrix
    applied to the current-density map", and "has no effect on interior
    points directly"; the solver takes "a right-hand-side array and a
    boundary-value array".  So the boundary values that the right-hand
    side is given are those derived from the current-density map, whatever
    flux the operator was handed. *)
Definition boundary_values_from_current_density : Prop :=
  forall (fb : FreeBoundary) (rhs q1 q2 jtor1 : arraylike),
    apply_boundary rhs (FreeBoundary_call fb q1 jtor1)
    = apply_boundary rhs (FreeBoundary_call fb q2 jtor1).

(** [s2] is [s1] but for what a [solve] writes: the plasma, the stored
    current density, the critical-point cache and the plasma coil.  Coils,
    Green's functions, profile, grid, limiter, solver, boundary operator
    and controller are the same. *)
Definition differ_in_solve_results (s1 s2 : t) : Prop :=
  exists (pl : PlasmaCoil) (j : option arraylike) (o : option (list Opoint))
         (xp : option (list Xpoint)) (pc : option PlasmaCoil),
    s2 = set_plasmacoil pc (set_jtor j (set_plasma pl (set_OX_points o xp s1))).

(** The configuration of an equilibrium: its grid and coordinates, the
    limiter, the coils and their Green's functions, the solver and the
    boundary operator, the inductance target, the file name and the
    constructor's keyword, and whether a controller is set.  The plasma,
    the profile, the current density, the controller's state and the
    critical-point cache are not part of it. *)
Definition same_configuration (s s' : t) : Prop :=
  x s' = x s /\ z s' = z s /\ dx s' = dx s /\ dz s' = dz s /\ grid s' = grid s
  /\ limiter s' = limiter s
  /\ _psi_green s' = _psi_green s /\ _bx_green s' = _bx_green s
  /\ _bz_green s' = _bz_green s
  /\ coilset s' = coilset s
  /\ _solver s' = _solver s /\ boundary s' = boundary s
  /\ force_symmetry s' = force_symmetry s
  /\ _li_flag s' = _li_flag s /\ _li s' = _li s
  /\ filename s' = filename s /\ _kwargs_vcontrol s' = _kwargs_vcontrol s
  /\ (controller s' = None <-> controller s = None).

(** What one evaluation of the objective of [solve_li] compared: the
    inductance computed, the target and the relative tolerance. *)
Record li_check : Type := {
  li_computed : option float; li_target : option float; li_tolerance : float
}.

(** [abs_rel_difference(self._li_temp, self._li) <= self.profiles._l_i_rel_tol]. *)
Definition within_tolerance (c : li_check) : bool :=
  match li_computed c, li_target c with
  | Some li, Some target =>
      py_le (abs_rel_difference li target) (li_tolerance c)
  | _, _ => false
  end.

Definition li_check_of (self : t) : li_check :=
  {| li_computed := _li_temp self; li_target := _li self;
     li_tolerance := _l_i_rel_tol (profiles self) |}.

(** The comparisons made by the evaluations of a run of the optimiser, in
    order, up to the evaluation that ends the run. *)
Fixpoint li_history (o : optimiser) (objective : list float -> M t float)
    (self : t) : list li_check :=
  match o with
  | Finish _ => []
  | Evaluate x0 k =>
      match objective x0 self with
      | (Return v, self') => li_check_of self' :: li_history (k v) objective self'
      | (Raise _, self') => [li_check_of self']
      end
  end.

End Equilibrium.
End Equilibrium.

(** ** [ChargedParticleSolver] *)

Module ChargedParticleSolver.

(** The parameters of [default_params], by name. *)
Record ParameterFrame : Type := {
  fw_p_sol_near : float;
  fw_p_sol_far : float;
  fw_lambda_q_near : float;
  fw_lambda_q_far : float;
  fw_lambda_q_near_ib : float;
  fw_lambda_q_far_ib : float;
  f_outer_target : float;
  f_inner_target : float;
  f_upper_target : float;
  f_lower_target : float
}.

(** [ParameterFrame(default_params)]: the values of the table. *)
Definition default_params : ParameterFrame :=
  {| fw_p_sol_near := 50; fw_p_sol_far := 50;
     fw_lambda_q_near := 0.003; fw_lambda_q_far := 0.05;
     fw_lambda_q_near_ib := 0.003; fw_lambda_q_far_ib := 0.05;
     f_outer_target := 0.75; f_inner_target := 0.25;
     f_upper_target := 0.5; f_lower_target := 0.5 |}.

(** [bluemira.base.parameter.ParameterFrame.update_kw_parameters], for a
    configuration of type [Config], and the text of a float in an
    f-string. *)
Class ParameterFrameAPI (Config : Type) : Type := {
  update_kw_parameters : ParameterFrame -> Config -> ParameterFrame;
  format_float : float -> string
}.

(** [bluemira.geometry._deprecated_base.Plane(p1, p2, p3)]. *)
Record Plane : Type := {
  plane_p1 : list float; plane_p2 : list float; plane_p3 : list float
}.

Section ChargedParticleSolver.
Context {CoilSet Profile Controller Config : Type}
        `{CoilSetAPI CoilSet} `{ProfileAPI Profile} `{EquilibriaLib}
        `{!Equilibrium.ControllerAPI (CoilSet := CoilSet) (Profile := Profile)
                                     (Controller := Controller)}
        `{ParameterFrameAPI Config}.

Local Open Scope py_scope.

(** The solver after [__init__].  The equilibrium [self.eq] is the object
    the constructor is run on; the attributes that [__init__] sets to
    [None] have no value to record. *)
Record t : Type := {
  params : ParameterFrame;
  dx_mp : float;
  _o_point : Opoint;
  _yz_plane : Plane
}.

(** [_check_params()]. *)
Definition _check_params (p : ParameterFrame) : outcome unit :=
  if py_ne (f_outer_target p + f_inner_target p)%float 1.0%float then
    Raise (AdvectionTransportError
      ("Inner / outer fractions should sum to 1.0:" ++ newline
       ++ format_float (f_outer_target p) ++ " + "
       ++ format_float (f_inner_target p) ++ " != 1.0:"))
  else if py_ne (f_upper_target p + f_lower_target p)%float 1.0%float then
    Raise (AdvectionTransportError
      ("Upper / lower fractions should sum to 1.0:" ++ newline
       ++ format_float (f_upper_target p) ++ " + "
       ++ format_float (f_lower_target p) ++ " != 1.0:"))
  else Return tt.

(** [ChargedParticleSolver.__init__(config, equilibrium, **kwargs)], run on
    the equilibrium; [kw_dx_mp] is [kwargs.get("dx_mp")]. *)
Definition __init__ (config : Config) (kw_dx_mp : option float) :
    M (Equilibrium.t (CoilSet := CoilSet) (Profile := Profile)
                     (Controller := Controller)) t :=
  let params0 := update_kw_parameters default_params config in
  lift_outcome (_check_params params0) ;;;
  let dx_mp0 :=
    match kw_dx_mp with
    | Some d => d
    | None => 0.001%float
    end in
  ox <- Equilibrium.get_OX_points None false ;;
  o_point <- lift_outcome (first (fst ox)) ;;
  let z0 := Opoint_z o_point in
  ret {| params := params0;
         dx_mp := dx_mp0;
         _o_point := o_point;
         _yz_plane :=
           {| plane_p1 := [0; 0; z0]%float;
              plane_p2 := [1; 0; z0]%float;
              plane_p3 := [1; 1; z0]%float |} |}.

End ChargedParticleSolver.
End ChargedParticleSolver.

(** ** [Component] *)

Module Component.

(** What a method of [Component] may raise: the package's
    [ComponentError], Python's [IndexError] and [AttributeError], and the
    [TreeError] (or its subclass [LoopError]) of anytree's [children]
    setter. *)
Inductive error : Type :=
| ComponentError (msg : string)
| IndexError
| AttributeError
| TreeError (msg : string).

Inductive result (A : Type) : Type :=
| Ok (a : A)
| Err (e : error).
Arguments Ok {A} a.
Arguments Err {A} e.

(** [anytree.NodeMixin] and [anytree.search], which [Component] builds on.
    Components are objects, compared by identity; the tree is the state of
    their [parent] and [children] attributes and of their names.  The
    [children] setter either attaches the nodes or raises. *)
Class AnyTree (Node Tree : Type) : Type := {
  node_is : Node -> Node -> bool;
  node_name : Tree -> Node -> string;
  class_name : Node -> string;
  node_children : Tree -> Node -> list Node;
  node_root : Tree -> Node -> Node;
  set_children : Node -> list Node -> Tree -> option string * Tree;
  findall_by_attr : Tree -> Node -> string -> list Node
}.

(** What [get_component] returns: [None], a component or a tuple. *)
Inductive found (Node : Type) : Type :=
| NotFound
| One (c : Node)
| Many (cs : list Node).
Arguments NotFound {Node}.
Arguments One {Node} c.
Arguments Many {Node} cs.

(** The argument [children] of [add_children]: a list, or something else. *)
Inductive children_arg (Node : Type) : Type :=
| a_component (c : Node)
| a_list (l : list Node).
Arguments a_component {Node} c.
Arguments a_list {Node} l.

(** [l.pop(idx)] for [idx >= 0], which raises [IndexError] out of range. *)
Definition pop {A : Type} (idx : nat) (l : list A) : option (list A) :=
  if (idx <? List.length l)%nat then Some (firstn idx l ++ skipn (S idx) l)
  else None.

Section Component.
Context {Node Tree : Type} `{AnyTree Node Tree}.

(** [__repr__()]. *)
Definition __repr__ (t : Tree) (self : Node) : string :=
  (node_name t self ++ " (" ++ class_name self ++ ")")%string.

(** [str(l)] for a list of components. *)
Definition repr_list (t : Tree) (l : list Node) : string :=
  ("[" ++ String.concat ", " (map (__repr__ t) l) ++ "]")%string.

(** [get_component(name, first=True, full_tree=False)]. *)
Definition get_component (self : Node) (name : string) (first full_tree : bool)
    (t : Tree) : found Node :=
  let found_components :=
    if full_tree then findall_by_attr t (node_root t self) name
    else findall_by_attr t self name in
  match found_components with
  | [] => NotFound
  | c :: _ => if first then One c else Many found_components
  end.

(** [self.children = l]. *)
Definition assign_children (self : Node) (l : list Node) (t : Tree) :
    result unit * Tree :=
  match set_children self l t with
  | (None, t') => (Ok tt, t')
  | (Some msg, t') => (Err (TreeError msg), t')
  end.

(** [add_child(child)]. *)
Definition add_child (self child : Node) (t : Tree) : result Node * Tree :=
  if existsb (node_is child) (node_children t self) then
    (Err (ComponentError
            ("Component " ++ __repr__ t child ++ " is already a child of "
             ++ __repr__ t self)), t)
  else
    match assign_children self (node_children t self ++ [child]) t with
    | (Ok _, t') => (Ok self, t')
    | (Err e, t') => (Err e, t')
    end.

(** The loop of [add_children] over [reversed(list(enumerate(children)))]:
    the state is the caller's list, which [pop] shortens, and the tree;
    the result is [duplicates]. *)
Fixpoint add_children_loop (self : Node) (merge_trees : bool)
    (items : list (nat * Node)) (duplicates : list Node)
    (st : list Node * Tree) : result (list Node) * (list Node * Tree) :=
  match items with
  | [] => (Ok duplicates, st)
  | (idx, child) :: rest =>
      let '(children, t) := st in
      match get_component self (node_name t child) true false t with
      | NotFound => add_children_loop self merge_trees rest duplicates st
      | existing =>
          if merge_trees then
            match existing with
            | One ex =>
                match assign_children ex
                        (node_children t ex ++ node_children t child) t with
                | (Err e, t') => (Err e, (children, t'))
                | (Ok _, t') =>
                    match pop idx children with
                    | None => (Err IndexError, (children, t'))
                    | Some children' =>
                        add_children_loop self merge_trees rest duplicates
                          (children', t')
                    end
                end
            | _ => (Err AttributeError, st)
            end
          else add_children_loop self merge_trees rest (duplicates ++ [child]) st
      end
  end.

(** [add_children(children, merge_trees=False)], with the caller's
    argument as the call leaves it. *)
Definition add_children (self : Node) (children : children_arg Node)
    (merge_trees : bool) (t : Tree) :
    result Node * (children_arg Node * Tree) :=
  match children with
  | a_component child =>
      let '(r, t') := add_child self child t in (r, (children, t'))
  | a_list [] => (Err IndexError, (children, t))
  | a_list l =>
      let items := rev (combine (seq 0 (List.length l)) l) in
      match add_children_loop self merge_trees items [] (l, t) with
      | (Err e, (l', t')) => (Err e, (a_list l', t'))
      | (Ok [], (l', t')) =>
          match assign_children self (node_children t' self ++ l') t' with
          | (Ok _, t'') => (Ok self, (a_list l', t''))
          | (Err e, t'') => (Err e, (a_list l', t''))
          end
      | (Ok duplicates, (l', t')) =>
          (Err (ComponentError
                  ("Components " ++ repr_list t' duplicates
                   ++ " are already a children of " ++ __repr__ t' self)),
           (a_list l', t'))
      end
  end.

(** [name] is the name of a component at or below [self]. *)
Definition in_tree (t : Tree) (self : Node) (c : Node) : bool :=
  match findall_by_attr t self (node_name t c) with
  | [] => false
  | _ :: _ => true
  end.

End Component.
End Component.

(** ** A small world to run the methods in

    One coil whose flux is its current times the radius, a profile whose
    current density is the flux scaled by its first coefficient, and
    numerical routines simple enough to follow by hand on a 2 x 2 grid, all
    of whose nodes lie on the edge. *)

Module Toy.

Local Open Scope float_scope.

Record CoilSet : Type := {
  coil_x : list float; coil_z : list float;
  coil_dx : list float; coil_dz : list float;
  coil_current : list float
}.

Definition current (cs : CoilSet) : float := hd 0 (coil_current cs).

#[global] Instance coilset_api : CoilSetAPI CoilSet := {|
  Greens := arraylike;
  psi_response := fun _ x _ => x;
  Bx_response := fun _ x _ => np_mul (Scalar 0) x;
  Bz_response := fun _ x _ => np_mul (Scalar 0) x;
  _psi_greens := fun cs g => np_mul (Scalar (current cs)) g;
  _Bx_greens := fun cs g => np_mul (Scalar (current cs)) g;
  _Bz_greens := fun cs g => np_mul (Scalar (current cs)) g;
  coilset_psi := fun cs x _ =>
    match x with
    | Some xv => np_mul (Scalar (current cs)) xv
    | None => Scalar 0
    end;
  coilset_Bx := fun _ _ _ => Scalar 0;
  coilset_Bz := fun _ _ _ => Scalar 0;
  to_group_vecs := fun cs =>
    (coil_x cs, coil_z cs, coil_dx cs, coil_dz cs, coil_current cs);
  from_group_vecs := fun e =>
    {| coil_x := xc e; coil_z := zc e; coil_dx := dxc e; coil_dz := dzc e;
       coil_current := Ic e |};
  n_coils := fun cs => Z.of_nat (List.length (coil_x cs));
  symmetrise_coilset := fun cs => cs
|}.

Record Profile : Type := {
  coeffs : list float;
  beta_li_ip : bool;
  l_i_target : float;
  l_i_rel_tol : float
}.

#[global] Instance profile_api : ProfileAPI Profile := {|
  jtor := fun p _ _ psi _ _ => np_mul (Scalar (hd 1 (coeffs p))) psi;
  is_BetaLiIpProfile := beta_li_ip;
  _l_i_target := l_i_target;
  _l_i_rel_tol := l_i_rel_tol;
  shape_coeffs := coeffs;
  shape_adjust_parameters := fun p c =>
    {| coeffs := c; beta_li_ip := beta_li_ip p; l_i_target := l_i_target p;
       l_i_rel_tol := l_i_rel_tol p |};
  R_0 := fun _ => 2;
  I_p := fun _ => 1;
  _B_0 := fun _ => 1;
  profile_fRBpol := fun _ psin => psin;
  profile_ffprime := fun _ psin => psin;
  profile_pprime := fun _ psin => psin;
  profile_pressure := fun _ psin => psin;
  CustomProfile_from_eqdsk := fun _ =>
    {| coeffs := [1]; beta_li_ip := false; l_i_target := 0; l_i_rel_tol := 0 |}
|}.

Definition float_of_nat (n : nat) : float :=
  nat_rect (fun _ => float) 0 (fun _ r => r + 1) n.

Definition linspace (a b : float) (n : Z) : list float :=
  let k := Z.to_nat n in
  map (fun i => a + (b - a) * float_of_nat i / float_of_nat (k - 1)) (seq 0 k).

(** The least entry of a flux map, for the toy physics. *)
Definition least_flux (a : arraylike) : float :=
  match a with
  | Scalar v => v
  | Array rows =>
      match List.concat rows with
      | [] => nan
      | v :: vs => fold_left (fun m u => if PrimFloat.ltb u m then u else m) vs v
      end
  end.

(** [(1 + u / 1024) ** 1024], by ten squarings. *)
Definition exp_approx (u : float) : float :=
  nat_rect (fun _ => float) (1 + u / 1024) (fun _ r => r * r) 10.

(** The O-point is where the flux is least, if that is positive; otherwise
    there is none and the place is reported as an X-point. *)
Definition find_OX (psi : arraylike) : list Opoint * list Xpoint :=
  let v := least_flux psi in
  if PrimFloat.ltb 0 v
  then ([{| Opoint_x := 0; Opoint_z := 0; Opoint_psi := v |}], [])
  else ([], [{| Xpoint_x := 0; Xpoint_z := 0; Xpoint_psi := v |}]).

(** A two-step strategy: the start point, then every coefficient raised by
    one, then stop at the start point. *)
Definition two_evaluations (x0 : list float) : optimiser :=
  Evaluate x0 (fun _ =>
    Evaluate (map (fun c => c + 1) x0) (fun _ =>
      Finish {| res_x := x0; res_success := true; res_status := 0 |})).

#[global] Instance lib : EquilibriaLib := {|
  MU_0 := 0x1.515370f99f6cbp-20;
  np_exp := exp_approx;
  np_hypot := fun a b => PrimFloat.sqrt (a * a + b * b);
  np_linspace := linspace;
  Grid_from_eqdsk := fun e =>
    {| x_min := xgrid1 e; x_max := xgrid1 e + xdim e;
       z_min := zmid e - 0.5 * zdim e; z_max := zmid e + 0.5 * zdim e;
       nx := e_nx e; nz := e_nz e;
       grid_dx := xdim e / float_of_nat (Z.to_nat (e_nx e) - 1);
       grid_dz := zdim e / float_of_nat (Z.to_nat (e_nz e) - 1);
       grid_x := Array (map (fun xv => map (fun _ => xv) (e_z e)) (e_x e));
       grid_z := Array (map (fun _ => e_z e) (e_x e));
       x_1d := e_x e; z_1d := e_z e;
       x_size := xdim e; z_size := zdim e; z_mid := zmid e |};
  find_OX_points := fun _ _ psi _ => find_OX psi;
  in_plasma := fun _ _ psi _ _ => psi;
  find_LCFS_separatrix := fun _ _ _ _ _ _ => {| coords_x := []; coords_z := [] |};
  FreeBoundary_call := fun _ _ jtor0 => jtor0;
  apply_boundary := fun rhs lhs =>
    match lhs with
    | Scalar v => np_map (fun _ => v) rhs
    | Array _ => lhs
    end;
  GSSolver_call := fun _ rhs => rhs;
  PlasmaCoil_psi := fun p x z =>
    match x, z with
    | None, None => plasma_psi p
    | _, _ => Scalar (least_flux (plasma_psi p))
    end;
  PlasmaCoil_Bx := fun p _ _ => np_mul (Scalar 0) (plasma_psi p);
  PlasmaCoil_Bz := fun p _ _ => np_mul (Scalar 0) (plasma_psi p);
  calc_li3minargs := fun _ _ psi _ _ _ _ _ _ => least_flux psi;
  abs_rel_difference := fun v2 v1_ref => PrimFloat.abs ((v2 - v1_ref) / v1_ref);
  minimize := fun x0 _ => two_evaluations x0;
  process_scipy_result := fun res =>
    if res_success res then Return (res_x res)
    else if (res_status res =? 8)%Z || (res_status res =? 9)%Z
    then Return (res_x res)
    else Raise InternalOptError;
  get_bluemira_path := fun _ _ => Return "data"%string;
  Path := fun d f => (d ++ "/" ++ f)%string
|}.

(** The controllers: the dummy corrects nothing; the virtual one holds a
    gain and a correction that [stabilise] sets to the gain times the
    least plasma flux. *)
Inductive Controller : Type :=
| Dummy
| Virtual (gz correction : float).

Definition eq_t : Type :=
  Equilibrium.t (CoilSet := CoilSet) (Profile := Profile) (Controller := Controller).

#[global] Instance controller_api :
  Equilibrium.ControllerAPI (CoilSet := CoilSet) (Profile := Profile)
                            (Controller := Controller) := {|
  Equilibrium.DummyController := fun _ => Dummy;
  Equilibrium.VirtualController := fun _ gz => Virtual gz 0;
  Equilibrium.stabilise := fun c (self : eq_t) =>
    match c with
    | Dummy => Dummy
    | Virtual gz _ =>
        Virtual gz
          (gz * least_flux (PlasmaCoil_psi (Equilibrium.plasma self) None None))
    end;
  Equilibrium.controller_psi := fun c =>
    match c with
    | Dummy => Scalar 0
    | Virtual _ v => Scalar v
    end;
  Equilibrium.Equilibrium_q := fun _ _ _ => ret []
|}.

Definition Config : Type := list (string * float).

Definition update_one (p : ChargedParticleSolver.ParameterFrame)
    (kv : string * float) : ChargedParticleSolver.ParameterFrame :=
  let '(k, v) := kv in
  let pick (n : string) (old : float) := if String.eqb k n then v else old in
  {| ChargedParticleSolver.fw_p_sol_near :=
       pick "fw_p_sol_near"%string (ChargedParticleSolver.fw_p_sol_near p);
     ChargedParticleSolver.fw_p_sol_far :=
       pick "fw_p_sol_far"%string (ChargedParticleSolver.fw_p_sol_far p);
     ChargedParticleSolver.fw_lambda_q_near :=
       pick "fw_lambda_q_near"%string (ChargedParticleSolver.fw_lambda_q_near p);
     ChargedParticleSolver.fw_lambda_q_far :=
       pick "fw_lambda_q_far"%string (ChargedParticleSolver.fw_lambda_q_far p);
     ChargedParticleSolver.fw_lambda_q_near_ib :=
       pick "fw_lambda_q_near_ib"%string
            (ChargedParticleSolver.fw_lambda_q_near_ib p);
     ChargedParticleSolver.fw_lambda_q_far_ib :=
       pick "fw_lambda_q_far_ib"%string
            (ChargedParticleSolver.fw_lambda_q_far_ib p);
     ChargedParticleSolver.f_outer_target :=
       pick "f_outer_target"%string (ChargedParticleSolver.f_outer_target p);
     ChargedParticleSolver.f_inner_target :=
       pick "f_inner_target"%string (ChargedParticleSolver.f_inner_target p);
     ChargedParticleSolver.f_upper_target :=
       pick "f_upper_target"%string (ChargedParticleSolver.f_upper_target p);
     ChargedParticleSolver.f_lower_target :=
       pick "f_lower_target"%string (ChargedParticleSolver.f_lower_target p) |}.

#[global] Instance parameter_frame_api :
  ChargedParticleSolver.ParameterFrameAPI Config := {|
  ChargedParticleSolver.update_kw_parameters := fun p c => fold_left update_one c p;
  ChargedParticleSolver.format_float := fun _ => "<float>"%string
|}.

(** The grid [1, 3] x [-1, 1] with two nodes each way. *)
Definition grid : Grid :=
  {| x_min := 1; x_max := 3; z_min := -1; z_max := 1;
     nx := 2; nz := 2; grid_dx := 2; grid_dz := 2;
     grid_x := Array [[1; 1]; [3; 3]];
     grid_z := Array [[-1; 1]; [-1; 1]];
     x_1d := [1; 3]; z_1d := [-1; 1];
     x_size := 2; z_size := 2; z_mid := 0 |}.

(** One coil of half-width and half-height 1, at (4, 0), carrying 1 A. *)
Definition coilset : CoilSet :=
  {| coil_x := [4]; coil_z := [0]; coil_dx := [1]; coil_dz := [1];
     coil_current := [1] |}.

Definition profile : Profile :=
  {| coeffs := [1]; beta_li_ip := false; l_i_target := 0; l_i_rel_tol := 0 |}.

(** A profile with an inductance target of 5 to within a tenth. *)
Definition li_profile : Profile :=
  {| coeffs := [1]; beta_li_ip := true; l_i_target := 5;
     l_i_rel_tol := 0x1.999999999999ap-4 |}.

(** A total flux of 2 on the inner nodes and 4 on the outer ones. *)
Definition psi_positive : arraylike := Array [[2; 2]; [4; 4]].

(** A total flux that is nowhere positive. *)
Definition psi_negative : arraylike := Array [[-4; -4]; [-2; -2]].

Definition breakdown : Breakdown.t (CoilSet := CoilSet) :=
  Breakdown.__init__ coilset grid None None
    {| Breakdown.kw_limiter := None; Breakdown.kw_breakdown_point := None |}.

(** Four points at distance 1 from [(c_x, c_z)]: on the edge of the disc,
    and of the square, of that half-width about the point. *)
Definition region_edge (centre : float * float) : list (float * float) :=
  let '(c_x, c_z) := centre in
  [(c_x - 1, c_z); (c_x + 1, c_z); (c_x, c_z - 1); (c_x, c_z + 1)].

(** No file written yet. *)
Definition no_files : files := fun _ => None.

(** Equilibria built by [Equilibrium.__init__]; [before_set_vcontrol]
    stands in where the constructor raises. *)
Definition construct (p : Profile) (vcontrol : option string)
    (psi0 jtor0 : option arraylike) : eq_t :=
  match Equilibrium.__init__ coilset grid p false vcontrol None psi0 jtor0 None with
  | Return self => self
  | Raise _ => Equilibrium.before_set_vcontrol coilset grid p false psi0 jtor0
  end.

(** With the dummy controller, from a positive and from a negative flux. *)
Definition equilibrium : eq_t := construct profile None (Some psi_positive) None.
Definition equilibrium_no_O_point : eq_t :=
  construct profile None (Some psi_negative) None.

(** With the virtual controller and a current density. *)
Definition virtual_equilibrium : eq_t :=
  construct profile (Some "virtual"%string) (Some psi_positive) (Some psi_positive).

(** With an inductance target. *)
Definition li_equilibrium : eq_t := construct li_profile None (Some psi_positive) None.

(** The grid moved one to the right. *)
Definition shifted_grid : Grid :=
  {| x_min := 2; x_max := 4; z_min := -1; z_max := 1;
     nx := 2; nz := 2; grid_dx := 2; grid_dz := 2;
     grid_x := Array [[2; 2]; [4; 4]];
     grid_z := Array [[-1; 1]; [-1; 1]];
     x_1d := [2; 4]; z_1d := [-1; 1];
     x_size := 2; z_size := 2; z_mid := 0 |}.

End Toy.

(** A small forest of components: nodes are numbers, and the tree gives
    each its name and its children.  The search looks at a node, its
    children and their children; the setter refuses a node as its own
    child and takes the new children away from their old parents. *)
Module ToyTree.

Record Tree : Type := {
  names : nat -> string;
  kids : nat -> list nat
}.

Definition below (t : Tree) (n : nat) : list nat :=
  n :: flat_map (fun c => c :: kids t c) (kids t n).

Definition attach (n : nat) (l : list nat) (t : Tree) : option string * Tree :=
  if existsb (Nat.eqb n) l then (Some "Cannot set parent."%string, t)
  else
    (None,
     {| names := names t;
        kids := fun m =>
          if Nat.eqb m n then l
          else filter (fun c => negb (existsb (Nat.eqb c) l)) (kids t m) |}).

#[global] Instance anytree : Component.AnyTree nat Tree := {|
  Component.node_is := Nat.eqb;
  Component.node_name := names;
  Component.class_name := fun _ => "Component"%string;
  Component.node_children := kids;
  Component.node_root := fun _ _ => 0%nat;
  Component.set_children := attach;
  Component.findall_by_attr := fun t n name =>
    filter (fun c => String.eqb (names t c) name) (below t n)
|}.

(** A plant (0) with one coil (1); component 2 is another coil, not yet
    in the tree. *)
Definition plant : Tree :=
  {| names := fun n =>
       match n with
       | 0%nat => "plant"%string
       | _ => "coil"%string
       end;
     kids := fun n =>
       match n with
       | 0%nat => [1%nat]
       | _ => []
       end |}.

End ToyTree.

(** ** Vocabulary of the statements *)

(** The float in a scalar result. *)
Definition as_float (a : arraylike) : option float :=
  match a with
  | Scalar v => Some v
  | Array _ => None
  end.

(** The least of the values sampled, when there is one and all are floats. *)
Fixpoint floats (l : list arraylike) : option (list float) :=
  match l with
  | [] => Some []
  | a :: l' =>
      match as_float a, floats l' with
      | Some v, Some vs => Some (v :: vs)
      | _, _ => None
      end
  end.

Definition least (l : list arraylike) : option float :=
  match floats l with
  | Some (v :: vs) => Some (minimum v vs)
  | _ => None
  end.

(** The value of a flux map at node [(i, j)]; a float stands for the map
    that has it at every node. *)
Definition node_value (a : arraylike) (i j : nat) : option float :=
  match a with
  | Scalar v => Some v
  | Array m => arr_get m i j
  end.

(** The names for which [MHDState._get_eqdsk] takes the record as it
    was written: the first branch, or the third when the second does not
    come first. *)
Definition kept_as_written (n : string) : bool :=
  contains "equilibria" n
  || (negb (contains "SCENE" n) && contains "fiesta" (lower n)).

(** [d / 2] on each coil. *)
Definition halved (l : list float) : list float :=
  map (fun d => PrimFloat.div d 2) l.

(** The centre of the grid's radial extent, on the midplane. *)
Definition grid_centre (g : Grid) : float * float :=
  ((x_min g + x_max g) / 2, 0)%float.

(** * Properties *)

Unset Implicit Arguments.

(** Two closed floats are told apart by computing their comparison. *)
Ltac float_discriminate H :=
  match type of H with
  | ?a = ?b =>
      let E := fresh "E" in
      assert (E : PrimFloat.eqb a a = PrimFloat.eqb a b) by (rewrite <- H; reflexivity);
      vm_compute in E; discriminate E
  end.

Lemma nth_error_zip_with {A B C} (f : A -> B -> C) (l : list A) (m : list B)
    (i : nat) (a : A) (b : B) :
  nth_error l i = Some a -> nth_error m i = Some b ->
  nth_error (zip_with f l m) i = Some (f a b).
Proof.
  revert m i. induction l as [| a0 l IH]; intros m i Ha Hb.
  - destruct i; discriminate Ha.
  - destruct m as [| b0 m]; [destruct i; discriminate Hb |].
    destruct i as [| i]; simpl in *.
    + congruence.
    + apply IH; assumption.
Qed.

Lemma arr_get_map (f : float -> float) (a : ndarray) (i j : nat) (u : float) :
  arr_get a i j = Some u -> arr_get (arr_map f a) i j = Some (f u).
Proof.
  unfold arr_get, arr_map. intros E.
  destruct (nth_error a i) as [row |] eqn:Er; [| discriminate E].
  rewrite (map_nth_error (map f) _ _ Er). apply map_nth_error. exact E.
Qed.

Lemma arr_get_map2 (f : float -> float -> float) (a b : ndarray) (i j : nat)
    (u v : float) :
  arr_get a i j = Some u -> arr_get b i j = Some v ->
  arr_get (arr_map2 f a b) i j = Some (f u v).
Proof.
  unfold arr_get, arr_map2. intros Ea Eb.
  destruct (nth_error a i) as [ra |] eqn:Era; [| discriminate Ea].
  destruct (nth_error b i) as [rb |] eqn:Erb; [| discriminate Eb].
  rewrite (nth_error_zip_with (zip_with f) _ _ _ _ _ Era Erb).
  apply nth_error_zip_with; assumption.
Qed.

Lemma node_value_np_add (a b : arraylike) (i j : nat) (u v : float) :
  node_value a i j = Some u -> node_value b i j = Some v ->
  node_value (np_add a b) i j = Some (u + v)%float.
Proof.
  destruct a as [x | x], b as [y | y]; simpl; intros Ea Eb.
  - congruence.
  - injection Ea as <-. apply arr_get_map. exact Eb.
  - injection Eb as <-. apply (arr_get_map (fun w => (w + y)%float)). exact Ea.
  - apply arr_get_map2; assumption.
Qed.

(** A bind that returns: its first part returned, and the rest ran on. *)
Lemma bind_inv {S A B : Type} (m : M S A) (k : A -> M S B) (s s' : S) (b : B) :
  bind m k s = (Return b, s') ->
  exists (a : A) (s1 : S), m s = (Return a, s1) /\ k a s1 = (Return b, s').
Proof.
  unfold bind. destruct (m s) as [[a | e] s1]; intros E.
  - exists a, s1. split; [reflexivity | exact E].
  - discriminate E.
Qed.

(** A pattern found in a string is found in every extension to the left. *)
Lemma contains_app_r (pat a b : string) :
  contains pat b = true -> contains pat (a ++ b) = true.
Proof.
  intros Hb. induction a as [| c a IH]; cbn [append].
  - exact Hb.
  - cbn [contains]. rewrite IH. apply orb_true_r.
Qed.

(** With the default header of [Equilibrium.to_eqdsk], the name in the
    file always holds [equilibria]. *)
Lemma default_header_is_kept (filename0 : string) :
  kept_as_written (filename0 ++ "_" ++ "BP_equilibria") = true.
Proof.
  unfold kept_as_written. rewrite contains_app_r; [apply orb_true_l |].
  vm_compute. reflexivity.
Qed.

Section BreakdownProperties.
Context {CoilSet : Type} `{CoilSetAPI CoilSet} `{EquilibriaLib}.

(** C1, as the code has it: [breakdown_psi] is the flux of the coilset at
    the breakdown point itself, the centre of the breakdown region; after
    [set_breakdown_point(x_bd, z_bd)] it is the coilset's flux at
    [(x_bd, z_bd)].  No edge of a region and no minimum enter it. *)
Theorem breakdown_psi_at_breakdown_point :
  forall self : Breakdown.t,
    Breakdown.breakdown_psi self
    = coilset_psi (Breakdown.coilset self)
        (Some (Scalar (fst (Breakdown.breakdown_point self))))
        (Some (Scalar (snd (Breakdown.breakdown_point self))))
    /\ forall x_bd z_bd,
         Breakdown.breakdown_psi (Breakdown.set_breakdown_point self x_bd z_bd)
         = coilset_psi (Breakdown.coilset self)
             (Some (Scalar x_bd)) (Some (Scalar z_bd)).
Proof.
  intros self. split.
  - unfold Breakdown.breakdown_psi.
    destruct (Breakdown.breakdown_point self) as [x_bd z_bd]. reflexivity.
  - intros x_bd z_bd. reflexivity.
Qed.

(** C10, on the grid [1, 3] x [-1, 1]: a breakdown built without a
    [breakdown_point] keyword has its breakdown point at [(3, 0)], on the
    outer edge of the grid, whatever the coilset, the flux, the file name
    and the limiter; the centre of the radial extent is [(2, 0)]. *)
Theorem default_breakdown_point_on_grid_1_3 :
  forall (cs : CoilSet) (psi0 : option arraylike) (filename0 : option string)
         (limiter0 : option Limiter),
    Breakdown.breakdown_point
      (Breakdown.__init__ cs Toy.grid psi0 filename0
         {| Breakdown.kw_limiter := limiter0;
            Breakdown.kw_breakdown_point := None |})
    = (3, 0)%float
    /\ grid_centre Toy.grid = (2, 0)%float
    /\ (3, 0)%float <> grid_centre Toy.grid.
Proof.
  intros cs psi0 filename0 limiter0. split; [reflexivity | split; [reflexivity |]].
  intros E. apply (f_equal fst) in E. float_discriminate E.
Qed.

End BreakdownProperties.

(** C1 fails as stated: in the toy world the breakdown point is [(3, 0)]
    and the flux there is 3, while on the edge of the region of half-width
    1 about it the flux goes down to 2. *)
Lemma breakdown_psi_is_not_the_edge_minimum :
  as_float (Breakdown.breakdown_psi Toy.breakdown)
  <> least (Breakdown.psi_samples Toy.breakdown
              (Toy.region_edge (Breakdown.breakdown_point Toy.breakdown))).
Proof.
  vm_compute. intros E.
  apply (f_equal (fun o => match o with Some v => v | None => 0%float end)) in E.
  float_discriminate E.
Qed.

Section EquilibriumProperties.
Context {CoilSet Profile Controller : Type}
        `{CoilSetAPI CoilSet} `{ProfileAPI Profile} `{EquilibriaLib}
        `{!Equilibrium.ControllerAPI (CoilSet := CoilSet) (Profile := Profile)
                                     (Controller := Controller)}.

Local Abbreviation eq_t :=
  (Equilibrium.t (CoilSet := CoilSet) (Profile := Profile) (Controller := Controller)).

Lemma psi_grid (self : eq_t) (c : Controller) :
  Equilibrium.controller self = Some c ->
  Equilibrium.psi None None self
  = (Return
       (np_add
          (np_add (PlasmaCoil_psi (Equilibrium.plasma self) None None)
                  (_psi_greens (Equilibrium.coilset self) (Equilibrium._psi_green self)))
          (Equilibrium.controller_psi (Equilibrium.stabilised c self))),
     match Equilibrium._jtor self with
     | Some _ => Equilibrium.set_controller (Some (Equilibrium.stabilise c self)) self
     | None => self
     end).
Proof.
  intros Hc. unfold Equilibrium.psi, Equilibrium.stabilised, bind, getattr.
  destruct (Equilibrium._jtor self) as [j |] eqn:Ej.
  - unfold Equilibrium.controller_stabilise, bind, Equilibrium.the_controller, setattr.
    rewrite Hc. simpl. reflexivity.
  - unfold ret, Equilibrium.the_controller. rewrite Hc. reflexivity.
Qed.

Lemma psi_grid_no_controller (self : eq_t) :
  Equilibrium.controller self = None ->
  Equilibrium.psi None None self = (Raise AttributeError, self).
Proof.
  intros Hc. unfold Equilibrium.psi, bind, getattr.
  destruct (Equilibrium._jtor self) as [j |] eqn:Ej.
  - unfold Equilibrium.controller_stabilise, bind, Equilibrium.the_controller.
    rewrite Hc. reflexivity.
  - unfold ret, Equilibrium.the_controller. rewrite Hc. reflexivity.
Qed.

Lemma psi_at_coordinates (self : eq_t) (x0 z0 : option arraylike) :
  (x0, z0) <> (None, None) ->
  Equilibrium.psi x0 z0 self
  = (Return (np_add (PlasmaCoil_psi (Equilibrium.plasma self) x0 z0)
                    (coilset_psi (Equilibrium.coilset self) x0 z0)),
     self).
Proof.
  intros Hxz. destruct x0 as [x0 |], z0 as [z0 |]; try reflexivity.
  contradiction Hxz. reflexivity.
Qed.

(** C9: [psi(x, z)] with coordinates returns the plasma's flux plus the
    coilset's flux there, and touches nothing; only [psi()] for the whole
    grid adds the controller's correction (after [stabilise], when a
    current density is stored).  So at a node [(i, j)] where plasma and
    coils together give [q] and the correction is [v], the whole-grid map
    holds [q + v], while a query by coordinates holds no correction. *)
Theorem psi_at_coordinates_omits_controller :
  forall (self : eq_t) (c : Controller) (x0 z0 : option arraylike)
         (i j : nat) (q v : float),
    Equilibrium.controller self = Some c ->
    (x0, z0) <> (None, None) ->
    node_value
      (np_add (PlasmaCoil_psi (Equilibrium.plasma self) None None)
              (_psi_greens (Equilibrium.coilset self) (Equilibrium._psi_green self)))
      i j = Some q ->
    node_value (Equilibrium.controller_psi (Equilibrium.stabilised c self)) i j
    = Some v ->
    Equilibrium.psi x0 z0 self
    = (Return (np_add (PlasmaCoil_psi (Equilibrium.plasma self) x0 z0)
                      (coilset_psi (Equilibrium.coilset self) x0 z0)),
       self)
    /\ exists (full : arraylike) (self' : eq_t),
         Equilibrium.psi None None self = (Return full, self')
         /\ full
            = np_add
                (np_add (PlasmaCoil_psi (Equilibrium.plasma self) None None)
                        (_psi_greens (Equilibrium.coilset self)
                                     (Equilibrium._psi_green self)))
                (Equilibrium.controller_psi (Equilibrium.stabilised c self))
         /\ node_value full i j = Some (q + v)%float.
Proof.
  intros self c x0 z0 i j q v Hc Hxz Hq Hv. split.
  - apply psi_at_coordinates. exact Hxz.
  - eexists. eexists. split; [apply psi_grid; exact Hc |].
    split; [reflexivity |]. apply node_value_np_add; assumption.
Qed.


Local Abbreviation cleared self := (Equilibrium.set_OX_points None None self).

Lemma psi_or_default_frame (psi0 : option arraylike) (s s1 : eq_t) (p : arraylike) :
  Equilibrium.psi_or_default psi0 s = (Return p, s1) ->
  s1 = s
  \/ exists (c : Controller) (j : arraylike),
       psi0 = None /\ Equilibrium.controller s = Some c
       /\ Equilibrium._jtor s = Some j
       /\ s1 = Equilibrium.set_controller (Some (Equilibrium.stabilise c s)) s.
Proof.
  destruct psi0 as [p0 |]; unfold Equilibrium.psi_or_default.
  - unfold ret. intros E. injection E as _ <-. left. reflexivity.
  - destruct (Equilibrium.controller s) as [c |] eqn:Ec.
    + rewrite (psi_grid s c Ec).
      destruct (Equilibrium._jtor s) as [j |] eqn:Ej; intros E; injection E as _ <-.
      * right. exists c, j. auto.
      * left. reflexivity.
    + rewrite (psi_grid_no_controller s Ec). discriminate.
Qed.

Lemma get_OX_points_forced (p : arraylike) (self : eq_t) :
  Equilibrium.get_OX_points (Some p) true self
  = (let found :=
       find_OX_points (Equilibrium.x self) (Equilibrium.z self) p
                      (Equilibrium.limiter self) in
     (Return (Some (fst found), Some (snd found)),
      Equilibrium.set_OX_points (Some (fst found)) (Some (snd found)) self)).
Proof.
  unfold Equilibrium.get_OX_points, bind, getattr. rewrite orb_true_r.
  reflexivity.
Qed.

(** The state that [solve] leaves once the current density is known. *)
Lemma solve_with_jtor (jtor1 : arraylike) (psi0 : option arraylike) (self : eq_t) :
  Equilibrium.solve (Some jtor1) psi0 self
  = (Return tt,
     Equilibrium.set_plasmacoil None
       (Equilibrium.set_jtor (Some jtor1)
          (Equilibrium.set_plasma
             {| plasma_psi :=
                  GSSolver_call (Equilibrium._solver self)
                    (apply_boundary
                       (np_mul (np_mul (Scalar (- MU_0)%float) (Equilibrium.x self))
                               jtor1)
                       (FreeBoundary_call (Equilibrium.boundary self)
                          (PlasmaCoil_psi (Equilibrium.plasma self) None None)
                          jtor1));
                j_tor := Some jtor1;
                plasma_grid := Equilibrium.grid self |}
             (cleared self)))).
Proof. reflexivity. Qed.

Lemma solve_from_flux (psi0 : option arraylike) (self s1 : eq_t) (p : arraylike) :
  Equilibrium.psi_or_default psi0 (cleared self) = (Return p, s1) ->
  Equilibrium.solve None psi0 self
  = (let found :=
       find_OX_points (Equilibrium.x s1) (Equilibrium.z s1) p
                      (Equilibrium.limiter s1) in
     let s2 := Equilibrium.set_OX_points (Some (fst found)) (Some (snd found)) s1 in
     match fst found with
     | [] => (Raise (EquilibriaError "No O-point found in equilibrium."), s2)
     | _ :: _ =>
         let jtor1 :=
           jtor (Equilibrium.profiles s1) (Equilibrium.x s1) (Equilibrium.z s1) p
                (Some (fst found)) (Some (snd found)) in
         (Return tt,
          Equilibrium.set_plasmacoil None
            (Equilibrium.set_jtor (Some jtor1)
               (Equilibrium.set_plasma
                  {| plasma_psi :=
                       GSSolver_call (Equilibrium._solver s1)
                         (apply_boundary
                            (np_mul (np_mul (Scalar (- MU_0)%float)
                                            (Equilibrium.x s1)) jtor1)
                            (FreeBoundary_call (Equilibrium.boundary s1)
                               (PlasmaCoil_psi (Equilibrium.plasma s1) None None)
                               jtor1));
                     j_tor := Some jtor1;
                     plasma_grid := Equilibrium.grid s1 |}
                  s2)))
     end).
Proof.
  intros E. unfold Equilibrium.solve.
  unfold bind at 1. unfold Equilibrium._clear_OX_points, setattr.
  unfold bind at 1. unfold bind at 1. rewrite E.
  unfold bind at 1. rewrite get_OX_points_forced. cbv zeta.
  destruct (fst (find_OX_points (Equilibrium.x s1) (Equilibrium.z s1) p
                                (Equilibrium.limiter s1))) eqn:Ef;
    reflexivity.
Qed.

Lemma solve_flux_fails (psi0 : option arraylike) (self s1 : eq_t) (e : exn) :
  Equilibrium.psi_or_default psi0 (cleared self) = (Raise e, s1) ->
  Equilibrium.solve None psi0 self = (Raise e, s1).
Proof.
  intros E. unfold Equilibrium.solve.
  unfold bind at 1. unfold Equilibrium._clear_OX_points, setattr.
  unfold bind at 1. unfold bind at 1. rewrite E. reflexivity.
Qed.


(** C2, as the code has it: when the search on the starting flux finds no
    O-point, [solve()] raises [EquilibriaError], and the plasma and the
    stored current density are those from before the call; the
    critical-point cache is not left cleared but holds the result of the
    failed search, an empty list of O-points and the X-points found; and
    when the starting flux came from [psi()] with a current density stored,
    the controller has been stabilised.  Nothing else has changed. *)
Theorem solve_without_O_point :
  forall (self s1 : eq_t) (psi0 : option arraylike) (p : arraylike),
    Equilibrium.psi_or_default psi0 (cleared self) = (Return p, s1) ->
    fst (find_OX_points (Equilibrium.x self) (Equilibrium.z self) p
                        (Equilibrium.limiter self)) = [] ->
    let x_points :=
      snd (find_OX_points (Equilibrium.x self) (Equilibrium.z self) p
                          (Equilibrium.limiter self)) in
    exists self' : eq_t,
      Equilibrium.solve None psi0 self
      = (Raise (EquilibriaError "No O-point found in equilibrium."), self')
      /\ Equilibrium.plasma self' = Equilibrium.plasma self
      /\ Equilibrium._jtor self' = Equilibrium._jtor self
      /\ Equilibrium._o_points self' = Some []
      /\ Equilibrium._x_points self' = Some x_points
      /\ (self' = Equilibrium.set_OX_points (Some []) (Some x_points) self
          \/ exists (c : Controller) (j : arraylike),
               psi0 = None /\ Equilibrium.controller self = Some c
               /\ Equilibrium._jtor self = Some j
               /\ self'
                  = Equilibrium.set_OX_points (Some []) (Some x_points)
                      (Equilibrium.set_controller
                         (Some (Equilibrium.stabilise c (cleared self))) self)).
Proof.
  intros self s1 psi0 p Hpsi Hnone x_points.
  pose proof (solve_from_flux psi0 self s1 p Hpsi) as Hsolve. cbv zeta in Hsolve.
  destruct (psi_or_default_frame psi0 (cleared self) s1 p Hpsi)
    as [-> | (c & j & -> & Hc & Hj & ->)].
  - change (Equilibrium.x (cleared self)) with (Equilibrium.x self) in Hsolve.
    change (Equilibrium.z (cleared self)) with (Equilibrium.z self) in Hsolve.
    change (Equilibrium.limiter (cleared self)) with (Equilibrium.limiter self)
      in Hsolve.
    rewrite Hnone in Hsolve. eexists. split; [exact Hsolve |].
    repeat split; try reflexivity. left. reflexivity.
  - cbn [Equilibrium.x Equilibrium.z Equilibrium.limiter
         Equilibrium.set_controller Equilibrium.set_OX_points] in Hsolve.
    rewrite Hnone in Hsolve. eexists. split; [exact Hsolve |].
    repeat split; try reflexivity. right. exists c, j. repeat split; assumption.
Qed.


(** C3, as the code has it: after a successful [solve()] the plasma is
    rebuilt from the flux that the solver returned for the current density
    used, and that current density is stored.  The critical-point cache
    holds the points found on the flux the solve started from, not on the
    flux it produced; and when the current density was passed in, no
    search ran and the cache is left cleared. *)
Theorem solve_success_state :
  forall (self self' : eq_t) (jtor0 psi0 : option arraylike),
    Equilibrium.solve jtor0 psi0 self = (Return tt, self') ->
    exists jtor1 : arraylike,
      Equilibrium.plasma self'
      = {| plasma_psi :=
             GSSolver_call (Equilibrium._solver self)
               (apply_boundary
                  (np_mul (np_mul (Scalar (- MU_0)%float) (Equilibrium.x self)) jtor1)
                  (FreeBoundary_call (Equilibrium.boundary self)
                     (PlasmaCoil_psi (Equilibrium.plasma self) None None) jtor1));
           j_tor := Some jtor1;
           plasma_grid := Equilibrium.grid self |}
      /\ Equilibrium._jtor self' = Some jtor1
      /\ match jtor0 with
         | Some j =>
             jtor1 = j
             /\ Equilibrium._o_points self' = None
             /\ Equilibrium._x_points self' = None
         | None =>
             exists (p : arraylike) (s1 : eq_t),
               Equilibrium.psi_or_default psi0 (cleared self) = (Return p, s1)
               /\ (let found :=
                     find_OX_points (Equilibrium.x self) (Equilibrium.z self) p
                                    (Equilibrium.limiter self) in
                   fst found <> []
                   /\ Equilibrium._o_points self' = Some (fst found)
                   /\ Equilibrium._x_points self' = Some (snd found)
                   /\ jtor1
                      = jtor (Equilibrium.profiles self) (Equilibrium.x self)
                          (Equilibrium.z self) p (Some (fst found))
                          (Some (snd found)))
         end.
Proof.
  intros self self' [j |] psi0 Hsolve.
  - rewrite solve_with_jtor in Hsolve. injection Hsolve as <-.
    exists j. repeat split; reflexivity.
  - destruct (Equilibrium.psi_or_default psi0 (cleared self)) as [[p | e] s1] eqn:Hpsi.
    + rewrite (solve_from_flux psi0 self s1 p Hpsi) in Hsolve. cbv zeta in Hsolve.
      assert (Hframe :
        Equilibrium.x s1 = Equilibrium.x self
        /\ Equilibrium.z s1 = Equilibrium.z self
        /\ Equilibrium.limiter s1 = Equilibrium.limiter self
        /\ Equilibrium.profiles s1 = Equilibrium.profiles self
        /\ Equilibrium._solver s1 = Equilibrium._solver self
        /\ Equilibrium.boundary s1 = Equilibrium.boundary self
        /\ Equilibrium.plasma s1 = Equilibrium.plasma self
        /\ Equilibrium.grid s1 = Equilibrium.grid self).
      { destruct (psi_or_default_frame psi0 (cleared self) s1 p Hpsi)
          as [-> | (c & j & _ & _ & _ & ->)]; repeat split; reflexivity. }
      destruct Hframe as (Hx & Hz & Hl & Hp & Hs & Hb & Hpl & Hg).
      rewrite Hx, Hz, Hl, Hp, Hs, Hb, Hpl, Hg in Hsolve.
      destruct (fst (find_OX_points (Equilibrium.x self) (Equilibrium.z self) p
                                    (Equilibrium.limiter self))) as [| o os] eqn:Ef;
        [discriminate Hsolve |].
      injection Hsolve as <-.
      eexists. split; [reflexivity |]. split; [reflexivity |].
      exists p, s1. split; [reflexivity |]. cbv zeta. rewrite Ef.
      repeat split; try reflexivity. discriminate.
    + rewrite (solve_flux_fails psi0 self s1 e Hpsi) in Hsolve. discriminate Hsolve.
Qed.


Lemma psi_or_default_given (p : arraylike) (s : eq_t) :
  Equilibrium.psi_or_default (Some p) s = (Return p, s).
Proof. reflexivity. Qed.

(** C4: with the boundary values taken from the current density as the
    spec has it, the flux map that [solve] leaves depends on the coils, the
    profile and the starting flux, and not on the plasma that the call
    finds.  (1) Two equilibria that differ only in what a [solve] writes
    (plasma, stored current density, cache, plasma coil), solved from the
    same starting flux [p] (with or without a current density given), end
    alike, and on success are left equal: the same plasma, and the same
    flux map from [psi()].  (2) So a second [solve] right after a
    successful one, with the same arguments, returns and leaves the
    equilibrium as the first left it, flux map included.  Equality here is
    exact. *)
Theorem solve_twice_same_flux_map :
  Equilibrium.boundary_values_from_current_density ->
  (forall (s1 s2 : eq_t) (jtor0 : option arraylike) (p : arraylike),
      Equilibrium.differ_in_solve_results s1 s2 ->
      let r1 := Equilibrium.solve jtor0 (Some p) s1 in
      let r2 := Equilibrium.solve jtor0 (Some p) s2 in
      fst r1 = fst r2
      /\ (fst r1 = Return tt ->
          snd r1 = snd r2
          /\ Equilibrium.psi None None (snd r1)
             = Equilibrium.psi None None (snd r2)))
  /\ (forall (self self' : eq_t) (jtor0 : option arraylike) (p : arraylike),
        Equilibrium.solve jtor0 (Some p) self = (Return tt, self') ->
        Equilibrium.solve jtor0 (Some p) self' = (Return tt, self')).
Proof.
  intros Hedge.
  assert (Hfirst :
    forall (s1 s2 : eq_t) (jtor0 : option arraylike) (p : arraylike),
      Equilibrium.differ_in_solve_results s1 s2 ->
      fst (Equilibrium.solve jtor0 (Some p) s1)
      = fst (Equilibrium.solve jtor0 (Some p) s2)
      /\ (fst (Equilibrium.solve jtor0 (Some p) s1) = Return tt ->
          snd (Equilibrium.solve jtor0 (Some p) s1)
          = snd (Equilibrium.solve jtor0 (Some p) s2))).
  { intros s1 s2 jtor0 p (pl & j & o & xp & pc & ->).
    destruct jtor0 as [j0 |].
    - rewrite !solve_with_jtor. cbn.
      rewrite (Hedge (Equilibrium.boundary s1) _ (PlasmaCoil_psi pl None None)
                 (PlasmaCoil_psi (Equilibrium.plasma s1) None None)).
      split; reflexivity.
    - rewrite (solve_from_flux (Some p) s1 (cleared s1) p (psi_or_default_given p _)).
      rewrite (solve_from_flux (Some p) _ _ p (psi_or_default_given p _)).
      cbv zeta.
      cbn [Equilibrium.x Equilibrium.z Equilibrium.limiter Equilibrium.profiles
           Equilibrium._solver Equilibrium.boundary Equilibrium.plasma
           Equilibrium.grid Equilibrium.set_OX_points Equilibrium.set_plasma
           Equilibrium.set_jtor Equilibrium.set_plasmacoil].
      destruct (fst (find_OX_points (Equilibrium.x s1) (Equilibrium.z s1) p
                                    (Equilibrium.limiter s1))) as [| o1 os1];
        cbn [fst snd].
      + split; [reflexivity | discriminate].
      + split; [reflexivity |]. intros _. cbn.
        rewrite (Hedge (Equilibrium.boundary s1) _ (PlasmaCoil_psi pl None None)
                   (PlasmaCoil_psi (Equilibrium.plasma s1) None None)).
        reflexivity. }
  split.
  - intros s1 s2 jtor0 p Hdiffer. cbv zeta.
    destruct (Hfirst s1 s2 jtor0 p Hdiffer) as [Hout Hstate].
    split; [exact Hout |]. intros Hok. specialize (Hstate Hok).
    split; [exact Hstate | rewrite Hstate; reflexivity].
  - intros self self' jtor0 p Hsolve.
    assert (Hdiffer : Equilibrium.differ_in_solve_results self self').
    { destruct jtor0 as [j0 |].
      - rewrite solve_with_jtor in Hsolve.
        apply (f_equal snd) in Hsolve. cbn [snd] in Hsolve. subst self'.
        do 5 eexists. reflexivity.
      - rewrite (solve_from_flux (Some p) self (cleared self) p
                   (psi_or_default_given p _)) in Hsolve.
        cbv zeta in Hsolve.
        destruct (fst (find_OX_points _ _ p _)) as [| o1 os1];
          [apply (f_equal fst) in Hsolve; discriminate Hsolve |].
        apply (f_equal snd) in Hsolve. cbn [snd] in Hsolve. subst self'.
        do 5 eexists. reflexivity. }
    destruct (Hfirst self self' jtor0 p Hdiffer) as [Hout Hstate].
    rewrite Hsolve in Hout, Hstate. cbn [fst snd] in Hout, Hstate.
    specialize (Hstate eq_refl).
    destruct (Equilibrium.solve jtor0 (Some p) self') as [r s'].
    cbn [fst snd] in Hout, Hstate. subst r s'. reflexivity.
Qed.


(** C7, as the code has it: construction installs the dummy controller for
    [None] and the virtual controller (gain 2.2) for ["virtual"]; it fails
    with [NotImplementedError] for ["feedback"], and with [ValueError] for
    every other value. *)
Theorem vcontrol_selection_at_construction :
  forall (coilset0 : CoilSet) (grid0 : Grid) (profiles0 : Profile)
         (force_symmetry0 : bool) (vcontrol : option string)
         (limiter0 : option Limiter) (psi0 jtor0 : option arraylike)
         (filename0 : option string),
    let self0 :=
      Equilibrium.before_set_vcontrol coilset0 grid0 profiles0 force_symmetry0
        psi0 jtor0 in
    let built :=
      Equilibrium.__init__ coilset0 grid0 profiles0 force_symmetry0 vcontrol
        limiter0 psi0 jtor0 filename0 in
    match vcontrol with
    | None =>
        exists self : eq_t,
          built = Return self
          /\ Equilibrium.controller self
             = Some (Equilibrium.DummyController
                       (PlasmaCoil_psi (Equilibrium.plasma self0) None None))
    | Some v =>
        if String.eqb v "virtual" then
          exists self : eq_t,
            built = Return self
            /\ Equilibrium.controller self
               = Some (Equilibrium.VirtualController self0 0x1.199999999999ap+1%float)
        else if String.eqb v "feedback" then built = Raise NotImplementedError
        else exists msg : string, built = Raise (ValueError msg)
    end.
Proof.
  intros coilset0 grid0 profiles0 force_symmetry0 vcontrol limiter0 psi0 jtor0
         filename0 self0 built.
  subst built. unfold Equilibrium.__init__. fold self0.
  destruct vcontrol as [v |]; unfold Equilibrium.set_vcontrol.
  - destruct (String.eqb v "virtual").
    + eexists. split; reflexivity.
    + destruct (String.eqb v "feedback").
      * reflexivity.
      * eexists. reflexivity.
  - eexists. split; reflexivity.
Qed.


(** One evaluation of the objective of [solve_li]. *)
Lemma minimise_dli_step (psi1 : arraylike) (o_points : option (list Opoint))
    (x_points : option (list Xpoint)) (mask : arraylike) (x0 : list float)
    (s : eq_t) (target : float) :
  Equilibrium._li s = Some target ->
  (exists c, Equilibrium.controller s = Some c) ->
  let r := Equilibrium.minimise_dli psi1 o_points x_points mask x0 s in
  Equilibrium._li (snd r) = Some target
  /\ (exists c, Equilibrium.controller (snd r) = Some c)
  /\ match fst r with
     | Raise e =>
         e = StopIteration
         /\ Equilibrium.within_tolerance (Equilibrium.li_check_of (snd r)) = true
         /\ Equilibrium._li_iter (snd r) = Equilibrium._li_iter s
     | Return _ =>
         Equilibrium.within_tolerance (Equilibrium.li_check_of (snd r)) = false
         /\ Equilibrium._li_iter (snd r) = (Equilibrium._li_iter s + 1)%Z
     end.
Proof.
  intros Hli [c Hc]. destruct s. cbn in Hli, Hc. subst.
  unfold Equilibrium.minimise_dli, Equilibrium.grad_shafranov_step,
    Equilibrium._update_plasma, Equilibrium.Bp, Equilibrium.Bx, Equilibrium.Bz,
    Equilibrium.psi, Equilibrium.controller_stabilise, Equilibrium.the_controller,
    bind, setattr, getattr, ret, raise.
  cbn.
  destruct _jtor; cbn;
    match goal with
    | |- context [if ?b then _ else _] => destruct b eqn:Ele
    end; cbn; unfold Equilibrium.within_tolerance, py_le; cbn; rewrite ?Ele;
    repeat split; eauto.
Qed.


(** A run of the optimiser against the objective: it ends with a result
    when no evaluation came within the tolerance, and with
    [StopIteration] at the first evaluation that did. *)
Lemma run_minimize_history (psi1 : arraylike) (o_points : option (list Opoint))
    (x_points : option (list Xpoint)) (mask : arraylike) (target : float)
    (o : optimiser) :
  forall s : eq_t,
    Equilibrium._li s = Some target ->
    (exists c, Equilibrium.controller s = Some c) ->
    let objective := Equilibrium.minimise_dli psi1 o_points x_points mask in
    let history := Equilibrium.li_history o objective s in
    let r := Equilibrium.run_minimize o objective s in
    match fst r with
    | Return _ =>
        existsb Equilibrium.within_tolerance history = false
        /\ Equilibrium._li_iter (snd r)
           = (Equilibrium._li_iter s + Z.of_nat (List.length history))%Z
    | Raise e =>
        e = StopIteration
        /\ existsb Equilibrium.within_tolerance history = true
        /\ Equilibrium.within_tolerance (Equilibrium.li_check_of (snd r)) = true
        /\ Equilibrium._li_iter (snd r)
           = (Equilibrium._li_iter s + Z.of_nat (List.length history) - 1)%Z
    end.
Proof.
  induction o as [res | x0 k IH]; intros s Hli Hc objective history r.
  - cbn. split; [reflexivity | lia].
  - pose proof (minimise_dli_step psi1 o_points x_points mask x0 s target Hli Hc)
      as Hstep.
    cbv zeta in Hstep. fold objective in Hstep.
    subst history r. cbn [Equilibrium.li_history Equilibrium.run_minimize].
    unfold bind. fold objective.
    destruct (objective x0 s) as [[v | e] s1] eqn:Eobj; cbn [fst snd] in Hstep |- *.
    + destruct Hstep as (Hli1 & Hc1 & Hout & Hiter).
      specialize (IH v s1 Hli1 Hc1). cbv zeta in IH. fold objective in IH.
      cbn [existsb List.length].
      replace (Equilibrium.within_tolerance (Equilibrium.li_check_of s1))
        with false by (symmetry; exact Hout).
      cbn [orb].
      destruct (fst (Equilibrium.run_minimize (k v) objective s1)).
      * destruct IH as (IHh & IHi). split; [exact IHh |]. rewrite IHi, Hiter. lia.
      * destruct IH as (IHe & IHh & IHw & IHi).
        repeat split; try assumption. rewrite IHi, Hiter. lia.
    + destruct Hstep as (_ & _ & He & Hin & Hiter).
      cbn [existsb List.length]. rewrite Hin. cbn [orb].
      repeat split; try assumption. rewrite Hiter. lia.
Qed.


Lemma psi_or_default_total (psi0 : option arraylike) (s : eq_t) (c : Controller) :
  Equilibrium.controller s = Some c ->
  exists (p : arraylike) (s1 : eq_t),
    Equilibrium.psi_or_default psi0 s = (Return p, s1).
Proof.
  intros Hc. destruct psi0 as [p |].
  - exists p, s. reflexivity.
  - unfold Equilibrium.psi_or_default. rewrite (psi_grid s c Hc). eauto.
Qed.

(** C6: for an equilibrium with an inductance target, let [history] be the
    comparisons that the objective makes, evaluation by evaluation, in the
    run of the optimiser that [solve_li] starts.  If some evaluation finds
    the relative difference within the tolerance, [solve_li] returns
    normally, in the state of that evaluation, the first such, with the
    iteration count at the evaluations before it.  Otherwise the optimiser
    runs to the end of its own strategy and [solve_li] ends as
    [process_scipy_result] does; a [StopIteration] never leaves
    [solve_li]. *)
Theorem solve_li_early_exit_returns_normally :
  forall (self : eq_t) (jtor0 psi0 : option arraylike) (target : float)
         (c : Controller),
    Equilibrium._li_flag self = true ->
    Equilibrium._li self = Some target ->
    Equilibrium.controller self = Some c ->
    exists (psi1 : arraylike) (s1 : eq_t),
      Equilibrium.psi_or_default psi0 (Equilibrium.set_li_iter 0 (cleared self))
      = (Return psi1, s1)
      /\ let found :=
           find_OX_points (Equilibrium.x self) (Equilibrium.z self) psi1
                          (Equilibrium.limiter self) in
         let o_points := Some (fst found) in
         let x_points := Some (snd found) in
         let s0 := Equilibrium.set_OX_points o_points x_points s1 in
         let objective :=
           Equilibrium.minimise_dli psi1 o_points x_points
             (in_plasma (Equilibrium.x self) (Equilibrium.z self) psi1
                        o_points x_points) in
         let strategy :=
           minimize (shape_coeffs (Equilibrium.profiles self))
                    (map (fun _ => ((-1)%float, 3%float))
                         (shape_coeffs (Equilibrium.profiles self))) in
         let history := Equilibrium.li_history strategy objective s0 in
         (existsb Equilibrium.within_tolerance history = true ->
          exists self' : eq_t,
            Equilibrium.solve_li jtor0 psi0 self = (Return tt, self')
            /\ Equilibrium.within_tolerance (Equilibrium.li_check_of self') = true
            /\ Equilibrium._li_iter self' = (Z.of_nat (List.length history) - 1)%Z)
         /\ (existsb Equilibrium.within_tolerance history = false ->
             exists (res : OptimizeResult) (s_fin : eq_t),
               Equilibrium.run_minimize strategy objective s0 = (Return res, s_fin)
               /\ Equilibrium._li_iter s_fin = Z.of_nat (List.length history)
               /\ Equilibrium.solve_li jtor0 psi0 self
                  = match process_scipy_result res with
                    | Return alpha_star =>
                        (Return tt,
                         Equilibrium.set_profiles
                           (shape_adjust_parameters (Equilibrium.profiles s_fin)
                                                    alpha_star) s_fin)
                    | Raise e =>
                        if is_StopIteration e then (Return tt, s_fin)
                        else (Raise e, s_fin)
                    end).
Proof.
  intros self jtor0 psi0 target c Hflag Hli Hc.
  destruct (psi_or_default_total psi0 (Equilibrium.set_li_iter 0 (cleared self)) c Hc)
    as (psi1 & s1 & Hpsi).
  exists psi1, s1. split; [exact Hpsi |].
  assert (Hframe :
    Equilibrium.x s1 = Equilibrium.x self
    /\ Equilibrium.z s1 = Equilibrium.z self
    /\ Equilibrium.limiter s1 = Equilibrium.limiter self
    /\ Equilibrium.profiles s1 = Equilibrium.profiles self
    /\ Equilibrium._li s1 = Some target
    /\ Equilibrium._li_iter s1 = 0%Z
    /\ exists c1, Equilibrium.controller s1 = Some c1).
  { destruct (psi_or_default_frame psi0 _ s1 psi1 Hpsi)
      as [-> | (c0 & j & _ & _ & _ & ->)]; cbn; repeat split; eauto. }
  destruct Hframe as (Hx & Hz & Hl & Hp & Hli1 & Hit1 & Hc1).
  intros found o_points x_points s0 objective strategy history.
  assert (Hsolve :
    Equilibrium.solve_li jtor0 psi0 self
    = match Equilibrium.run_minimize strategy objective s0 with
      | (Return res, s_fin) =>
          match process_scipy_result res with
          | Return alpha_star =>
              (Return tt,
               Equilibrium.set_profiles
                 (shape_adjust_parameters (Equilibrium.profiles s_fin) alpha_star)
                 s_fin)
          | Raise e => if is_StopIteration e then (Return tt, s_fin) else (Raise e, s_fin)
          end
      | (Raise e, s_fin) =>
          if is_StopIteration e then (Return tt, s_fin) else (Raise e, s_fin)
      end).
  { unfold Equilibrium.solve_li. unfold bind at 1. unfold getattr at 1.
    rewrite Hflag. cbn [negb].
    unfold bind at 1. unfold Equilibrium._clear_OX_points, setattr at 1.
    unfold bind at 1. unfold setattr at 1.
    unfold bind at 1. rewrite Hpsi.
    unfold bind at 1. rewrite get_OX_points_forced. cbv zeta.
    unfold bind at 1. unfold getattr at 1. cbn [fst snd].
    cbn [Equilibrium.x Equilibrium.z Equilibrium.set_OX_points].
    rewrite Hx, Hz, Hl. fold found. fold o_points x_points. fold s0.
    unfold try_except.
    unfold bind at 1. unfold getattr at 1.
    unfold bind at 1. unfold getattr at 1.
    replace (Equilibrium.profiles s0) with (Equilibrium.profiles self)
      by (symmetry; exact Hp).
    fold strategy. fold objective.
    unfold bind at 1.
    destruct (Equilibrium.run_minimize strategy objective s0) as [[res | e] s_fin];
      [| reflexivity].
    unfold bind, lift_outcome, setattr.
    destruct (process_scipy_result res) as [alpha_star | e]; [reflexivity |].
    reflexivity. }
  pose proof (run_minimize_history psi1 o_points x_points
                (in_plasma (Equilibrium.x self) (Equilibrium.z self) psi1
                           o_points x_points)
                target strategy s0 Hli1 Hc1) as Hrun.
  cbv zeta in Hrun. fold objective in Hrun. fold history in Hrun.
  change (Equilibrium._li_iter s0) with (Equilibrium._li_iter s1) in Hrun.
  rewrite Hit1 in Hrun.
  destruct (Equilibrium.run_minimize strategy objective s0) as [[res | e] s_fin];
    cbn [fst snd] in Hrun.
  - destruct Hrun as (Hnone & Hiter). split.
    + intros Hsome. rewrite Hnone in Hsome. discriminate Hsome.
    + intros _. exists res, s_fin. split; [reflexivity |].
      split; [rewrite Hiter; lia | exact Hsolve].
  - destruct Hrun as (-> & Hsome & Hwithin & Hiter). split.
    + intros _. exists s_fin. split; [exact Hsolve |].
      split; [exact Hwithin | rewrite Hiter; lia].
    + intros Hnone. rewrite Hsome in Hnone. discriminate Hnone.
Qed.

(** What [to_dict] writes about the grid and the coils, read off the
    equilibrium as [to_dict] leaves it. *)
Lemma to_dict_fields (q : Z) (self s : eq_t) (data : EQDSKInterface) :
  Equilibrium.to_dict q self = (Return data, s) ->
  (xc data, zc data, dxc data, dzc data, Ic data)
  = to_group_vecs (Equilibrium.coilset s)
  /\ xgrid1 data = x_min (Equilibrium.grid s)
  /\ xdim data = x_size (Equilibrium.grid s)
  /\ zmid data = z_mid (Equilibrium.grid s)
  /\ zdim data = z_size (Equilibrium.grid s)
  /\ e_x data = x_1d (Equilibrium.grid s)
  /\ e_z data = z_1d (Equilibrium.grid s)
  /\ shape (e_psi data) = Some (e_nx data, e_nz data)
  /\ name data = None.
Proof.
  unfold Equilibrium.to_dict. intros E.
  apply bind_inv in E; destruct E as (mode & s1 & _ & E).
  apply bind_inv in E; destruct E as (psi1 & s2 & _ & E).
  apply bind_inv in E; destruct E as (n_xz & s3 & Eshape & E).
  assert (Hshape : shape psi1 = Some n_xz).
  { unfold lift_outcome in Eshape. destruct (shape psi1); [| discriminate Eshape].
    injection Eshape as -> _. reflexivity. }
  repeat (apply bind_inv in E; destruct E as (? & ? & _ & E)).
  unfold getattr in E. injection E as Ed Es. rewrite <- Es, <- Ed.
  match goal with
  | |- context [to_group_vecs ?cs] =>
      destruct (to_group_vecs cs) as [[[[x_c z_c] dxc0] dzc0] cur]
  end.
  cbn. repeat split; try reflexivity.
  rewrite Hshape. destruct n_xz; reflexivity.
Qed.

(** C5, as the code has it: after [to_eqdsk], reading the file back with
    [_get_eqdsk] gives a record whose grid fields (origin, extents,
    coordinate vectors; [nx], [nz] are the shape of the flux map written)
    and whose coil positions and currents are those of the equilibrium
    that was written.  The coil half-sizes [dxc], [dzc] come back as
    written only when the name in the file, [filename_header], holds
    [equilibria] (or [fiesta], without [SCENE]); for any other name they
    come back halved.  The default header [BP_equilibria] always gives
    such a name.  The grid and, without [user_coils] and symmetrisation,
    the coilset are rebuilt from that record. *)
Theorem eqdsk_round_trip :
  forall (self self' : eq_t) (fs fs' : files) (filename0 header : string)
         (directory : option string) (filetype : string) (qpsi_calcmode : Z)
         (force_symmetry0 : bool) (user_coils : option CoilSet),
    Equilibrium.to_eqdsk filename0 header directory filetype qpsi_calcmode
      (self, fs) = (Return tt, (self', fs')) ->
    let n := (filename0 ++ "_" ++ header)%string in
    exists (path : string) (e : EQDSKInterface) (psi1 : arraylike)
           (coilset1 : CoilSet) (grid1 : Grid) (limiter1 : option Limiter),
      Equilibrium.filename self' = Some path
      /\ Equilibrium.CoilSetMHDState_get_eqdsk fs' path force_symmetry0 user_coils
         = Return (e, psi1, coilset1, grid1, limiter1)
      /\ grid1 = Grid_from_eqdsk e
      /\ xgrid1 e = x_min (Equilibrium.grid self')
      /\ xdim e = x_size (Equilibrium.grid self')
      /\ zmid e = z_mid (Equilibrium.grid self')
      /\ zdim e = z_size (Equilibrium.grid self')
      /\ e_x e = x_1d (Equilibrium.grid self')
      /\ e_z e = z_1d (Equilibrium.grid self')
      /\ shape (e_psi e) = Some (e_nx e, e_nz e)
      /\ (let '(x_c, z_c, dx_c, dz_c, currents) :=
            to_group_vecs (Equilibrium.coilset self') in
          xc e = x_c /\ zc e = z_c /\ Ic e = currents
          /\ if kept_as_written n
             then dxc e = dx_c /\ dzc e = dz_c
             else dxc e = halved dx_c /\ dzc e = halved dz_c)
      /\ (user_coils = None -> force_symmetry0 = false ->
          coilset1 = from_group_vecs e)
      /\ (header = "BP_equilibria"%string -> kept_as_written n = true).
Proof.
  intros self self' fs fs' filename0 header directory filetype qpsi_calcmode
         force_symmetry0 user_coils Hsave n.
  unfold Equilibrium.to_eqdsk in Hsave.
  apply bind_inv in Hsave. destruct Hsave as (data & w1 & Hdict & Hsave).
  unfold Equilibrium.on_self in Hdict. cbn [fst snd] in Hdict.
  destruct (Equilibrium.to_dict _ self) as [r s] eqn:Edict.
  injection Hdict as -> <-.
  destruct (to_dict_fields _ self s data Edict)
    as (Hvecs & Hx1 & Hxd & Hzm & Hzd & Hex & Hez & Hshape & Hname).
  unfold Equilibrium.MHDState_to_eqdsk in Hsave. fold n in Hsave.
  apply bind_inv in Hsave. destruct Hsave as (path & w2 & Hpath & Hsave).
  assert (Hw2 : w2 = (s, fs)).
  { destruct directory as [d |].
    - unfold ret in Hpath. injection Hpath as _ <-. reflexivity.
    - destruct (get_bluemira_path _ _) as [d | err].
      + unfold ret in Hpath. injection Hpath as _ <-. reflexivity.
      + destruct err; discriminate Hpath. }
  subst w2. clear Hpath.
  unfold bind, Equilibrium.on_self, setattr in Hsave. cbn [fst snd] in Hsave.
  injection Hsave as <- <-.
  assert (Hread :
    EQDSKInterface_from_file
      (EQDSKInterface_write fs path (set_name data n)) path
    = Return (set_name data n)).
  { unfold EQDSKInterface_from_file, EQDSKInterface_write.
    rewrite String.eqb_refl. reflexivity. }
  assert (Hkept : header = "BP_equilibria"%string -> kept_as_written n = true).
  { intros ->. apply default_header_is_kept. }
  destruct (to_group_vecs (Equilibrium.coilset s))
    as [[[[x_c z_c] dx_c] dz_c] currents] eqn:Evecs.
  injection Hvecs as Hxc Hzc Hdxc Hdzc HIc.
  exists path.
  unfold Equilibrium.CoilSetMHDState_get_eqdsk, Equilibrium.MHDState_get_eqdsk.
  rewrite Hread. cbn [name set_name]. unfold kept_as_written in *.
  cbn [Equilibrium.set_filename Equilibrium.grid Equilibrium.coilset
       Equilibrium.filename].
  rewrite Evecs.
  destruct (contains "equilibria" n); cbn [orb andb negb].
  - do 5 eexists. split; [reflexivity |]. split; [reflexivity |]. cbn.
    repeat split; try assumption. intros -> ->. reflexivity.
  - unfold isinstance_cls_Breakdown. cbn [negb andb].
    destruct (contains "SCENE" n); cbn [negb andb].
    + do 5 eexists. split; [reflexivity |]. split; [reflexivity |]. cbn.
      unfold halved. rewrite Hdxc, Hdzc.
      repeat split; try assumption; try reflexivity. intros -> ->. reflexivity.
    + destruct (contains "fiesta" (lower n)).
      * do 5 eexists. split; [reflexivity |]. split; [reflexivity |]. cbn.
        repeat split; try assumption. intros -> ->. reflexivity.
      * do 5 eexists. split; [reflexivity |]. split; [reflexivity |]. cbn.
        unfold halved. rewrite Hdxc, Hdzc.
        repeat split; try assumption; try reflexivity. intros -> ->. reflexivity.
Qed.


End EquilibriumProperties.

Section SolverProperties.
Context {CoilSet Profile Controller Config : Type}
        `{CoilSetAPI CoilSet} `{ProfileAPI Profile} `{EquilibriaLib}
        `{!Equilibrium.ControllerAPI (CoilSet := CoilSet) (Profile := Profile)
                                     (Controller := Controller)}
        `{ChargedParticleSolver.ParameterFrameAPI Config}.

Local Abbreviation eq_t :=
  (Equilibrium.t (CoilSet := CoilSet) (Profile := Profile) (Controller := Controller)).

(** The only exception of [get_OX_points] is that of a missing controller. *)
Lemma get_OX_points_raises (psi0 : option arraylike) (force_update : bool)
    (self s : eq_t) (e : exn) :
  Equilibrium.get_OX_points psi0 force_update self = (Raise e, s) ->
  e = AttributeError.
Proof.
  unfold Equilibrium.get_OX_points, bind, getattr, setattr, ret.
  destruct (_ || force_update).
  - destruct psi0 as [p |]; unfold Equilibrium.psi_or_default.
    + unfold ret. discriminate.
    + destruct (Equilibrium.controller self) as [c |] eqn:Ec.
      * rewrite (psi_grid self c Ec). discriminate.
      * rewrite (psi_grid_no_controller self Ec). intros E. injection E as <- _.
        reflexivity.
  - discriminate.
Qed.

(** [_check_params] by the two comparisons. *)
Lemma check_params_cases (p : ChargedParticleSolver.ParameterFrame) :
  let outer_inner :=
    py_ne (ChargedParticleSolver.f_outer_target p
           + ChargedParticleSolver.f_inner_target p)%float 1%float in
  let upper_lower :=
    py_ne (ChargedParticleSolver.f_upper_target p
           + ChargedParticleSolver.f_lower_target p)%float 1%float in
  if outer_inner || upper_lower
  then exists msg,
         ChargedParticleSolver._check_params p = Raise (AdvectionTransportError msg)
  else ChargedParticleSolver._check_params p = Return tt.
Proof.
  cbv zeta. unfold ChargedParticleSolver._check_params.
  destruct (py_ne _ _); cbn [orb].
  - eexists. reflexivity.
  - destruct (py_ne _ _).
    + eexists. reflexivity.
    + reflexivity.
Qed.

(** C8: [ChargedParticleSolver.__init__] raises [AdvectionTransportError]
    exactly when, for the parameters after the update from [config],
    [f_outer_target + f_inner_target != 1.0] or
    [f_upper_target + f_lower_target != 1.0]; it does so before it touches
    the equilibrium; and [_check_params] passes exactly when both sums
    equal 1.0. *)
Theorem fraction_sums_checked_at_construction :
  forall (config : Config) (kw_dx_mp : option float) (equilibrium : eq_t),
    let p :=
      ChargedParticleSolver.update_kw_parameters
        ChargedParticleSolver.default_params config in
    let outer_inner :=
      py_ne (ChargedParticleSolver.f_outer_target p
             + ChargedParticleSolver.f_inner_target p)%float 1%float in
    let upper_lower :=
      py_ne (ChargedParticleSolver.f_upper_target p
             + ChargedParticleSolver.f_lower_target p)%float 1%float in
    let r := ChargedParticleSolver.__init__ config kw_dx_mp equilibrium in
    ((exists msg, fst r = Raise (AdvectionTransportError msg))
     <-> outer_inner = true \/ upper_lower = true)
    /\ (outer_inner = true \/ upper_lower = true -> snd r = equilibrium)
    /\ (ChargedParticleSolver._check_params p = Return tt
        <-> outer_inner = false /\ upper_lower = false).
Proof.
  intros config kw_dx_mp equilibrium p outer_inner upper_lower r.
  pose proof (check_params_cases p) as Hcheck. cbv zeta in Hcheck.
  fold outer_inner upper_lower in Hcheck.
  subst r. unfold ChargedParticleSolver.__init__. fold p.
  unfold bind at 1. unfold lift_outcome at 1.
  destruct (outer_inner || upper_lower) eqn:Esum.
  - destruct Hcheck as [msg Hmsg]. rewrite Hmsg. cbn [fst snd].
    apply orb_true_iff in Esum.
    split; [split; [intros _; exact Esum | intros _; exists msg; reflexivity] |].
    split; [intros _; reflexivity |].
    split; [discriminate |].
    intros [Ho Hu]. destruct Esum as [E | E]; congruence.
  - rewrite Hcheck. apply orb_false_iff in Esum. destruct Esum as [Ho Hu].
    split; [split |].
    + intros [msg Hmsg]. exfalso.
      unfold bind in Hmsg.
      destruct (Equilibrium.get_OX_points None false equilibrium)
        as [[ox | e] s] eqn:Eox.
      * unfold lift_outcome in Hmsg.
        destruct (first (fst ox)) as [o | e] eqn:Ef; cbn in Hmsg.
        -- discriminate Hmsg.
        -- unfold first in Ef.
           destruct (fst ox) as [[| o l] |]; try discriminate Ef;
             injection Ef as <-; discriminate Hmsg.
      * cbn in Hmsg. rewrite (get_OX_points_raises _ _ _ _ _ Eox) in Hmsg.
        discriminate Hmsg.
    + intros [E | E]; congruence.
    + split; [intros [E | E]; congruence |].
      split; [intros _; split; assumption | intros _; reflexivity].
Qed.

End SolverProperties.

(** ** Runs in the toy world *)

(** C9 at work: the equilibrium with the virtual controller holds 1 from
    the plasma and 1 from the coil at node [(0, 0)], which lies at
    [(1, -1)]; [psi(1, -1)] is 2, and the whole-grid map has 2 plus the
    controller's 2.2 there. *)
Lemma psi_at_coordinates_omits_controller_witness :
  let self := Toy.virtual_equilibrium in
  let c := Toy.Virtual 0x1.199999999999ap+1 0 in
  let x0 := Some (Scalar 1%float) in
  let z0 := Some (Scalar (-1)%float) in
  Equilibrium.controller self = Some c
  /\ (x0, z0) <> (None, None)
  /\ Equilibrium.psi x0 z0 self = (Return (Scalar 2%float), self)
  /\ exists (full : arraylike) (self' : Toy.eq_t),
       Equilibrium.psi None None self = (Return full, self')
       /\ node_value full 0 0 = Some (2 + 0x1.199999999999ap+1)%float.
Proof.
  cbv zeta.
  split; [reflexivity |]. split; [discriminate |].
  destruct (psi_at_coordinates_omits_controller
              Toy.virtual_equilibrium (Toy.Virtual 0x1.199999999999ap+1 0)
              (Some (Scalar 1%float)) (Some (Scalar (-1)%float))
              0%nat 0%nat 2%float 0x1.199999999999ap+1%float
              eq_refl
              ltac:(discriminate) eq_refl eq_refl)
    as (Hpoint & full & self' & Hfull & _ & Hnode).
  split; [exact Hpoint |].
  exists full, self'. split; [exact Hfull | exact Hnode].
Defined.

(** C2 at work: on a flux that is nowhere positive the toy search finds no
    O-point and one X-point. *)
Lemma solve_without_O_point_witness :
  let self := Toy.equilibrium_no_O_point in
  let p := Array [[-4; -4]; [-2; -2]]%float in
  Equilibrium.psi_or_default None (Equilibrium.set_OX_points None None self)
  = (Return p, Equilibrium.set_OX_points None None self)
  /\ fst (find_OX_points (Equilibrium.x self) (Equilibrium.z self) p
                         (Equilibrium.limiter self)) = []
  /\ exists self' : Toy.eq_t,
       Equilibrium.solve None None self
       = (Raise (EquilibriaError "No O-point found in equilibrium."), self')
       /\ Equilibrium.plasma self' = Equilibrium.plasma self
       /\ Equilibrium._jtor self' = Equilibrium._jtor self
       /\ Equilibrium._o_points self' = Some []
       /\ Equilibrium._x_points self'
          = Some [{| Xpoint_x := 0; Xpoint_z := 0; Xpoint_psi := -4 |}].
Proof.
  cbv zeta.
  assert (Hflux :
    Equilibrium.psi_or_default None
      (Equilibrium.set_OX_points None None Toy.equilibrium_no_O_point)
    = (Return (Array [[-4; -4]; [-2; -2]]%float),
       Equilibrium.set_OX_points None None Toy.equilibrium_no_O_point))
    by reflexivity.
  assert (Hnone :
    fst (find_OX_points (Equilibrium.x Toy.equilibrium_no_O_point)
           (Equilibrium.z Toy.equilibrium_no_O_point)
           (Array [[-4; -4]; [-2; -2]]%float)
           (Equilibrium.limiter Toy.equilibrium_no_O_point)) = [])
    by reflexivity.
  split; [exact Hflux |]. split; [exact Hnone |].
  destruct (solve_without_O_point
              Toy.equilibrium_no_O_point
              (Equilibrium.set_OX_points None None Toy.equilibrium_no_O_point)
              None (Array [[-4; -4]; [-2; -2]]%float) Hflux Hnone)
    as (self' & Hsolve & Hplasma & Hjtor & Ho & Hx & _).
  exists self'. repeat split; assumption.
Defined.

(** C2 fails as stated: after the failed [solve()] the plasma is the old
    one, but the critical-point cache is not cleared: it holds the empty
    list of O-points and the X-point that the search returned. *)
Lemma failed_solve_keeps_search_result :
  let r := Equilibrium.solve None None Toy.equilibrium_no_O_point in
  fst r = Raise (EquilibriaError "No O-point found in equilibrium.")
  /\ Equilibrium.plasma (snd r) = Equilibrium.plasma Toy.equilibrium_no_O_point
  /\ ~ (Equilibrium._o_points (snd r) = None
        /\ Equilibrium._x_points (snd r) = None).
Proof.
  cbv zeta. split; [reflexivity |]. split; [reflexivity |].
  intros [Ho _]. vm_compute in Ho. discriminate Ho.
Qed.

(** C3 at work: a successful [solve()] from the flux [[2, 2], [4, 4]]. *)
Lemma solve_success_state_witness :
  let self := Toy.equilibrium in
  let self' := snd (Equilibrium.solve None None self) in
  Equilibrium.solve None None self = (Return tt, self')
  /\ exists jtor1 : arraylike,
       Equilibrium.plasma self'
       = {| plasma_psi := Array [[2; 2]; [4; 4]]%float;
            j_tor := Some jtor1;
            plasma_grid := Toy.grid |}
       /\ Equilibrium._jtor self' = Some jtor1
       /\ Equilibrium._o_points self'
          = Some [{| Opoint_x := 0; Opoint_z := 0; Opoint_psi := 2 |}]
       /\ Equilibrium._x_points self' = Some [].
Proof.
  cbv zeta.
  assert (Hsolve :
    Equilibrium.solve None None Toy.equilibrium
    = (Return tt, snd (Equilibrium.solve None None Toy.equilibrium)))
    by reflexivity.
  split; [exact Hsolve |].
  destruct (solve_success_state
              Toy.equilibrium (snd (Equilibrium.solve None None Toy.equilibrium))
              None None Hsolve)
    as (jtor1 & Hplasma & Hjtor & _).
  exists jtor1. split; [| split; [exact Hjtor | split; reflexivity]].
  assert (E : Some jtor1 = Some (Array [[2; 2]; [4; 4]]%float))
    by (rewrite <- Hjtor; reflexivity).
  injection E as ->. reflexivity.
Defined.

(** C3 fails as stated: after the successful [solve()] the flux map is
    [[3, 3], [7, 7]], whose O-point has flux 3, while the cache holds the
    O-point of the starting flux, with flux 2. *)
Lemma solve_caches_points_of_starting_flux :
  let r := Equilibrium.solve None None Toy.equilibrium in
  fst r = Return tt
  /\ ~ Equilibrium.cache_of_current_flux (snd r).
Proof.
  cbv zeta. split; [reflexivity |].
  intros (p & s & Hpsi & Ho & _).
  assert (Hp : p = Array [[3; 3]; [7; 7]]%float).
  { assert (E : Return p
                = Return (A := arraylike) (Array [[3; 3]; [7; 7]]%float))
      by (change (Return p) with (fst (Return p, s)); rewrite <- Hpsi; reflexivity).
    injection E as ->. reflexivity. }
  subst p.
  apply (f_equal (fun o => match o with
                           | Some (pt :: _) => Opoint_psi pt
                           | _ => 0%float
                           end)) in Ho.
  vm_compute in Ho. float_discriminate Ho.
Qed.

(** C7 fails as stated: ["feedback"] is neither [None] nor ["virtual"],
    and construction fails with [NotImplementedError], which is not the
    configuration error [ValueError]. *)
Lemma feedback_is_not_a_configuration_error :
  let built :=
    Equilibrium.__init__ Toy.coilset Toy.grid Toy.profile false
      (Some "feedback"%string) None (Some Toy.psi_positive) None None in
  built = Raise NotImplementedError
  /\ ~ exists msg : string, built = Raise (ValueError msg).
Proof.
  cbv zeta. split; [reflexivity |]. intros [msg E]. discriminate E.
Qed.

(** C5 fails as stated: written with the header [run], the toy
    equilibrium comes back from [from_eqdsk] with its coil half-sizes
    halved, 0.5 for 1. *)
Lemma custom_header_halves_coil_sizes :
  let saved :=
    Equilibrium.to_eqdsk "eq" "run" None "json" 0 (Toy.equilibrium, Toy.no_files) in
  fst saved = Return tt
  /\ Equilibrium.filename (fst (snd saved)) = Some "data/eq.json"%string
  /\ exists reloaded : Toy.eq_t,
       Equilibrium.from_eqdsk (snd (snd saved)) "data/eq.json" false None
       = Return reloaded
       /\ to_group_vecs (Equilibrium.coilset reloaded)
          = ([4], [0], [0.5], [0.5], [1])%float
       /\ to_group_vecs (Equilibrium.coilset (fst (snd saved)))
          = ([4], [0], [1], [1], [1])%float
       /\ to_group_vecs (Equilibrium.coilset reloaded)
          <> to_group_vecs (Equilibrium.coilset (fst (snd saved))).
Proof.
  cbv zeta. split; [reflexivity |]. split; [reflexivity |].
  eexists. split; [vm_compute; reflexivity |].
  split; [reflexivity |]. split; [reflexivity |].
  intros E.
  apply (f_equal (fun v => hd 0%float (snd (fst (fst v))))) in E.
  vm_compute in E. float_discriminate E.
Qed.

(** C4 at work: the toy equilibrium with the virtual controller, and the
    same with a plasma of flux 9 everywhere, no stored current density and
    a stale cache.  Solved from the flux of 2 and 4, both end with the
    same plasma and the same flux map, and a second [solve] changes
    nothing. *)
Lemma solve_twice_same_flux_map_witness :
  let s1 := Toy.virtual_equilibrium in
  let s2 :=
    Equilibrium.set_plasmacoil None
      (Equilibrium.set_jtor None
         (Equilibrium.set_plasma
            {| plasma_psi := Array [[9; 9]; [9; 9]]%float; j_tor := None;
               plasma_grid := Toy.grid |}
            (Equilibrium.set_OX_points (Some []) None s1))) in
  let p := Toy.psi_positive in
  let r1 := Equilibrium.solve None (Some p) s1 in
  let r2 := Equilibrium.solve None (Some p) s2 in
  Equilibrium.boundary_values_from_current_density
  /\ Equilibrium.differ_in_solve_results s1 s2
  /\ Equilibrium.plasma s1 <> Equilibrium.plasma s2
  /\ fst r1 = Return tt
  /\ fst r2 = Return tt
  /\ snd r1 = snd r2
  /\ Equilibrium.psi None None (snd r1) = Equilibrium.psi None None (snd r2)
  /\ Equilibrium.solve None (Some p) (snd r1) = (Return tt, snd r1).
Proof.
  cbv zeta.
  assert (Hedge : Equilibrium.boundary_values_from_current_density)
    by (intros fb rhs q1 q2 jtor1; reflexivity).
  assert (Hdiffer :
    Equilibrium.differ_in_solve_results Toy.virtual_equilibrium
      (Equilibrium.set_plasmacoil None
         (Equilibrium.set_jtor None
            (Equilibrium.set_plasma
               {| plasma_psi := Array [[9; 9]; [9; 9]]%float; j_tor := None;
                  plasma_grid := Toy.grid |}
               (Equilibrium.set_OX_points (Some []) None
                  Toy.virtual_equilibrium)))))
    by (do 5 eexists; reflexivity).
  assert (Hok :
    Equilibrium.solve None (Some Toy.psi_positive) Toy.virtual_equilibrium
    = (Return tt,
       snd (Equilibrium.solve None (Some Toy.psi_positive)
              Toy.virtual_equilibrium)))
    by (vm_compute; reflexivity).
  destruct (solve_twice_same_flux_map
              (CoilSet := Toy.CoilSet) (Profile := Toy.Profile)
              (Controller := Toy.Controller) Hedge)
    as (Hfirst & Hsecond).
  destruct (Hfirst Toy.virtual_equilibrium _ None Toy.psi_positive Hdiffer)
    as (Hout & Hsame).
  assert (Hret :
    fst (Equilibrium.solve None (Some Toy.psi_positive) Toy.virtual_equilibrium)
    = Return tt) by (rewrite Hok; reflexivity).
  destruct (Hsame Hret) as (Hstate & Hflux).
  split; [exact Hedge |]. split; [exact Hdiffer |].
  split.
  { intros H. apply (f_equal plasma_psi) in H.
    apply (f_equal
             (fun a => match a with
                       | Array ((u :: _) :: _) => u
                       | _ => 0%float
                       end)) in H.
    vm_compute in H. float_discriminate H. }
  split; [exact Hret |]. split; [rewrite <- Hout; exact Hret |].
  split; [exact Hstate |]. split; [exact Hflux |].
  exact (Hsecond Toy.virtual_equilibrium _ None Toy.psi_positive Hok).
Defined.

(** C6 at work: with a target of 5 and a tolerance of a tenth, the first
    evaluation computes 3 and the second 5; [solve_li] returns normally
    after one counted iteration. *)
Lemma solve_li_early_exit_returns_normally_witness :
  let self := Toy.li_equilibrium in
  Equilibrium._li_flag self = true
  /\ Equilibrium._li self = Some 5%float
  /\ Equilibrium.controller self = Some Toy.Dummy
  /\ exists self' : Toy.eq_t,
       Equilibrium.solve_li None None self = (Return tt, self')
       /\ Equilibrium.within_tolerance (Equilibrium.li_check_of self') = true
       /\ Equilibrium._li_iter self' = 1%Z.
Proof.
  cbv zeta.
  assert (Hflag : Equilibrium._li_flag Toy.li_equilibrium = true) by reflexivity.
  assert (Hli : Equilibrium._li Toy.li_equilibrium = Some 5%float) by reflexivity.
  assert (Hc : Equilibrium.controller Toy.li_equilibrium = Some Toy.Dummy)
    by reflexivity.
  split; [exact Hflag |]. split; [exact Hli |]. split; [exact Hc |].
  destruct (solve_li_early_exit_returns_normally
              Toy.li_equilibrium None None 5%float Toy.Dummy Hflag Hli Hc)
    as (psi1 & s1 & Hpsi & Hearly & _).
  assert (Hpsi1 : psi1 = Toy.psi_positive).
  { assert (E : Return psi1 = Return (A := arraylike) Toy.psi_positive)
      by (change (Return psi1) with (fst (Return psi1, s1)); rewrite <- Hpsi;
          reflexivity).
    injection E as ->. reflexivity. }
  assert (Hs1 :
    s1 = Equilibrium.set_li_iter 0
           (Equilibrium.set_OX_points None None Toy.li_equilibrium)).
  { change s1 with (snd (Return psi1, s1)). rewrite <- Hpsi. reflexivity. }
  subst psi1 s1.
  destruct (Hearly eq_refl) as (self' & Hsolve & Hwithin & Hiter).
  exists self'. split; [exact Hsolve |]. split; [exact Hwithin |]. exact Hiter.
Defined.

(** C5 at work: written with the default header, the toy equilibrium's
    coil vectors come back as they were. *)
Lemma eqdsk_round_trip_witness :
  let saved :=
    Equilibrium.to_eqdsk "eq" "BP_equilibria" None "json" 0
      (Toy.equilibrium, Toy.no_files) in
  saved = (Return tt, snd saved)
  /\ exists (path : string) (e : EQDSKInterface) (psi1 : arraylike)
            (coilset1 : Toy.CoilSet) (grid1 : Grid) (limiter1 : option Limiter),
       Equilibrium.filename (fst (snd saved)) = Some path
       /\ Equilibrium.CoilSetMHDState_get_eqdsk (snd (snd saved)) path false None
          = Return (e, psi1, coilset1, grid1, limiter1)
       /\ (xc e, zc e, dxc e, dzc e, Ic e)
          = to_group_vecs (Equilibrium.coilset (fst (snd saved)))
       /\ coilset1 = from_group_vecs e.
Proof.
  cbv zeta.
  assert (Hsaved :
    Equilibrium.to_eqdsk "eq" "BP_equilibria" None "json" 0
      (Toy.equilibrium, Toy.no_files)
    = (Return tt,
       (fst (snd (Equilibrium.to_eqdsk "eq" "BP_equilibria" None "json" 0
                    (Toy.equilibrium, Toy.no_files))),
        snd (snd (Equilibrium.to_eqdsk "eq" "BP_equilibria" None "json" 0
                    (Toy.equilibrium, Toy.no_files))))))
    by (vm_compute; reflexivity).
  split; [vm_compute; reflexivity |].
  destruct (eqdsk_round_trip Toy.equilibrium _ Toy.no_files _ "eq" "BP_equilibria"
              None "json" 0%Z false None Hsaved)
    as (path & e & psi1 & coilset1 & grid1 & limiter1 & Hfile & Hread & _ & _ & _
        & _ & _ & _ & _ & _ & Hcoils & Hbuilt & Hkept).
  exists path, e, psi1, coilset1, grid1, limiter1.
  split; [exact Hfile |]. split; [exact Hread |].
  split; [| apply Hbuilt; reflexivity].
  rewrite (Hkept eq_refl) in Hcoils.
  destruct (to_group_vecs _) as [[[[x_c z_c] dx_c] dz_c] currents].
  destruct Hcoils as (-> & -> & -> & -> & ->). reflexivity.
Defined.

(** ** What the methods of the equilibrium leave alone *)

Section Keeps.
Context {S : Type} (R : S -> S -> Prop).
Hypothesis R_refl : forall s, R s s.
Hypothesis R_trans : forall s1 s2 s3, R s1 s2 -> R s2 s3 -> R s1 s3.

Lemma keeps_ret {A : Type} (a : A) : keeps R (ret a).
Proof. intros s. apply R_refl. Qed.

Lemma keeps_raise {A : Type} (e : exn) : keeps R (raise (A := A) e).
Proof. intros s. apply R_refl. Qed.

Lemma keeps_getattr {A : Type} (f : S -> A) : keeps R (getattr f).
Proof. intros s. apply R_refl. Qed.

Lemma keeps_lift_outcome {A : Type} (o : outcome A) : keeps R (lift_outcome o).
Proof. intros s. apply R_refl. Qed.

Lemma keeps_bind {A B : Type} (m : M S A) (k : A -> M S B) :
  keeps R m -> (forall a, keeps R (k a)) -> keeps R (bind m k).
Proof.
  intros Hm Hk s. unfold bind. specialize (Hm s).
  destruct (m s) as [[a | e] s1]; cbn [snd] in *.
  - apply (R_trans _ s1); [exact Hm | apply Hk].
  - exact Hm.
Qed.

Lemma keeps_try_except {A : Type} (body handler : M S A) (catches : exn -> bool) :
  keeps R body -> keeps R handler -> keeps R (try_except body catches handler).
Proof.
  intros Hb Hh s. unfold try_except. specialize (Hb s).
  destruct (body s) as [[a | e] s1]; cbn [snd] in *.
  - exact Hb.
  - destruct (catches e); [| exact Hb].
    apply (R_trans _ s1); [exact Hb | apply Hh].
Qed.

End Keeps.

(** ** Strings *)

Lemma length_append (a b : string) :
  String.length (a ++ b) = (String.length a + String.length b)%nat.
Proof. induction a as [| c a IH]; cbn; [reflexivity | rewrite IH; reflexivity]. Qed.

(** A string is its own substring from 0, and a substring past a prefix
    is a substring of the rest. *)
Lemma substring_whole (b : string) : String.substring 0 (String.length b) b = b.
Proof. induction b as [| c b IH]; cbn; [reflexivity | rewrite IH; reflexivity]. Qed.

Lemma substring_append (a b : string) (k : nat) :
  String.substring (String.length a) k (a ++ b) = String.substring 0 k b.
Proof.
  induction a as [| c a IH]; cbn [String.length append String.substring]; auto.
Qed.

(** [(a + b).endswith(b)]. *)
Lemma endswith_append (a b : string) : endswith (a ++ b) b = true.
Proof.
  unfold endswith. rewrite length_append.
  replace (String.length a + String.length b - String.length b)%nat
    with (String.length a) by lia.
  rewrite substring_append, substring_whole, String.eqb_refl.
  rewrite andb_true_r. apply Nat.leb_le. lia.
Qed.

Section EquilibriumMethods.
Context {CoilSet Profile Controller : Type}
        `{CoilSetAPI CoilSet} `{ProfileAPI Profile} `{EquilibriaLib}
        `{!Equilibrium.ControllerAPI (CoilSet := CoilSet) (Profile := Profile)
                                     (Controller := Controller)}.

Local Abbreviation eq_t :=
  (Equilibrium.t (CoilSet := CoilSet) (Profile := Profile) (Controller := Controller)).

(** The relation is reflexive and transitive. *)
Lemma same_configuration_refl (s : eq_t) : Equilibrium.same_configuration s s.
Proof. unfold Equilibrium.same_configuration. repeat split; auto. Qed.

Lemma same_configuration_trans (s1 s2 s3 : eq_t) :
  Equilibrium.same_configuration s1 s2 ->
  Equilibrium.same_configuration s2 s3 ->
  Equilibrium.same_configuration s1 s3.
Proof.
  unfold Equilibrium.same_configuration. intros H12 H23.
  repeat match goal with H : _ /\ _ |- _ => destruct H as [? H] end.
  repeat split; try congruence; tauto.
Qed.

Create HintDb keeps.

Ltac keeps_intro :=
  first [ solve [auto with keeps nocore]
        | apply keeps_ret | apply keeps_raise | apply keeps_getattr
        | apply keeps_lift_outcome
        | apply keeps_bind;
            [exact same_configuration_trans | | intros ?]
        | apply keeps_try_except; [exact same_configuration_trans | | ]
        | exact same_configuration_refl
        | match goal with
          | |- keeps _ (match ?v with _ => _ end) => destruct v
          end ];
  try exact same_configuration_refl.

Ltac keeps_solve := repeat keeps_intro; auto with keeps.

(** Each method below keeps the configuration.  [stabilise] replaces a
    controller that is set, and raises without one. *)
Lemma controller_stabilise_keeps :
  keeps (S := eq_t) Equilibrium.same_configuration Equilibrium.controller_stabilise.
Proof.
  intros s.
  unfold Equilibrium.controller_stabilise, bind, Equilibrium.the_controller, setattr.
  destruct (Equilibrium.controller s) as [c |] eqn:Ec; cbn [snd].
  - unfold Equilibrium.same_configuration. cbn. rewrite Ec.
    repeat split; auto; discriminate.
  - apply same_configuration_refl.
Qed.

Lemma the_controller_keeps :
  keeps (S := eq_t) Equilibrium.same_configuration Equilibrium.the_controller.
Proof.
  intros s. unfold Equilibrium.the_controller.
  destruct (Equilibrium.controller s); apply same_configuration_refl.
Qed.

#[local] Hint Resolve controller_stabilise_keeps the_controller_keeps : keeps.

Lemma psi_keeps (x0 z0 : option arraylike) :
  keeps (S := eq_t) Equilibrium.same_configuration (Equilibrium.psi x0 z0).
Proof.
  unfold Equilibrium.psi. destruct x0, z0; keeps_solve.
Qed.

#[local] Hint Resolve psi_keeps : keeps.

Lemma psi_or_default_keeps (psi0 : option arraylike) :
  keeps (S := eq_t) Equilibrium.same_configuration (Equilibrium.psi_or_default psi0).
Proof. destruct psi0; cbn [Equilibrium.psi_or_default]; keeps_solve. Qed.

#[local] Hint Resolve psi_or_default_keeps : keeps.

Lemma get_OX_points_keeps (psi0 : option arraylike) (force_update : bool) :
  keeps (S := eq_t) Equilibrium.same_configuration
    (Equilibrium.get_OX_points psi0 force_update).
Proof. unfold Equilibrium.get_OX_points. keeps_solve. Qed.

Lemma grad_shafranov_step_keeps (jtor1 : arraylike) :
  keeps (S := eq_t) Equilibrium.same_configuration
    (Equilibrium.grad_shafranov_step jtor1).
Proof.
  unfold Equilibrium.grad_shafranov_step, Equilibrium._update_plasma. keeps_solve.
Qed.

#[local] Hint Resolve get_OX_points_keeps grad_shafranov_step_keeps : keeps.

Lemma solve_keeps (jtor0 psi0 : option arraylike) :
  keeps (S := eq_t) Equilibrium.same_configuration (Equilibrium.solve jtor0 psi0).
Proof. unfold Equilibrium.solve, Equilibrium._clear_OX_points. keeps_solve. Qed.

Lemma minimise_dli_keeps (psi1 : arraylike) (o_points : option (list Opoint))
    (x_points : option (list Xpoint)) (mask : arraylike) (x0 : list float) :
  keeps (S := eq_t) Equilibrium.same_configuration
    (Equilibrium.minimise_dli psi1 o_points x_points mask x0).
Proof.
  unfold Equilibrium.minimise_dli, Equilibrium.Bp, Equilibrium.Bx, Equilibrium.Bz.
  keeps_solve.
  intros s. destruct (Equilibrium._li s); apply same_configuration_refl.
Qed.

(** A run of the optimiser keeps what every evaluation keeps. *)
Lemma run_minimize_keeps (o : optimiser) (objective : list float -> M eq_t float) :
  (forall x0, keeps (S := eq_t) Equilibrium.same_configuration (objective x0)) ->
  keeps (S := eq_t) Equilibrium.same_configuration
    (Equilibrium.run_minimize o objective).
Proof.
  intros Hobj. induction o as [res | x0 k IH]; cbn [Equilibrium.run_minimize].
  - keeps_intro.
  - keeps_intro; [apply Hobj | apply IH].
Qed.

Lemma solve_li_keeps (jtor0 psi0 : option arraylike) :
  keeps (S := eq_t) Equilibrium.same_configuration (Equilibrium.solve_li jtor0 psi0).
Proof.
  unfold Equilibrium.solve_li, Equilibrium._clear_OX_points. keeps_solve.
  apply run_minimize_keeps. intros x0. apply minimise_dli_keeps.
Qed.

(** X2: however [solve] and [solve_li] end, by returning or by raising
    at any point of the optimiser's run, they leave the configuration of
    the equilibrium as it was: grid and coordinates, limiter, coils and
    Green's functions, solver, boundary operator, inductance target, file
    name, constructor keyword, and whether a controller is set. *)
Theorem solvers_keep_the_configuration :
  forall (jtor0 psi0 : option arraylike) (self : eq_t),
    Equilibrium.same_configuration self (snd (Equilibrium.solve jtor0 psi0 self))
    /\ Equilibrium.same_configuration self (snd (Equilibrium.solve_li jtor0 psi0 self)).
Proof.
  intros jtor0 psi0 self. split; [apply solve_keeps | apply solve_li_keeps].
Qed.
(** A populated cache answers [get_OX_points] as it is. *)
Lemma get_OX_points_cached (psi0 : option arraylike) (self : eq_t) :
  (Equilibrium._o_points self <> None \/ Equilibrium._x_points self <> None) ->
  Equilibrium.get_OX_points psi0 false self
  = (Return (Equilibrium._o_points self, Equilibrium._x_points self), self).
Proof.
  intros Hc. unfold Equilibrium.get_OX_points, bind, getattr, ret.
  destruct (Equilibrium._o_points self) as [o |] eqn:Eo,
           (Equilibrium._x_points self) as [xp |] eqn:Ex;
    cbn; rewrite ?Eo, ?Ex; try reflexivity.
  destruct Hc as [Hc | Hc]; contradiction Hc; reflexivity.
Qed.

(** On an empty cache the flux given is searched and the cache filled. *)
Lemma get_OX_points_first_search (p : arraylike) (self : eq_t) :
  Equilibrium._o_points self = None -> Equilibrium._x_points self = None ->
  Equilibrium.get_OX_points (Some p) false self
  = (let found :=
       find_OX_points (Equilibrium.x self) (Equilibrium.z self) p
                      (Equilibrium.limiter self) in
     (Return (Some (fst found), Some (snd found)),
      Equilibrium.set_OX_points (Some (fst found)) (Some (snd found)) self)).
Proof.
  intros Eo Ex. unfold Equilibrium.get_OX_points, bind, getattr.
  rewrite Eo, Ex. reflexivity.
Qed.

(** A lookup with the flux given always returns, and leaves a cache that
    the next lookup will use. *)
Lemma get_OX_points_given (p : arraylike) (self : eq_t) :
  exists (ox : option (list Opoint) * option (list Xpoint)) (s : eq_t),
    Equilibrium.get_OX_points (Some p) false self = (Return ox, s)
    /\ ox = (Equilibrium._o_points s, Equilibrium._x_points s)
    /\ (Equilibrium._o_points s <> None \/ Equilibrium._x_points s <> None)
    /\ Equilibrium.limiter s = Equilibrium.limiter self
    /\ Equilibrium.controller s = Equilibrium.controller self
    /\ (Equilibrium._o_points self <> None \/ Equilibrium._x_points self <> None ->
        s = self).
Proof.
  destruct (Equilibrium._o_points self) as [o |] eqn:Eo.
  - exists (Equilibrium._o_points self, Equilibrium._x_points self), self.
    rewrite get_OX_points_cached by (left; rewrite Eo; discriminate).
    rewrite Eo. repeat split; auto. left. discriminate.
  - destruct (Equilibrium._x_points self) as [xp |] eqn:Ex.
    + exists (Equilibrium._o_points self, Equilibrium._x_points self), self.
      rewrite get_OX_points_cached by (right; rewrite Ex; discriminate).
      rewrite Ex. repeat split; auto. right. discriminate.
    + rewrite (get_OX_points_first_search p self Eo Ex). cbv zeta.
      eexists. eexists. split; [reflexivity |]. cbn.
      repeat split; auto; try (left; discriminate).
      intros [Hc | Hc]; contradiction Hc; reflexivity.
Qed.

(** What [to_dict] returns in the modes that do not compute the safety
    factor, read off the equilibrium as [to_dict] leaves it. *)
Lemma to_dict_contents (q : Z) (self s : eq_t) (data : EQDSKInterface) :
  q <> 1%Z ->
  Equilibrium.to_dict q self = (Return data, s) ->
  exists (s2 : eq_t),
    Equilibrium.psi None None self = (Return (e_psi data), s2)
    /\ Equilibrium.get_OX_points (Some (e_psi data)) false s2
       = (Return (Equilibrium._o_points s, Equilibrium._x_points s), s)
    /\ (exists (o : Opoint) (os : list Opoint),
          Equilibrium._o_points s = Some (o :: os)
          /\ xmag data = Opoint_x o /\ zmag data = Opoint_z o
          /\ psimag data = Opoint_psi o)
    /\ match Equilibrium._x_points s with
       | Some (xp :: _) => psibdry data = Xpoint_psi xp
       | _ => np_amin (e_psi data) = Return (psibdry data)
       end
    /\ qpsi data
       = (if (q =? 0)%Z then None
          else Some (repeat 0%float (Z.to_nat (e_nx data))))
    /\ nlim data
       = match Equilibrium.limiter s with
         | None => 0%Z
         | Some l => Z.of_nat (List.length (limiter_x l))
         end
    /\ xlim data
       = match Equilibrium.limiter s with None => [] | Some l => limiter_x l end
    /\ zlim data
       = match Equilibrium.limiter s with None => [] | Some l => limiter_z l end.
Proof.
  unfold Equilibrium.to_dict. intros Hq E.
  apply bind_inv in E; destruct E as (mode & s1 & Emode & E).
  unfold lift_outcome in Emode.
  assert (Hs1 : s1 = self) by (apply (f_equal snd) in Emode; symmetry; exact Emode).
  apply (f_equal fst) in Emode. cbn [fst] in Emode. subst s1.
  apply bind_inv in E; destruct E as (psi1 & s2 & Epsi & E).
  apply bind_inv in E; destruct E as (n_xz & s3 & Eshape & E).
  unfold lift_outcome in Eshape.
  assert (Hs3 : s3 = s2) by (apply (f_equal snd) in Eshape; symmetry; exact Eshape).
  subst s3. clear Eshape.
  apply bind_inv in E; destruct E as (ox & s4 & Eox & E).
  destruct (get_OX_points_given psi1 s2) as (ox' & s4' & Eox' & Hox & Hcache & _).
  rewrite Eox in Eox'.
  assert (s4' = s4) by (apply (f_equal snd) in Eox'; symmetry; exact Eox').
  assert (Hox' : ox' = ox).
  { apply (f_equal fst) in Eox'. cbn [fst] in Eox'. congruence. }
  subst s4'. rewrite Hox' in Hox. clear Eox' Hox' ox'.
  apply bind_inv in E; destruct E as (opoint & s5 & Efirst & E).
  unfold lift_outcome in Efirst.
  assert (s5 = s4) by (apply (f_equal snd) in Efirst; symmetry; exact Efirst).
  subst s5. apply (f_equal fst) in Efirst. cbn [fst] in Efirst.
  apply bind_inv in E; destruct E as (psi_bndry & s6 & Ebndry & E).
  assert (Hb : s6 = s4
               /\ match snd ox with
                  | Some (xp :: _) => psi_bndry = Xpoint_psi xp
                  | _ => np_amin psi1 = Return psi_bndry
                  end).
  { destruct (snd ox) as [[| xp xps] |]; cbn in Ebndry;
      unfold ret, lift_outcome in Ebndry;
      (split; [apply (f_equal snd) in Ebndry; symmetry; exact Ebndry |]);
      apply (f_equal fst) in Ebndry; cbn [fst] in Ebndry; congruence. }
  destruct Hb as [-> Hb]. clear Ebndry.
  apply bind_inv in E; destruct E as (qv & s7 & Eq & E).
  assert (Hqv : s7 = s4
                /\ qv = (if (q =? 0)%Z then None
                         else Some (repeat 0%float (Z.to_nat (fst n_xz))))).
  { unfold QpsiCalcMode_of_int in Emode.
    destruct (q =? 0)%Z eqn:E0; [| destruct (q =? 1)%Z eqn:E1;
                                   [| destruct (q =? 2)%Z eqn:E2]].
    - assert (mode = NO_CALC) by congruence. subst mode.
      unfold ret in Eq. split; congruence.
    - apply Z.eqb_eq in E1. contradiction.
    - assert (mode = ZEROS) by congruence. subst mode.
      unfold ret in Eq. split; congruence.
    - discriminate Emode. }
  destruct Hqv as [-> ->]. clear Eq.
  apply bind_inv in E; destruct E as (lcfs & s8 & Elcfs & E).
  assert (s8 = s4).
  { unfold Equilibrium.get_LCFS, Equilibrium.psi_or_default, bind, ret in Elcfs.
    rewrite (get_OX_points_cached (Some psi1) s4 Hcache) in Elcfs.
    unfold getattr in Elcfs. apply (f_equal snd) in Elcfs. symmetry. exact Elcfs. }
  subst s8. clear Elcfs.
  unfold getattr in E.
  assert (Es : s = s4) by (apply (f_equal snd) in E; symmetry; exact E).
  subst s4. apply (f_equal fst) in E. cbn [fst] in E.
  apply (f_equal (fun o => match o with Return d => d | Raise _ => data end)) in E.
  symmetry in E. rename E into Ed.
  match type of Ed with
  | context [to_group_vecs ?cs] =>
      destruct (to_group_vecs cs) as [[[[x_c z_c] dxc0] dzc0] cur]
  end.
  subst data. cbn. exists s2. rewrite Hox in *. cbn [fst snd] in *.
  split; [exact Epsi |]. split; [exact Eox |].
  split.
  - destruct (Equilibrium._o_points s) as [[| o os] |]; try discriminate Efirst.
    exists o, os. cbn in Efirst. assert (opoint = o) by congruence. subst.
    repeat split; reflexivity.
  - split; [exact Hb |]. repeat split; reflexivity.
Qed.

(** [psi()] touches the controller only, and fails only for want of one. *)
Lemma psi_grid_cases (self : eq_t) :
  (exists (p : arraylike) (c : Controller),
     Equilibrium.psi None None self
     = (Return p,
        match Equilibrium._jtor self with
        | Some _ => Equilibrium.set_controller (Some c) self
        | None => self
        end))
  \/ Equilibrium.psi None None self = (Raise AttributeError, self).
Proof.
  destruct (Equilibrium.controller self) as [c |] eqn:Ec.
  - left. rewrite (psi_grid self c Ec). eexists. eexists. reflexivity.
  - right. apply psi_grid_no_controller. exact Ec.
Qed.

(** [psi()] leaves the cache alone. *)
Lemma psi_grid_cache (self s : eq_t) (r : outcome arraylike) :
  Equilibrium.psi None None self = (r, s) ->
  Equilibrium._o_points s = Equilibrium._o_points self
  /\ Equilibrium._x_points s = Equilibrium._x_points self.
Proof.
  destruct (psi_grid_cases self) as [(p & c & E) | E]; rewrite E; intros E1;
    apply (f_equal snd) in E1; cbn [snd] in E1; subst s.
  - destruct (Equilibrium._jtor self); split; reflexivity.
  - split; reflexivity.
Qed.

(** The starting flux fails only for want of a controller. *)
Lemma psi_or_default_raises (psi0 : option arraylike) (self s : eq_t) (e : exn) :
  Equilibrium.psi_or_default psi0 self = (Raise e, s) -> e = AttributeError.
Proof.
  destruct psi0 as [p |]; cbn [Equilibrium.psi_or_default].
  - discriminate.
  - destruct (psi_grid_cases self) as [(p & c & E) | E]; rewrite E.
    + discriminate.
    + intros E1. apply (f_equal fst) in E1. cbn [fst] in E1. congruence.
Qed.

(** The cache that a [solve] failing for want of an O-point leaves. *)
Lemma failed_solve_cache (psi0 : option arraylike) (self s1 : eq_t) :
  Equilibrium.solve None psi0 self
  = (Raise (EquilibriaError "No O-point found in equilibrium."), s1) ->
  Equilibrium._o_points s1 = Some [].
Proof.
  intros E.
  destruct (Equilibrium.psi_or_default psi0 (Equilibrium.set_OX_points None None self))
    as [[p | e] s0] eqn:Epsi.
  - rewrite (solve_from_flux psi0 self s0 p Epsi) in E. cbv zeta in E.
    destruct (fst (find_OX_points _ _ p _)) eqn:Ef.
    + apply (f_equal snd) in E. cbn [snd] in E. subst s1. reflexivity.
    + discriminate E.
  - rewrite (solve_flux_fails psi0 self s0 e Epsi) in E.
    apply psi_or_default_raises in Epsi. subst e. discriminate E.
Qed.

(** X3: after a [solve()] that failed for want of an O-point,
    [to_dict] cannot return: the cache still holds the empty list of
    O-points, which [to_dict] reads without a new search, so that, for a
    valid mode and a flux map of two dimensions, it raises [IndexError],
    with the equilibrium as [psi()] left it. *)
Theorem to_dict_after_failed_solve :
  forall (psi0 : option arraylike) (self s1 : eq_t),
    Equilibrium.solve None psi0 self
    = (Raise (EquilibriaError "No O-point found in equilibrium."), s1) ->
    forall (q : Z),
      exists (e : exn) (s : eq_t),
        Equilibrium.to_dict q s1 = (Raise e, s)
        /\ forall (p : arraylike) (s2 : eq_t),
             (0 <= q <= 2)%Z ->
             Equilibrium.psi None None s1 = (Return p, s2) ->
             shape p <> None ->
             e = IndexError /\ s = s2.
Proof.
  intros psi0 self s1 Hsolve q.
  pose proof (failed_solve_cache psi0 self s1 Hsolve) as Hcache.
  unfold Equilibrium.to_dict.
  destruct (QpsiCalcMode_of_int q) as [mode | e] eqn:Emode.
  - unfold bind at 1. unfold lift_outcome at 1.
    destruct (Equilibrium.psi None None s1) as [[p | e] s2] eqn:Epsi.
    + destruct (psi_grid_cache s1 s2 _ Epsi) as [Ho _]. rewrite Hcache in Ho.
      unfold bind at 1. rewrite Epsi.
      destruct (shape p) as [n |] eqn:Eshape.
      * unfold bind at 1. unfold lift_outcome at 1.
        unfold bind at 1.
        rewrite (get_OX_points_cached (Some p) s2)
          by (left; rewrite Ho; discriminate).
        unfold bind at 1. rewrite Ho. cbn [fst first]. unfold lift_outcome at 1.
        exists IndexError, s2. split; [reflexivity |].
        intros p' s2' _ E _. split; [reflexivity | congruence].
      * unfold bind at 1. unfold lift_outcome at 1. eexists. eexists.
        split; [reflexivity |]. intros p' s2' _ E Hs.
        assert (p' = p) by congruence. subst p'. contradiction.
    + unfold bind at 1. rewrite Epsi. eexists. eexists.
      split; [reflexivity |]. intros p' s2' _ E. discriminate E.
  - unfold bind at 1. unfold lift_outcome at 1. eexists. eexists.
    split; [reflexivity |]. intros p s2 Hq. exfalso.
    unfold QpsiCalcMode_of_int in Emode.
    destruct (Z.eqb_spec q 0); [discriminate |].
    destruct (Z.eqb_spec q 1); [discriminate |].
    destruct (Z.eqb_spec q 2); [discriminate |]. lia.
Qed.

(** What a constructor that returns has built. *)
Lemma init_inv (coilset0 : CoilSet) (grid0 : Grid) (profiles0 : Profile)
    (force_symmetry0 : bool) (vcontrol : option string) (limiter0 : option Limiter)
    (psi0 jtor0 : option arraylike) (filename0 : option string) (self : eq_t) :
  Equilibrium.__init__ coilset0 grid0 profiles0 force_symmetry0 vcontrol limiter0
    psi0 jtor0 filename0 = Return self ->
  let self0 :=
    Equilibrium.before_set_vcontrol coilset0 grid0 profiles0 force_symmetry0
      psi0 jtor0 in
  (vcontrol = None \/ vcontrol = Some "virtual"%string)
  /\ self
     = Equilibrium.set_limiter_filename_kwargs limiter0 filename0 vcontrol
         (Equilibrium.set_controller
            (Some match vcontrol with
                  | Some _ => Equilibrium.VirtualController self0 2.2%float
                  | None =>
                      Equilibrium.DummyController
                        (PlasmaCoil_psi (Equilibrium.plasma self0) None None)
                  end)
            self0).
Proof.
  intros E. cbv zeta. unfold Equilibrium.__init__ in E. cbv zeta in E.
  destruct vcontrol as [v |]; cbn [Equilibrium.set_vcontrol] in E.
  - destruct (String.eqb_spec v "virtual") as [-> | Hv].
    + unfold setattr in E. split; [right; reflexivity |]. congruence.
    + destruct (String.eqb v "feedback"); discriminate E.
  - unfold setattr in E. split; [left; reflexivity |]. congruence.
Qed.

(** X4: on an equilibrium built by the constructor with a profile that
    is no [BetaLiIpProfile], [solve_li] raises [EquilibriaError] and
    changes nothing, whatever its arguments. *)
Theorem solve_li_needs_inductance_profile :
  forall (coilset0 : CoilSet) (grid0 : Grid) (profiles0 : Profile)
         (force_symmetry0 : bool) (vcontrol : option string)
         (limiter0 : option Limiter) (psi0 jtor0 : option arraylike)
         (filename0 : option string) (self : eq_t),
    Equilibrium.__init__ coilset0 grid0 profiles0 force_symmetry0 vcontrol limiter0
      psi0 jtor0 filename0 = Return self ->
    is_BetaLiIpProfile profiles0 = false ->
    forall (jtor1 psi1 : option arraylike),
      Equilibrium.solve_li jtor1 psi1 self
      = (Raise (EquilibriaError "Cannot use solve_li without the BetaLiIpProfile."),
         self).
Proof.
  intros coilset0 grid0 profiles0 force_symmetry0 vcontrol limiter0 psi0 jtor0
         filename0 self Hinit Hprofile jtor1 psi1.
  destruct (init_inv _ _ _ _ _ _ _ _ _ _ Hinit) as [_ Hself].
  assert (Hflag : Equilibrium._li_flag self = false).
  { rewrite Hself. cbn. exact Hprofile. }
  unfold Equilibrium.solve_li, bind, getattr. rewrite Hflag. reflexivity.
Qed.

(** The steps of a [to_eqdsk] that returns. *)
Lemma to_eqdsk_inv (filename0 header : string) (directory : option string)
    (filetype : string) (qpsi_calcmode : Z) (self self' : eq_t) (fs fs' : files) :
  Equilibrium.to_eqdsk filename0 header directory filetype qpsi_calcmode (self, fs)
  = (Return tt, (self', fs')) ->
  exists (data : EQDSKInterface) (s : eq_t) (dir : string),
    Equilibrium.to_dict
      (if contains "eqdsk" filetype && (qpsi_calcmode =? 0)%Z then 2%Z
       else qpsi_calcmode) self = (Return data, s)
    /\ match directory with
       | Some d => dir = d
       | None => get_bluemira_path "eqdsk/equilibria" "data" = Return dir
       end
    /\ self'
       = Equilibrium.set_filename
           (Some (Path dir (if endswith filename0 ("." ++ filetype)
                            then filename0
                            else (filename0 ++ "." ++ filetype)%string))) s
    /\ fs'
       = EQDSKInterface_write fs
           (Path dir (if endswith filename0 ("." ++ filetype)
                      then filename0
                      else (filename0 ++ "." ++ filetype)%string))
           (set_name data (filename0 ++ "_" ++ header)).
Proof.
  unfold Equilibrium.to_eqdsk. intros E.
  apply bind_inv in E. destruct E as (data & w1 & Hdict & E).
  unfold Equilibrium.on_self in Hdict. cbn [fst snd] in Hdict.
  destruct (Equilibrium.to_dict _ self) as [r s] eqn:Edict.
  assert (Hr : r = Return data) by congruence.
  assert (Hw : w1 = (s, fs)) by congruence.
  subst r w1. clear Hdict.
  exists data, s.
  unfold Equilibrium.MHDState_to_eqdsk in E.
  apply bind_inv in E. destruct E as (path & w2 & Hpath & E).
  unfold bind, Equilibrium.on_self, setattr in E. cbn [fst snd] in E.
  assert (Hpath' :
    exists dir : string,
      match directory with
      | Some d => dir = d
      | None => get_bluemira_path "eqdsk/equilibria" "data" = Return dir
      end
      /\ path = Path dir (if endswith filename0 ("." ++ filetype)
                          then filename0
                          else (filename0 ++ "." ++ filetype)%string)
      /\ w2 = (s, fs)).
  { destruct directory as [d |].
    - exists d. unfold ret in Hpath.
      destruct (endswith filename0 ("." ++ filetype)); cbn [negb] in Hpath;
        repeat split; congruence.
    - destruct (get_bluemira_path _ _) as [d | err].
      + exists d. unfold ret in Hpath.
        destruct (endswith filename0 ("." ++ filetype)); cbn [negb] in Hpath;
          repeat split; congruence.
      + destruct err; discriminate Hpath. }
  destruct Hpath' as (dir & Hdir & -> & ->). exists dir. cbn [fst snd] in E.
  split; [reflexivity |]. split; [exact Hdir |]. split; congruence.
Qed.

(** X8: after [to_eqdsk], the stored path is the directory given (or
    the default data directory) joined with a file name that ends in
    [.filetype]: the name given when it already ends so, and otherwise the
    name with the extension appended once. *)
Theorem to_eqdsk_file_name_has_extension :
  forall (filename0 header : string) (directory : option string)
         (filetype : string) (qpsi_calcmode : Z) (self self' : eq_t)
         (fs fs' : files),
    Equilibrium.to_eqdsk filename0 header directory filetype qpsi_calcmode (self, fs)
    = (Return tt, (self', fs')) ->
    exists (dir file : string),
      Equilibrium.filename self' = Some (Path dir file)
      /\ fs' (Path dir file) <> None
      /\ endswith file ("." ++ filetype) = true
      /\ (if endswith filename0 ("." ++ filetype) then file = filename0
          else file = (filename0 ++ "." ++ filetype)%string)
      /\ match directory with
         | Some d => dir = d
         | None => get_bluemira_path "eqdsk/equilibria" "data" = Return dir
         end.
Proof.
  intros filename0 header directory filetype qpsi_calcmode self self' fs fs' E.
  apply to_eqdsk_inv in E. destruct E as (data & s & dir & _ & Hdir & -> & ->).
  exists dir. eexists. split; [reflexivity |].
  split; [unfold EQDSKInterface_write; rewrite String.eqb_refl; discriminate |].
  split; [| split; [| exact Hdir]].
  - destruct (endswith filename0 ("." ++ filetype)) eqn:Eend; [exact Eend |].
    apply endswith_append.
  - destruct (endswith filename0 ("." ++ filetype)); reflexivity.
Qed.

(** What [to_dict] writes about the limiter, in every mode. *)
Lemma to_dict_limiter (q : Z) (self s : eq_t) (data : EQDSKInterface) :
  Equilibrium.to_dict q self = (Return data, s) ->
  nlim data
  = match Equilibrium.limiter s with
    | None => 0%Z
    | Some l => Z.of_nat (List.length (limiter_x l))
    end
  /\ xlim data
     = match Equilibrium.limiter s with None => [] | Some l => limiter_x l end
  /\ zlim data
     = match Equilibrium.limiter s with None => [] | Some l => limiter_z l end.
Proof.
  unfold Equilibrium.to_dict. intros E.
  repeat (apply bind_inv in E; destruct E as (? & ? & _ & E)).
  unfold getattr in E.
  assert (Es : s = _) by (apply (f_equal snd) in E; symmetry; exact E).
  apply (f_equal (fun o => match fst o with Return d => d | Raise _ => data end)) in E.
  cbn [fst] in E. rewrite Es. rewrite <- E.
  match goal with
  | |- context [to_group_vecs ?cs] =>
      destruct (to_group_vecs cs) as [[[[x_c z_c] dxc0] dzc0] cur]
  end.
  cbn. repeat split; reflexivity.
Qed.

(** The two tests on [nlim], for a count of points. *)
Lemma limiter_count (n : nat) :
  ((Z.of_nat n =? 0)%Z = negb (1 <=? n)%nat)
  /\ ((Z.of_nat n <? 5)%Z = (n <=? 4)%nat).
Proof.
  split.
  - destruct n; [reflexivity |]. cbn [Nat.leb negb]. apply Z.eqb_neq. lia.
  - destruct (Nat.leb_spec n 4); [apply Z.ltb_lt | apply Z.ltb_ge]; lia.
Qed.

(** The limiter that [_get_eqdsk] builds from a file with a name. *)
Lemma get_eqdsk_limiter (fs : files) (path : string) (force_symmetry0 : bool)
    (user_coils : option CoilSet) (e0 : EQDSKInterface) (n : string) :
  fs path = Some e0 -> name e0 = Some n ->
  exists (e : EQDSKInterface) (psi1 : arraylike) (coilset1 : CoilSet) (grid1 : Grid),
    Equilibrium.CoilSetMHDState_get_eqdsk fs path force_symmetry0 user_coils
    = Return
        (e, psi1, coilset1, grid1,
         if (nlim e0 =? 0)%Z then None
         else if (nlim e0 <? 5)%Z
              then Some {| limiter_x := xlim e0; limiter_z := zlim e0 |}
              else None).
Proof.
  intros Hfile Hname.
  unfold Equilibrium.CoilSetMHDState_get_eqdsk, Equilibrium.MHDState_get_eqdsk,
    EQDSKInterface_from_file.
  rewrite Hfile, Hname.
  destruct (contains "equilibria" n); [do 4 eexists; reflexivity |].
  destruct (contains "SCENE" n && negb isinstance_cls_Breakdown);
    [do 4 eexists; reflexivity |].
  destruct (contains "fiesta" (lower n)); do 4 eexists; reflexivity.
Qed.

(** X10: reading back what [to_eqdsk] wrote gives the limiter of the
    equilibrium only when it has from one to four points; a limiter with
    no point or with five or more comes back as [None]. *)
Theorem limiter_round_trip :
  forall (filename0 header : string) (directory : option string)
         (filetype : string) (qpsi_calcmode : Z) (self self' : eq_t)
         (fs fs' : files) (force_symmetry0 : bool) (user_coils : option CoilSet),
    Equilibrium.to_eqdsk filename0 header directory filetype qpsi_calcmode (self, fs)
    = (Return tt, (self', fs')) ->
    exists (path : string) (e : EQDSKInterface) (psi1 : arraylike)
           (coilset1 : CoilSet) (grid1 : Grid),
      Equilibrium.filename self' = Some path
      /\ Equilibrium.CoilSetMHDState_get_eqdsk fs' path force_symmetry0 user_coils
         = Return
             (e, psi1, coilset1, grid1,
              match Equilibrium.limiter self' with
              | Some l =>
                  if (1 <=? List.length (limiter_x l))%nat
                     && (List.length (limiter_x l) <=? 4)%nat
                  then Some l
                  else None
              | None => None
              end).
Proof.
  intros filename0 header directory filetype qpsi_calcmode self self' fs fs'
         force_symmetry0 user_coils E.
  apply to_eqdsk_inv in E. destruct E as (data & s & dir & Hdict & _ & -> & ->).
  destruct (to_dict_limiter _ _ _ _ Hdict) as (Hn & Hx & Hz).
  eexists.
  edestruct (get_eqdsk_limiter
               (EQDSKInterface_write fs
                  (Path dir (if endswith filename0 ("." ++ filetype)
                             then filename0
                             else (filename0 ++ "." ++ filetype)%string))
                  (set_name data (filename0 ++ "_" ++ header)))
               (Path dir (if endswith filename0 ("." ++ filetype)
                          then filename0
                          else (filename0 ++ "." ++ filetype)%string))
               force_symmetry0 user_coils)
    as (e & psi1 & coilset1 & grid1 & Hread).
  { unfold EQDSKInterface_write. rewrite String.eqb_refl. reflexivity. }
  { reflexivity. }
  exists e, psi1, coilset1, grid1. split; [reflexivity |].
  rewrite Hread.
  cbn [nlim xlim zlim set_name Equilibrium.set_filename Equilibrium.limiter].
  rewrite Hn, Hx, Hz. destruct (Equilibrium.limiter s) as [[lx lz] |];
    [| reflexivity].
  cbn [limiter_x limiter_z].
  destruct (limiter_count (List.length lx)) as [-> ->].
  destruct (1 <=? List.length lx)%nat; reflexivity.
Qed.

(** X9: outside the mode that computes the safety factor, the record
    that [to_eqdsk] writes is named [filename_header], and its [qpsi] is
    absent exactly in mode 0 for a file type without [eqdsk] in it;
    otherwise (mode 2, or mode 0 turned into mode 2 by the file type) it
    is [nx] zeros. *)
Theorem to_eqdsk_safety_factor_field :
  forall (filename0 header : string) (directory : option string)
         (filetype : string) (qpsi_calcmode : Z) (self self' : eq_t)
         (fs fs' : files),
    Equilibrium.to_eqdsk filename0 header directory filetype qpsi_calcmode (self, fs)
    = (Return tt, (self', fs')) ->
    qpsi_calcmode <> 1%Z ->
    exists (path : string) (e : EQDSKInterface),
      Equilibrium.filename self' = Some path
      /\ fs' path = Some e
      /\ name e = Some (filename0 ++ "_" ++ header)%string
      /\ qpsi e
         = if (qpsi_calcmode =? 0)%Z && negb (contains "eqdsk" filetype) then None
           else Some (repeat 0%float (Z.to_nat (e_nx e))).
Proof.
  intros filename0 header directory filetype qpsi_calcmode self self' fs fs' E Hq.
  apply to_eqdsk_inv in E. destruct E as (data & s & dir & Hdict & _ & -> & ->).
  eexists. eexists. split; [reflexivity |].
  split; [unfold EQDSKInterface_write; rewrite String.eqb_refl; reflexivity |].
  split; [reflexivity |]. cbn [qpsi e_nx set_name].
  apply to_dict_contents in Hdict.
  - destruct Hdict as (s2 & _ & _ & _ & _ & -> & _).
    destruct (contains "eqdsk" filetype), (Z.eqb_spec qpsi_calcmode 0);
      cbn [andb negb]; try reflexivity.
    + destruct (Z.eqb_spec qpsi_calcmode 0); [contradiction | reflexivity].
    + subst. reflexivity.
    + destruct (Z.eqb_spec qpsi_calcmode 0); [contradiction | reflexivity].
  - destruct (contains "eqdsk" filetype && (qpsi_calcmode =? 0)%Z);
      [discriminate | exact Hq].
Qed.

(** X5: in the modes that do not compute the safety factor, the
    magnetic axis that [to_dict] writes is the first O-point of the cache.
    When the cache is populated it is that O-point, whatever the flux map
    now is, and the boundary flux is that of the first cached X-point or,
    without one, what [np.amin] returns for the map written (a NaN when
    the map holds one); when the cache is empty the points are searched on
    the flux map written and cached. *)
Theorem to_dict_axis_from_cache :
  forall (q : Z) (self s : eq_t) (data : EQDSKInterface),
    q <> 1%Z ->
    Equilibrium.to_dict q self = (Return data, s) ->
    (forall (o : Opoint) (os : list Opoint),
       Equilibrium._o_points self = Some (o :: os) ->
       (xmag data, zmag data, psimag data) = (Opoint_x o, Opoint_z o, Opoint_psi o)
       /\ match Equilibrium._x_points self with
          | Some (xp :: _) => psibdry data = Xpoint_psi xp
          | _ => np_amin (e_psi data) = Return (psibdry data)
          end)
    /\ (Equilibrium._o_points self = None -> Equilibrium._x_points self = None ->
        let found :=
          find_OX_points (Equilibrium.x self) (Equilibrium.z self) (e_psi data)
                         (Equilibrium.limiter self) in
        Equilibrium._o_points s = Some (fst found)
        /\ Equilibrium._x_points s = Some (snd found)
        /\ exists (o : Opoint) (os : list Opoint),
             fst found = o :: os
             /\ (xmag data, zmag data, psimag data)
                = (Opoint_x o, Opoint_z o, Opoint_psi o)
             /\ match snd found with
                | xp :: _ => psibdry data = Xpoint_psi xp
                | [] => np_amin (e_psi data) = Return (psibdry data)
                end).
Proof.
  intros q self s data Hq E.
  destruct (to_dict_contents q self s data Hq E)
    as (s2 & Hpsi & Hox & (o' & os' & Ho' & Hxm & Hzm & Hpm) & Hb & _).
  destruct (psi_grid_cache self s2 _ Hpsi) as [Hco Hcx].
  assert (Hframe : Equilibrium.x s2 = Equilibrium.x self
                   /\ Equilibrium.z s2 = Equilibrium.z self
                   /\ Equilibrium.limiter s2 = Equilibrium.limiter self).
  { destruct (psi_grid_cases self) as [(p & c & E1) | E1]; rewrite E1 in Hpsi.
    - apply (f_equal snd) in Hpsi. cbn [snd] in Hpsi. subst s2.
      destruct (Equilibrium._jtor self); repeat split; reflexivity.
    - discriminate Hpsi. }
  destruct Hframe as (Hx & Hz & Hl).
  split.
  - intros o os Ho.
    rewrite (get_OX_points_cached (Some (e_psi data)) s2) in Hox
      by (left; rewrite Hco, Ho; discriminate).
    assert (s = s2) by (apply (f_equal snd) in Hox; symmetry; exact Hox).
    subst s2. rewrite Hco in Ho'. rewrite Hcx in Hb.
    assert (o' = o) by congruence. subst o'.
    rewrite Hxm, Hzm, Hpm. split; [reflexivity | exact Hb].
  - intros Ho Hxp. cbv zeta.
    rewrite (get_OX_points_first_search (e_psi data) s2) in Hox by congruence.
    cbv zeta in Hox. rewrite Hx, Hz, Hl in Hox.
    assert (Hs : s = _) by (apply (f_equal snd) in Hox; symmetry; exact Hox).
    rewrite Hs in Ho', Hb |- *. cbn in Ho', Hb |- *.
    split; [reflexivity |]. split; [reflexivity |].
    exists o', os'. split; [congruence |].
    rewrite Hxm, Hzm, Hpm. split; [reflexivity | exact Hb].
Qed.

(** X6: with an O-point and no X-point in the cache, [get_OX_psis]
    raises [IndexError], for a flux given (changing nothing) and for the
    flux of [psi()] alike, while [to_dict] in modes 0 and 2 returns on the
    same equilibrium when [psi()] returns a flux map of two dimensions
    that is not empty: it writes the map, the O-point's flux and, for the
    boundary, what [np.amin] returns for the map. *)
Theorem get_OX_psis_needs_an_X_point :
  forall (self s2 : eq_t) (o : Opoint) (os : list Opoint) (psi0 p : arraylike)
         (n : Z * Z) (v : float) (q : Z),
    Equilibrium._o_points self = Some (o :: os) ->
    Equilibrium._x_points self = Some [] ->
    Equilibrium.psi None None self = (Return p, s2) ->
    shape p = Some n ->
    np_amin p = Return v ->
    q = 0%Z \/ q = 2%Z ->
    Equilibrium.get_OX_psis (Some psi0) self = (Raise IndexError, self)
    /\ Equilibrium.get_OX_psis None self = (Raise IndexError, s2)
    /\ exists data : EQDSKInterface,
         Equilibrium.to_dict q self = (Return data, s2)
         /\ e_psi data = p
         /\ psimag data = Opoint_psi o
         /\ psibdry data = v.
Proof.
  intros self s2 o os psi0 p n v q Ho Hx Hpsi Hshape Hamin Hq.
  destruct (psi_grid_cache self s2 _ Hpsi) as [Hco Hcx].
  assert (Hcached : forall p' : option arraylike,
    Equilibrium.get_OX_points p' false s2 = (Return (Some (o :: os), Some []), s2)).
  { intros p'. rewrite get_OX_points_cached by (left; rewrite Hco, Ho; discriminate).
    rewrite Hco, Hcx, Ho, Hx. reflexivity. }
  split; [| split].
  - unfold Equilibrium.get_OX_psis, Equilibrium.psi_or_default.
    unfold bind at 1. unfold ret at 1. unfold bind at 1.
    rewrite (get_OX_points_cached (Some psi0) self)
      by (left; rewrite Ho; discriminate).
    rewrite Ho, Hx. reflexivity.
  - unfold Equilibrium.get_OX_psis, Equilibrium.psi_or_default.
    unfold bind at 1. rewrite Hpsi. unfold bind at 1. rewrite Hcached.
    reflexivity.
  - destruct (Equilibrium.to_dict q self) as [[data | e] s] eqn:E.
    + assert (Hq1 : q <> 1%Z) by (destruct Hq; lia).
      destruct (to_dict_contents q self s data Hq1 E)
        as (s2' & Hpsi' & Hox & (o' & os' & Ho' & _ & _ & Hpm) & Hb & _).
      rewrite Hpsi in Hpsi'.
      assert (Hp : e_psi data = p)
        by (apply (f_equal fst) in Hpsi'; cbn [fst] in Hpsi'; congruence).
      assert (s2' = s2) by (apply (f_equal snd) in Hpsi'; symmetry; exact Hpsi').
      subst s2'. rewrite Hcached in Hox.
      assert (s = s2) by (apply (f_equal snd) in Hox; symmetry; exact Hox).
      subst s. rewrite Hco, Ho in Ho'. rewrite Hcx, Hx, Hp, Hamin in Hb.
      exists data. split; [reflexivity |]. split; [exact Hp |].
      split; [rewrite Hpm; congruence | congruence].
    + exfalso. unfold Equilibrium.to_dict in E.
      assert (Hmode : exists mode : QpsiCalcMode,
                QpsiCalcMode_of_int q = Return mode /\ mode <> CALC).
      { destruct Hq as [-> | ->]; eexists; (split; [reflexivity | discriminate]). }
      destruct Hmode as (mode & Hmode & Hcalc). rewrite Hmode in E.
      unfold bind at 1 in E. unfold lift_outcome at 1 in E.
      unfold bind at 1 in E. rewrite Hpsi in E. rewrite Hshape in E.
      unfold bind at 1 in E. unfold lift_outcome at 1 in E.
      unfold bind at 1 in E. rewrite Hcached in E.
      cbn [fst snd first py_not] in E.
      unfold bind at 1 in E. unfold lift_outcome at 1 in E.
      unfold bind at 1 in E. rewrite Hamin in E. unfold lift_outcome at 1 in E.
      unfold bind at 1 in E.
      assert (Hqv : exists qv : option (list float),
        match mode with
        | CALC =>
            bind (Equilibrium.Equilibrium_q (np_linspace 0 1 (fst n))
                    (Some (o :: os)) (Some []))
                 (fun q1 => ret (Some q1))
        | ZEROS => ret (Some (repeat 0%float (Z.to_nat (fst n))))
        | NO_CALC => ret None
        end s2 = (Return qv, s2)).
      { destruct mode; [eexists; reflexivity | contradiction Hcalc; reflexivity
                       | eexists; reflexivity]. }
      destruct Hqv as (qv & Hqv). rewrite Hqv in E.
      unfold Equilibrium.get_LCFS, Equilibrium.psi_or_default in E.
      unfold bind at 1 in E. unfold bind at 1 in E. unfold ret at 1 in E.
      unfold bind at 1 in E. rewrite Hcached in E.
      unfold getattr in E. discriminate E.
Qed.

(** X11: [from_eqdsk] raises [FileNotFoundError] for a path without a
    file and [TypeError] for a record without a name, and otherwise
    returns an equilibrium with the dummy controller, [force_symmetry]
    false whatever was asked, the path as [filename], the profile of the
    file, a current density stored and given to the plasma, and an empty
    critical-point cache although the points were searched. *)
Theorem from_eqdsk_result :
  forall (fs : files) (path : string) (force_symmetry0 : bool)
         (user_coils : option CoilSet),
    match fs path with
    | None =>
        Equilibrium.from_eqdsk fs path force_symmetry0 user_coils
        = Raise FileNotFoundError
    | Some e =>
        match name e with
        | None =>
            Equilibrium.from_eqdsk fs path force_symmetry0 user_coils
            = Raise TypeError
        | Some _ =>
            exists self : eq_t,
              Equilibrium.from_eqdsk fs path force_symmetry0 user_coils = Return self
              /\ Equilibrium.controller self
                 = Some (Equilibrium.DummyController
                           (PlasmaCoil_psi (Equilibrium.plasma self) None None))
              /\ Equilibrium._kwargs_vcontrol self = None
              /\ Equilibrium.force_symmetry self = false
              /\ solver_force_symmetry (Equilibrium._solver self) = false
              /\ Equilibrium.filename self = Some path
              /\ Equilibrium.profiles self = CustomProfile_from_eqdsk e
              /\ Equilibrium._o_points self = None
              /\ Equilibrium._x_points self = None
              /\ Equilibrium._jtor self <> None
              /\ Equilibrium._jtor self = j_tor (Equilibrium.plasma self)
              /\ Equilibrium._eqdsk self = None
        end
    end.
Proof.
  intros fs path force_symmetry0 user_coils.
  unfold Equilibrium.from_eqdsk, Equilibrium.CoilSetMHDState_get_eqdsk,
    Equilibrium.MHDState_get_eqdsk, EQDSKInterface_from_file.
  destruct (fs path) as [e |]; [| reflexivity].
  destruct (name e) as [n |]; [| reflexivity].
  destruct (contains "equilibria" n).
  { eexists. split; [reflexivity |]. cbn. repeat split; try reflexivity. discriminate. }
  destruct (contains "SCENE" n && negb isinstance_cls_Breakdown).
  { eexists. split; [reflexivity |]. cbn. repeat split; try reflexivity. discriminate. }
  destruct (contains "fiesta" (lower n)).
  { eexists. split; [reflexivity |]. cbn. repeat split; try reflexivity. discriminate. }
  eexists. split; [reflexivity |]. cbn. repeat split; try reflexivity. discriminate.
Qed.

(** X12: [reset_grid] called with the keyword [vcontrol], or with any
    keyword other than [psi], raises [TypeError] before anything is reset:
    the [vcontrol] that the method reads from its keywords can never take
    effect. *)
Theorem reset_grid_rejects_keywords :
  forall (grid1 : Grid) (kw : Equilibrium.reset_grid_kwargs) (self : eq_t),
    (Equilibrium.kw_vcontrol kw <> None \/ Equilibrium.kw_others kw <> []) ->
    Equilibrium.reset_grid grid1 kw self = (Raise TypeError, self).
Proof.
  intros grid1 kw self Hkw.
  unfold Equilibrium.reset_grid, Equilibrium.CoilSetMHDState_reset_grid.
  destruct (Equilibrium.kw_vcontrol kw) as [v |],
           (Equilibrium.kw_others kw) as [| k ks];
    try reflexivity.
  destruct Hkw as [Hkw | Hkw]; contradiction Hkw; reflexivity.
Qed.

(** X13: on an equilibrium built by the constructor, [reset_grid]
    with at most the keyword [psi] returns: grid, coordinates, solver,
    Green's functions and plasma are on the new grid and the controller of
    the constructor's strategy is built anew, while the boundary operator
    stays on the old grid, the plasma's current density is [None] though
    [_jtor] is kept, and the limiter and the cache are untouched. *)
Theorem reset_grid_of_constructed :
  forall (coilset0 : CoilSet) (grid0 : Grid) (profiles0 : Profile)
         (force_symmetry0 : bool) (vcontrol : option string)
         (limiter0 : option Limiter) (psi0 jtor0 : option arraylike)
         (filename0 : option string) (self : eq_t),
    Equilibrium.__init__ coilset0 grid0 profiles0 force_symmetry0 vcontrol limiter0
      psi0 jtor0 filename0 = Return self ->
    forall (grid1 : Grid) (psi1 : option (option arraylike)),
      exists self' : eq_t,
        Equilibrium.reset_grid grid1
          {| Equilibrium.kw_psi := psi1; Equilibrium.kw_vcontrol := None;
             Equilibrium.kw_others := [] |} self
        = (Return tt, self')
        /\ Equilibrium.grid self' = grid1
        /\ Equilibrium.x self' = grid_x grid1
        /\ Equilibrium.z self' = grid_z grid1
        /\ Equilibrium._solver self'
           = {| solver_grid := grid1; solver_force_symmetry := force_symmetry0 |}
        /\ Equilibrium._psi_green self'
           = psi_response coilset0 (grid_x grid1) (grid_z grid1)
        /\ plasma_grid (Equilibrium.plasma self') = grid1
        /\ j_tor (Equilibrium.plasma self') = None
        /\ Equilibrium._jtor self' = jtor0
        /\ boundary_grid (Equilibrium.boundary self') = grid0
        /\ Equilibrium.limiter self' = limiter0
        /\ Equilibrium._o_points self' = None
        /\ (vcontrol = None ->
            Equilibrium.controller self'
            = Some (Equilibrium.DummyController
                      (PlasmaCoil_psi (Equilibrium.plasma self') None None)))
        /\ (vcontrol <> None ->
            exists self1 : eq_t,
              Equilibrium.controller self'
              = Some (Equilibrium.VirtualController self1 2.2%float)
              /\ Equilibrium.plasma self1 = Equilibrium.plasma self'
              /\ Equilibrium.grid self1 = grid1).
Proof.
  intros coilset0 grid0 profiles0 force_symmetry0 vcontrol limiter0 psi0 jtor0
         filename0 self Hinit grid1 psi1.
  destruct (init_inv _ _ _ _ _ _ _ _ _ _ Hinit) as [Hv Hself]. cbv zeta in Hself.
  rewrite Hself. destruct Hv as [-> | ->].
  - eexists. split; [reflexivity |]. cbn.
    repeat split; try reflexivity. intros Hne. contradiction Hne. reflexivity.
  - eexists. split; [reflexivity |]. cbn.
    repeat split; try reflexivity; try discriminate.
    intros _. eexists. split; [reflexivity |]. split; reflexivity.
Qed.

(** X1: the critical-point cache does not remember which flux it was
    computed from.  On an equilibrium with an empty cache,
    [get_OX_points(psi1)] searches [psi1] and stores what it finds; any
    later [get_OX_points(psi2)] without [force_update], for another flux
    or for none, returns the points of [psi1] and neither searches nor
    changes the equilibrium. *)
Theorem get_OX_points_reuses_first_search :
  forall (self : eq_t) (psi1 : arraylike) (psi2 : option arraylike),
    let found :=
      find_OX_points (Equilibrium.x self) (Equilibrium.z self) psi1
                     (Equilibrium.limiter self) in
    let cached :=
      Equilibrium.set_OX_points (Some (fst found)) (Some (snd found)) self in
    Equilibrium._o_points self = None ->
    Equilibrium._x_points self = None ->
    Equilibrium.get_OX_points (Some psi1) false self
    = (Return (Some (fst found), Some (snd found)), cached)
    /\ Equilibrium.get_OX_points psi2 false cached
       = (Return (Some (fst found), Some (snd found)), cached).
Proof.
  intros self psi1 psi2 found cached Ho Hx. split.
  - apply get_OX_points_first_search; assumption.
  - rewrite get_OX_points_cached; [reflexivity | left; discriminate].
Qed.

(** Unpickling rebuilds what pickling dropped, on an equilibrium whose
    solver and coordinates are those of its grid; and that is part of the
    configuration. *)
Lemma set_state_of_get_state (s : eq_t) (absent : GSSolver) :
  Equilibrium.on_its_grid s ->
  Equilibrium.__setstate__ (Equilibrium.__getstate__ s absent) = s.
Proof.
  intros (Hx & Hz & Hdx & Hdz & Hsolver). destruct s. cbn in *.
  unfold Equilibrium.__setstate__, Equilibrium.__getstate__. cbn.
  rewrite <- Hx, <- Hz, <- Hdx, <- Hdz, <- Hsolver. reflexivity.
Qed.

Lemma on_its_grid_kept (s s' : eq_t) :
  Equilibrium.same_configuration s s' ->
  Equilibrium.on_its_grid s -> Equilibrium.on_its_grid s'.
Proof.
  unfold Equilibrium.same_configuration, Equilibrium.on_its_grid.
  intros (Hx & Hz & Hdx & Hdz & Hg & _ & _ & _ & _ & _ & Hs & _ & Hf & _)
         (Gx & Gz & Gdx & Gdz & Gs).
  rewrite Hx, Hz, Hdx, Hdz, Hg, Hs, Hf. repeat split; assumption.
Qed.

(** X14: for an equilibrium built by the constructor, also after
    [solve], [solve_li] or [reset_grid] however they ended,
    [__setstate__] applied to what [__getstate__] returns gives back the
    equilibrium: the solver dropped from the pickle is rebuilt as it was,
    whatever stood in its place. *)
Theorem pickle_round_trip :
  forall (coilset0 : CoilSet) (grid0 : Grid) (profiles0 : Profile)
         (force_symmetry0 : bool) (vcontrol : option string)
         (limiter0 : option Limiter) (psi0 jtor0 : option arraylike)
         (filename0 : option string) (self : eq_t),
    Equilibrium.__init__ coilset0 grid0 profiles0 force_symmetry0 vcontrol limiter0
      psi0 jtor0 filename0 = Return self ->
    forall (absent : GSSolver),
      Equilibrium.__setstate__ (Equilibrium.__getstate__ self absent) = self
      /\ (forall (jtor1 psi1 : option arraylike),
            let solved := snd (Equilibrium.solve jtor1 psi1 self) in
            Equilibrium.__setstate__ (Equilibrium.__getstate__ solved absent)
            = solved)
      /\ (forall (jtor1 psi1 : option arraylike),
            let solved := snd (Equilibrium.solve_li jtor1 psi1 self) in
            Equilibrium.__setstate__ (Equilibrium.__getstate__ solved absent)
            = solved)
      /\ (forall (grid1 : Grid) (kw : Equilibrium.reset_grid_kwargs),
            let moved := snd (Equilibrium.reset_grid grid1 kw self) in
            Equilibrium.__setstate__ (Equilibrium.__getstate__ moved absent)
            = moved).
Proof.
  intros coilset0 grid0 profiles0 force_symmetry0 vcontrol limiter0 psi0 jtor0
         filename0 self Hinit absent.
  destruct (init_inv _ _ _ _ _ _ _ _ _ _ Hinit) as [Hv Hself]. cbv zeta in Hself.
  assert (Hgrid : Equilibrium.on_its_grid self).
  { rewrite Hself. unfold Equilibrium.on_its_grid. cbn. repeat split; reflexivity. }
  split; [apply set_state_of_get_state; exact Hgrid |].
  split; [| split].
  - intros jtor1 psi1 solved. apply set_state_of_get_state.
    apply (on_its_grid_kept self); [apply solve_keeps | exact Hgrid].
  - intros jtor1 psi1 solved. apply set_state_of_get_state.
    apply (on_its_grid_kept self); [apply solve_li_keeps | exact Hgrid].
  - intros grid1 kw moved. apply set_state_of_get_state. subst moved.
    unfold Equilibrium.reset_grid, Equilibrium.CoilSetMHDState_reset_grid.
    destruct (Equilibrium.kw_vcontrol kw) as [v |],
             (Equilibrium.kw_others kw) as [| k ks];
      try exact Hgrid.
    rewrite Hself. destruct Hv as [-> | ->];
      unfold Equilibrium.on_its_grid; cbn; repeat split; reflexivity.
Qed.

End EquilibriumMethods.

Section SolverConstruction.
Context {CoilSet Profile Controller Config : Type}
        `{CoilSetAPI CoilSet} `{ProfileAPI Profile} `{EquilibriaLib}
        `{!Equilibrium.ControllerAPI (CoilSet := CoilSet) (Profile := Profile)
                                     (Controller := Controller)}
        `{ChargedParticleSolver.ParameterFrameAPI Config}.

Local Abbreviation eq_t :=
  (Equilibrium.t (CoilSet := CoilSet) (Profile := Profile) (Controller := Controller)).

(** What [get_OX_points] returns is what it leaves in the cache. *)
Lemma get_OX_points_returns_cache (psi0 : option arraylike) (force_update : bool)
    (self s : eq_t) (ox : option (list Opoint) * option (list Xpoint)) :
  Equilibrium.get_OX_points psi0 force_update self = (Return ox, s) ->
  ox = (Equilibrium._o_points s, Equilibrium._x_points s).
Proof.
  unfold Equilibrium.get_OX_points. intros E.
  apply bind_inv in E. destruct E as (cached & s1 & _ & E).
  apply bind_inv in E. destruct E as (u & s2 & _ & E).
  unfold getattr in E.
  assert (s = s2) by (apply (f_equal snd) in E; symmetry; exact E). subst s2.
  apply (f_equal fst) in E. cbn [fst] in E. congruence.
Qed.

(** The constructor once the fractions have passed the check. *)
Lemma solver_init_checked (config : Config) (kw_dx_mp : option float) (self : eq_t) :
  ChargedParticleSolver._check_params
    (ChargedParticleSolver.update_kw_parameters
       ChargedParticleSolver.default_params config) = Return tt ->
  ChargedParticleSolver.__init__ config kw_dx_mp self
  = bind (Equilibrium.get_OX_points None false)
      (fun ox =>
         bind (lift_outcome (first (fst ox)))
           (fun o_point =>
              ret {| ChargedParticleSolver.params :=
                       ChargedParticleSolver.update_kw_parameters
                         ChargedParticleSolver.default_params config;
                     ChargedParticleSolver.dx_mp :=
                       match kw_dx_mp with
                       | Some d => d
                       | None => 0.001%float
                       end;
                     ChargedParticleSolver._o_point := o_point;
                     ChargedParticleSolver._yz_plane :=
                       {| ChargedParticleSolver.plane_p1 :=
                            [0; 0; Opoint_z o_point]%float;
                          ChargedParticleSolver.plane_p2 :=
                            [1; 0; Opoint_z o_point]%float;
                          ChargedParticleSolver.plane_p3 :=
                            [1; 1; Opoint_z o_point]%float |} |}))
      self.
Proof.
  intros Hcheck. unfold ChargedParticleSolver.__init__. rewrite Hcheck. reflexivity.
Qed.

(** X15: when the fractions pass the check, a [ChargedParticleSolver]
    that is built keeps the first O-point of the equilibrium's cache as
    the call leaves it.  On a populated cache the equilibrium is not
    touched and no search is made, so that the solver takes the cached
    O-point and the plane at its height; with an empty list of O-points
    cached the constructor raises [IndexError]. *)
Theorem solver_axis_from_cache :
  forall (config : Config) (kw_dx_mp : option float) (self : eq_t),
    ChargedParticleSolver._check_params
      (ChargedParticleSolver.update_kw_parameters
         ChargedParticleSolver.default_params config) = Return tt ->
    (forall (solver : ChargedParticleSolver.t) (self' : eq_t),
       ChargedParticleSolver.__init__ config kw_dx_mp self = (Return solver, self') ->
       (exists os : list Opoint,
          Equilibrium._o_points self'
          = Some (ChargedParticleSolver._o_point solver :: os))
       /\ (Equilibrium._o_points self <> None \/ Equilibrium._x_points self <> None ->
           self' = self))
    /\ (forall (o : Opoint) (os : list Opoint),
          Equilibrium._o_points self = Some (o :: os) ->
          exists solver : ChargedParticleSolver.t,
            ChargedParticleSolver.__init__ config kw_dx_mp self = (Return solver, self)
            /\ ChargedParticleSolver._o_point solver = o
            /\ ChargedParticleSolver._yz_plane solver
               = {| ChargedParticleSolver.plane_p1 := [0; 0; Opoint_z o]%float;
                    ChargedParticleSolver.plane_p2 := [1; 0; Opoint_z o]%float;
                    ChargedParticleSolver.plane_p3 := [1; 1; Opoint_z o]%float |})
    /\ (Equilibrium._o_points self = Some [] ->
        ChargedParticleSolver.__init__ config kw_dx_mp self = (Raise IndexError, self)).
Proof.
  intros config kw_dx_mp self Hcheck.
  rewrite (solver_init_checked config kw_dx_mp self Hcheck).
  split; [| split].
  - intros solver self' E.
    apply bind_inv in E. destruct E as (ox & s1 & Eox & E).
    apply bind_inv in E. destruct E as (o & s2 & Efirst & E).
    unfold lift_outcome in Efirst.
    assert (s2 = s1) by (apply (f_equal snd) in Efirst; symmetry; exact Efirst).
    subst s2. apply (f_equal fst) in Efirst. cbn [fst] in Efirst.
    unfold ret in E.
    assert (self' = s1) by (apply (f_equal snd) in E; symmetry; exact E).
    subst s1.
    apply (f_equal (fun r => match fst r with Return v => v | Raise _ => solver end))
      in E. cbn in E. subst solver. cbn [ChargedParticleSolver._o_point].
    pose proof (get_OX_points_returns_cache _ _ _ _ _ Eox) as Hox. subst ox.
    cbn [fst] in Efirst. split.
    + destruct (Equilibrium._o_points self') as [[| o' os] |];
        try discriminate Efirst.
      exists os. cbn in Efirst. congruence.
    + intros Hc. rewrite (get_OX_points_cached None self Hc) in Eox.
      apply (f_equal snd) in Eox. symmetry. exact Eox.
  - intros o os Ho.
    unfold bind at 1.
    rewrite (get_OX_points_cached None self) by (left; rewrite Ho; discriminate).
    rewrite Ho. eexists. split; [reflexivity |]. split; reflexivity.
  - intros Ho. unfold bind at 1.
    rewrite (get_OX_points_cached None self) by (left; rewrite Ho; discriminate).
    rewrite Ho. reflexivity.
Qed.

End SolverConstruction.

(** ** Components *)

Section ComponentProperties.
Context {Node Tree : Type} `{Component.AnyTree Node Tree}.

(** [enumerate], and [pop] at the place of the last child enumerated. *)
Lemma map_snd_enumerate (l : list Node) (start : nat) :
  map snd (combine (seq start (List.length l)) l) = l.
Proof.
  revert start. induction l as [| c l IH]; intros start; cbn; [reflexivity |].
  rewrite IH. reflexivity.
Qed.

Lemma enumerate_snoc (l : list Node) (c : Node) (start : nat) :
  combine (seq start (List.length (l ++ [c]))) (l ++ [c])
  = combine (seq start (List.length l)) l ++ [((start + List.length l)%nat, c)].
Proof.
  revert start. induction l as [| d l IH]; intros start; cbn.
  - rewrite Nat.add_0_r. reflexivity.
  - rewrite IH. rewrite Nat.add_succ_r. reflexivity.
Qed.

Lemma pop_middle (l kept : list Node) (c : Node) :
  Component.pop (List.length l) ((l ++ [c]) ++ kept) = Some (l ++ kept).
Proof.
  unfold Component.pop. rewrite <- app_assoc. cbn [app].
  assert (Hlt : (List.length l <? List.length (l ++ c :: kept))%nat = true).
  { apply Nat.ltb_lt. rewrite length_app. cbn. lia. }
  rewrite Hlt. clear Hlt. f_equal. f_equal.
  - rewrite firstn_app, Nat.sub_diag, firstn_all. cbn. apply app_nil_r.
  - induction l as [| d l IH]; [reflexivity | exact IH].
Qed.

(** With [first=True], [get_component] returns a component or [None]. *)
Lemma get_component_first (self : Node) (name : string) (t : Tree) :
  Component.get_component self name true false t
  = match Component.findall_by_attr t self name with
    | [] => Component.NotFound
    | c :: _ => Component.One c
    end.
Proof. reflexivity. Qed.

(** Without merging, the loop collects the children whose names are in
    the tree and touches nothing. *)
Lemma add_children_loop_collects (self : Node) (items : list (nat * Node))
    (duplicates l : list Node) (t : Tree) :
  Component.add_children_loop self false items duplicates (l, t)
  = (Component.Ok
       (duplicates ++ filter (Component.in_tree t self) (map snd items)),
     (l, t)).
Proof.
  revert duplicates. induction items as [| [idx child] items IH]; intros duplicates.
  - cbn. rewrite app_nil_r. reflexivity.
  - cbn [Component.add_children_loop map snd filter].
    rewrite get_component_first.
    assert (Hin :
      Component.in_tree t self child
      = match Component.findall_by_attr t self (Component.node_name t child) with
        | [] => false
        | _ :: _ => true
        end) by reflexivity.
    rewrite Hin.
    destruct (Component.findall_by_attr t self (Component.node_name t child)).
    + apply IH.
    + rewrite IH, <- app_assoc. reflexivity.
Qed.

(** X16: [add_children] of an empty list raises [IndexError] and
    changes nothing.  Without merging, for a list that is not empty: when
    no child's name is found at or below the component, the outcome is
    that of assigning the old children followed by the list; otherwise it
    raises [ComponentError], naming the children found in reverse order,
    and the tree and the caller's list are as they were. *)
Theorem add_children_without_merging :
  forall (self c : Node) (l : list Node) (t : Tree) (merge_trees : bool),
    Component.add_children self (Component.a_list []) merge_trees t
    = (Component.Err Component.IndexError, (Component.a_list [], t))
    /\ Component.add_children self (Component.a_list (c :: l)) false t
       = match filter (Component.in_tree t self) (c :: l) with
         | [] =>
             match Component.set_children self
                     (Component.node_children t self ++ c :: l) t with
             | (None, t') => (Component.Ok self, (Component.a_list (c :: l), t'))
             | (Some msg, t') =>
                 (Component.Err (Component.TreeError msg),
                  (Component.a_list (c :: l), t'))
             end
         | d :: ds =>
             (Component.Err
                (Component.ComponentError
                   ("Components " ++ Component.repr_list t (rev (d :: ds))
                    ++ " are already a children of " ++ Component.__repr__ t self)),
              (Component.a_list (c :: l), t))
         end.
Proof.
  intros self c l t merge_trees. split; [reflexivity |].
  unfold Component.add_children.
  rewrite add_children_loop_collects. cbn [app].
  rewrite map_rev, map_snd_enumerate, filter_rev.
  destruct (filter (Component.in_tree t self) (c :: l)) as [| d ds] eqn:Ef.
  - cbn [rev]. unfold Component.assign_children.
    destruct (Component.set_children _ _ t) as [[msg |] t']; reflexivity.
  - destruct (rev (d :: ds)) as [| e es] eqn:Er; [| reflexivity].
    apply (f_equal (@List.length Node)) in Er. rewrite length_rev in Er.
    discriminate Er.
Qed.

(** When merging, the loop records no duplicate, takes out of the
    caller's list only what is there, and raises nothing but what the
    [children] setter raises. *)
Lemma add_children_loop_merges (self : Node) (l : list Node) :
  forall (kept : list Node) (t : Tree),
    exists (r : Component.result (list Node)) (l' : list Node) (t' : Tree),
      Component.add_children_loop self true
        (rev (combine (seq 0 (List.length l)) l)) [] (l ++ kept, t)
      = (r, (l' ++ kept, t'))
      /\ incl l' l /\ (List.length l' <= List.length l)%nat
      /\ match r with
         | Component.Ok duplicates => duplicates = []
         | Component.Err e => exists msg : string, e = Component.TreeError msg
         end.
Proof.
  induction l as [| a l IH] using rev_ind; intros kept t.
  - exists (Component.Ok []), [], t. cbn.
    split; [reflexivity |]. split; [apply incl_refl |]. split; [lia | reflexivity].
  - rewrite enumerate_snoc, rev_app_distr. cbn [rev app Nat.add].
    cbn [Component.add_children_loop]. rewrite get_component_first.
    destruct (Component.findall_by_attr t self (Component.node_name t a))
      as [| ex exs].
    + rewrite <- app_assoc. cbn [app].
      destruct (IH (a :: kept) t) as (r & l' & t' & E & Hincl & Hlen & Hr).
      exists r, (l' ++ [a]), t'. rewrite <- app_assoc. cbn [app].
      split; [exact E |]. split; [| split; [| exact Hr]].
      * apply incl_app_app; [exact Hincl | apply incl_refl].
      * rewrite !length_app. cbn. lia.
    + unfold Component.assign_children.
      destruct (Component.set_children ex _ t) as [[msg |] t1].
      * exists (Component.Err (Component.TreeError msg)), (l ++ [a]), t1.
        split; [reflexivity |]. split; [apply incl_refl |].
        split; [lia | exists msg; reflexivity].
      * rewrite pop_middle.
        destruct (IH kept t1) as (r & l' & t' & E & Hincl & Hlen & Hr).
        exists r, l', t'. split; [exact E |].
        split; [apply incl_appl; exact Hincl |].
        split; [rewrite length_app; lia | exact Hr].
Qed.

(** A loop that finds none of the names does nothing. *)
Lemma add_children_loop_finds_nothing (self : Node) (merge_trees : bool)
    (items : list (nat * Node)) (duplicates l : list Node) (t : Tree) :
  filter (Component.in_tree t self) (map snd items) = [] ->
  Component.add_children_loop self merge_trees items duplicates (l, t)
  = (Component.Ok duplicates, (l, t)).
Proof.
  induction items as [| [idx child] items IH]; intros Hnone; [reflexivity |].
  cbn [Component.add_children_loop]. rewrite get_component_first.
  cbn [map snd filter] in Hnone. unfold Component.in_tree at 1 in Hnone.
  destruct (Component.findall_by_attr t self (Component.node_name t child)).
  - apply IH. exact Hnone.
  - discriminate Hnone.
Qed.

(** X17: with [merge_trees], [add_children] of a list that is not
    empty never raises [ComponentError], [IndexError] or
    [AttributeError] (only the [children] setter can raise); the caller's
    list is left holding some of its elements, and no more than it had;
    and when no child's name is found in the tree the call does what it
    does without merging. *)
Theorem add_children_merging :
  forall (self c : Node) (l : list Node) (t : Tree),
    let r := Component.add_children self (Component.a_list (c :: l)) true t in
    (forall msg : string,
       fst r <> Component.Err (Component.ComponentError msg))
    /\ fst r <> Component.Err Component.IndexError
    /\ fst r <> Component.Err Component.AttributeError
    /\ (exists l' : list Node,
          fst (snd r) = Component.a_list l'
          /\ incl l' (c :: l)
          /\ (List.length l' <= List.length (c :: l))%nat)
    /\ (filter (Component.in_tree t self) (c :: l) = [] ->
        r = Component.add_children self (Component.a_list (c :: l)) false t).
Proof.
  intros self c l t r.
  assert (Hshape :
    (exists (l' : list Node) (t' : Tree) (msg : string),
       r = (Component.Err (Component.TreeError msg), (Component.a_list l', t'))
       /\ incl l' (c :: l) /\ (List.length l' <= List.length (c :: l))%nat)
    \/ (exists (l' : list Node) (t' : Tree),
          r = (Component.Ok self, (Component.a_list l', t'))
          /\ incl l' (c :: l) /\ (List.length l' <= List.length (c :: l))%nat)).
  { subst r. unfold Component.add_children.
    destruct (add_children_loop_merges self (c :: l) [] t)
      as (r0 & l' & t' & E & Hincl & Hlen & Hr).
    rewrite !app_nil_r in E. rewrite E.
    destruct r0 as [duplicates | e].
    - subst duplicates. unfold Component.assign_children.
      destruct (Component.set_children self _ t') as [[msg |] t2].
      + left. exists l', t2, msg. auto.
      + right. exists l', t2. auto.
    - destruct Hr as [msg ->]. left. exists l', t', msg. auto. }
  split; [| split; [| split; [| split]]].
  - intros msg. destruct Hshape as [(l' & t' & m & -> & _) | (l' & t' & -> & _)];
      discriminate.
  - destruct Hshape as [(l' & t' & m & -> & _) | (l' & t' & -> & _)]; discriminate.
  - destruct Hshape as [(l' & t' & m & -> & _) | (l' & t' & -> & _)]; discriminate.
  - destruct Hshape as [(l' & t' & m & -> & Hi & Hl) | (l' & t' & -> & Hi & Hl)];
      exists l'; auto.
  - intros Hnone. subst r. unfold Component.add_children.
    assert (Hitems :
      filter (Component.in_tree t self)
        (map snd (rev (combine (seq 0 (List.length (c :: l))) (c :: l)))) = []).
    { rewrite map_rev, map_snd_enumerate, filter_rev, Hnone. reflexivity. }
    rewrite !(add_children_loop_finds_nothing self _ _ _ _ _ Hitems). reflexivity.
Qed.

(** X18: [add_child] and [add_children] disagree on a component that
    is not a child yet but whose name is already at or below the parent:
    [add_child] assigns it as one more child, [add_children] of the list
    holding only it raises [ComponentError] and changes nothing. *)
Theorem add_child_checks_identity_only :
  forall (self c : Node) (t : Tree),
    existsb (Component.node_is c) (Component.node_children t self) = false ->
    Component.in_tree t self c = true ->
    Component.add_child self c t
    = match Component.set_children self (Component.node_children t self ++ [c]) t with
      | (None, t') => (Component.Ok self, t')
      | (Some msg, t') => (Component.Err (Component.TreeError msg), t')
      end
    /\ Component.add_children self (Component.a_list [c]) false t
       = (Component.Err
            (Component.ComponentError
               ("Components " ++ Component.repr_list t [c]
                ++ " are already a children of " ++ Component.__repr__ t self)),
          (Component.a_list [c], t)).
Proof.
  intros self c t Hnew Hname. split.
  - unfold Component.add_child, Component.assign_children. rewrite Hnew.
    destruct (Component.set_children self _ t) as [[msg |] t']; reflexivity.
  - unfold Component.add_children. rewrite add_children_loop_collects.
    cbn [List.length seq combine rev app map snd filter]. rewrite Hname.
    reflexivity.
Qed.

End ComponentProperties.

(** ** More runs in the toy world *)

(** X1 at work: the first lookup on the toy equilibrium searches the flux
    given; a second lookup, asked about a flux with no O-point, answers
    with the points of the first. *)
Lemma get_OX_points_reuses_first_search_witness :
  let self := Toy.equilibrium in
  let o := {| Opoint_x := 0; Opoint_z := 0; Opoint_psi := 2 |} in
  let cached := Equilibrium.set_OX_points (Some [o]) (Some []) self in
  Equilibrium._o_points self = None
  /\ Equilibrium._x_points self = None
  /\ Equilibrium.get_OX_points (Some Toy.psi_positive) false self
     = (Return (Some [o], Some []), cached)
  /\ Equilibrium.get_OX_points (Some Toy.psi_negative) false cached
     = (Return (Some [o], Some []), cached).
Proof.
  cbv zeta.
  assert (Ho : Equilibrium._o_points Toy.equilibrium = None) by reflexivity.
  assert (Hx : Equilibrium._x_points Toy.equilibrium = None) by reflexivity.
  split; [exact Ho |]. split; [exact Hx |].
  exact (get_OX_points_reuses_first_search Toy.equilibrium Toy.psi_positive
           (Some Toy.psi_negative) Ho Hx).
Defined.

(** X3 at work: after the failed [solve()] of the toy equilibrium without
    O-point, [to_dict()] raises [IndexError]. *)
Lemma to_dict_after_failed_solve_witness :
  let r := Equilibrium.solve None None Toy.equilibrium_no_O_point in
  r = (Raise (EquilibriaError "No O-point found in equilibrium."), snd r)
  /\ exists (e : exn) (s : Toy.eq_t),
       Equilibrium.to_dict 0 (snd r) = (Raise e, s) /\ e = IndexError.
Proof.
  cbv zeta.
  assert (Hsolve :
    Equilibrium.solve None None Toy.equilibrium_no_O_point
    = (Raise (EquilibriaError "No O-point found in equilibrium."),
       snd (Equilibrium.solve None None Toy.equilibrium_no_O_point)))
    by (vm_compute; reflexivity).
  split; [exact Hsolve |].
  destruct (to_dict_after_failed_solve None Toy.equilibrium_no_O_point _ Hsolve 0%Z)
    as (e & s & Hdict & Hindex).
  exists e, s. split; [exact Hdict |].
  assert (Hpsi :
    Equilibrium.psi None None
      (snd (Equilibrium.solve None None Toy.equilibrium_no_O_point))
    = (Return (Array [[-4; -4]; [-2; -2]]%float),
       snd (Equilibrium.solve None None Toy.equilibrium_no_O_point)))
    by (vm_compute; reflexivity).
  apply (Hindex _ _ ltac:(lia) Hpsi). discriminate.
Defined.

(** X4 at work: the toy equilibrium has no inductance target. *)
Lemma solve_li_needs_inductance_profile_witness :
  Equilibrium.__init__ Toy.coilset Toy.grid Toy.profile false None None
    (Some Toy.psi_positive) None None = Return Toy.equilibrium
  /\ is_BetaLiIpProfile Toy.profile = false
  /\ Equilibrium.solve_li None None Toy.equilibrium
     = (Raise (EquilibriaError "Cannot use solve_li without the BetaLiIpProfile."),
        Toy.equilibrium).
Proof.
  assert (Hinit :
    Equilibrium.__init__ Toy.coilset Toy.grid Toy.profile false None None
      (Some Toy.psi_positive) None None = Return Toy.equilibrium)
    by reflexivity.
  assert (Hprofile : is_BetaLiIpProfile Toy.profile = false) by reflexivity.
  split; [exact Hinit |]. split; [exact Hprofile |].
  exact (solve_li_needs_inductance_profile _ _ _ _ _ _ _ _ _ _ Hinit Hprofile
           None None).
Defined.

(** X5 at work: the toy equilibrium, whose cache is empty, writes the
    O-point found on the flux it writes; with an O-point of flux 9 at
    (5, 5) left in the cache it writes that one, for the same flux map.
    For want of an X-point the boundary flux is the least flux both
    times. *)
Lemma to_dict_axis_from_cache_witness :
  let stale := {| Opoint_x := 5; Opoint_z := 5; Opoint_psi := 9 |} in
  let self := Equilibrium.set_OX_points (Some [stale]) (Some []) Toy.equilibrium in
  let flux := Array [[2; 2]; [4; 4]]%float in
  (exists data : EQDSKInterface,
     fst (Equilibrium.to_dict 0 Toy.equilibrium) = Return data
     /\ e_psi data = flux
     /\ (xmag data, zmag data, psimag data) = (0, 0, 2)%float
     /\ psibdry data = 2%float)
  /\ (exists data : EQDSKInterface,
        fst (Equilibrium.to_dict 0 self) = Return data
        /\ e_psi data = flux
        /\ (xmag data, zmag data, psimag data) = (5, 5, 9)%float
        /\ psibdry data = 2%float).
Proof.
  cbv zeta.
  assert (Hleast :
    forall (data : EQDSKInterface) (b : float),
      e_psi data = Array [[2; 2]; [4; 4]]%float ->
      np_amin (e_psi data) = Return b -> b = 2%float).
  { intros data b Hpsi Hb. rewrite Hpsi in Hb.
    apply (f_equal (fun r => match r with Return u => u | Raise _ => b end)) in Hb.
    vm_compute in Hb. symmetry. exact Hb. }
  assert (Hflux :
    forall (self : Toy.eq_t) (data : EQDSKInterface) (s : Toy.eq_t),
      Equilibrium.plasma self = Equilibrium.plasma Toy.equilibrium ->
      Equilibrium.coilset self = Equilibrium.coilset Toy.equilibrium ->
      Equilibrium._psi_green self = Equilibrium._psi_green Toy.equilibrium ->
      Equilibrium.controller self = Some Toy.Dummy ->
      Equilibrium._jtor self = None ->
      Equilibrium.to_dict 0 self = (Return data, s) ->
      e_psi data = Array [[2; 2]; [4; 4]]%float).
  { intros self data s Hpl Hcs Hg Hc Hj E.
    destruct (to_dict_contents 0%Z self s data ltac:(lia) E) as (s2 & Hpsi & _).
    rewrite (psi_grid self Toy.Dummy Hc) in Hpsi.
    apply (f_equal fst) in Hpsi. cbn [fst] in Hpsi.
    unfold Equilibrium.stabilised in Hpsi. rewrite Hj, Hpl, Hcs, Hg in Hpsi.
    apply (f_equal (fun r => match r with Return u => u | Raise _ => e_psi data end))
      in Hpsi.
    vm_compute in Hpsi. symmetry. exact Hpsi. }
  split.
  - destruct (Equilibrium.to_dict 0 Toy.equilibrium) as [[data | e] s] eqn:E;
      [| vm_compute in E; discriminate E].
    exists data. split; [reflexivity |].
    assert (Hpsi : e_psi data = Array [[2; 2]; [4; 4]]%float)
      by (eapply Hflux; [.. | exact E]; reflexivity).
    split; [exact Hpsi |].
    destruct (to_dict_axis_from_cache 0%Z Toy.equilibrium s data ltac:(lia) E)
      as [_ Hfresh].
    destruct (Hfresh eq_refl eq_refl) as (_ & _ & o & os & Hfound & Haxis & Hbdry).
    rewrite Hpsi in Hfound. rewrite Haxis.
    assert (Ho : o = {| Opoint_x := 0; Opoint_z := 0; Opoint_psi := 2 |}).
    { vm_compute in Hfound. apply (f_equal (hd o)) in Hfound. symmetry. exact Hfound. }
    rewrite Ho. split; [reflexivity |].
    assert (Hnone :
      snd (find_OX_points (Equilibrium.x Toy.equilibrium)
             (Equilibrium.z Toy.equilibrium) (e_psi data)
             (Equilibrium.limiter Toy.equilibrium)) = [])
      by (rewrite Hpsi; vm_compute; reflexivity).
    rewrite Hnone in Hbdry. exact (Hleast data _ Hpsi Hbdry).
  - destruct (Equilibrium.to_dict 0
                (Equilibrium.set_OX_points
                   (Some [{| Opoint_x := 5; Opoint_z := 5; Opoint_psi := 9 |}])
                   (Some []) Toy.equilibrium)) as [[data | e] s] eqn:E;
      [| vm_compute in E; discriminate E].
    exists data. split; [reflexivity |].
    assert (Hpsi : e_psi data = Array [[2; 2]; [4; 4]]%float)
      by (eapply Hflux; [.. | exact E]; reflexivity).
    split; [exact Hpsi |].
    destruct (to_dict_axis_from_cache 0%Z _ s data ltac:(lia) E) as [Hcached _].
    destruct (Hcached _ _ eq_refl) as [Haxis Hbdry].
    split; [exact Haxis |]. exact (Hleast data _ Hpsi Hbdry).
Defined.

(** X6 at work: once the search on the toy flux has cached one O-point
    and no X-point, [get_OX_psis] raises [IndexError] and [to_dict]
    returns, with the least flux as the boundary flux. *)
Lemma get_OX_psis_needs_an_X_point_witness :
  let o := {| Opoint_x := 0; Opoint_z := 0; Opoint_psi := 2 |} in
  let self := Equilibrium.set_OX_points (Some [o]) (Some []) Toy.equilibrium in
  let flux := Array [[2; 2]; [4; 4]]%float in
  Equilibrium.get_OX_points (Some Toy.psi_positive) false Toy.equilibrium
  = (Return (Some [o], Some []), self)
  /\ Equilibrium.psi None None self = (Return flux, self)
  /\ shape flux = Some (2, 2)%Z
  /\ np_amin flux = Return 2%float
  /\ Equilibrium.get_OX_psis (Some Toy.psi_positive) self = (Raise IndexError, self)
  /\ Equilibrium.get_OX_psis None self = (Raise IndexError, self)
  /\ exists data : EQDSKInterface,
       Equilibrium.to_dict 0 self = (Return data, self)
       /\ e_psi data = flux
       /\ psimag data = 2%float
       /\ psibdry data = 2%float.
Proof.
  cbv zeta.
  assert (Hpsi :
    Equilibrium.psi None None
      (Equilibrium.set_OX_points
         (Some [{| Opoint_x := 0; Opoint_z := 0; Opoint_psi := 2 |}])
         (Some []) Toy.equilibrium)
    = (Return (Array [[2; 2]; [4; 4]]%float),
       Equilibrium.set_OX_points
         (Some [{| Opoint_x := 0; Opoint_z := 0; Opoint_psi := 2 |}])
         (Some []) Toy.equilibrium))
    by (vm_compute; reflexivity).
  assert (Hshape : shape (Array [[2; 2]; [4; 4]]%float) = Some (2, 2)%Z)
    by reflexivity.
  assert (Hamin : np_amin (Array [[2; 2]; [4; 4]]%float) = Return 2%float)
    by (vm_compute; reflexivity).
  split; [reflexivity |]. split; [exact Hpsi |]. split; [exact Hshape |].
  split; [exact Hamin |].
  exact (get_OX_psis_needs_an_X_point
           (Equilibrium.set_OX_points
              (Some [{| Opoint_x := 0; Opoint_z := 0; Opoint_psi := 2 |}])
              (Some []) Toy.equilibrium)
           _ {| Opoint_x := 0; Opoint_z := 0; Opoint_psi := 2 |} []
           Toy.psi_positive (Array [[2; 2]; [4; 4]]%float) (2, 2)%Z 2%float 0%Z
           eq_refl eq_refl Hpsi Hshape Hamin (or_introl eq_refl)).
Defined.

(** X8 at work: the toy equilibrium written as [eq] in the directory
    [out] goes to [out/eq.json], and written as [eq.json] to the same
    file. *)
Lemma to_eqdsk_file_name_has_extension_witness :
  let saved (name : string) :=
    Equilibrium.to_eqdsk name "BP_equilibria" (Some "out"%string) "json" 0
      (Toy.equilibrium, Toy.no_files) in
  fst (saved "eq"%string) = Return tt
  /\ Equilibrium.filename (fst (snd (saved "eq"%string)))
     = Some "out/eq.json"%string
  /\ Equilibrium.filename (fst (snd (saved "eq.json"%string)))
     = Some "out/eq.json"%string.
Proof.
  cbv zeta beta.
  assert (Hsaved : forall name : string,
    name = "eq"%string \/ name = "eq.json"%string ->
    let r :=
      Equilibrium.to_eqdsk name "BP_equilibria" (Some "out"%string) "json" 0
        (Toy.equilibrium, Toy.no_files) in
    r = (Return tt, (fst (snd r), snd (snd r)))).
  { intros name [-> | ->]; vm_compute; reflexivity. }
  split; [vm_compute; reflexivity |]. split.
  - destruct (to_eqdsk_file_name_has_extension "eq" "BP_equilibria"
                (Some "out"%string) "json" 0%Z Toy.equilibrium _ Toy.no_files _
                (Hsaved "eq"%string (or_introl eq_refl)))
      as (dir & file & Hname & _ & _ & Hfile & Hdir).
    rewrite Hname, Hdir. assert (Hend : endswith "eq" ("." ++ "json")%string = false)
      by reflexivity.
    rewrite Hend in Hfile. rewrite Hfile. reflexivity.
  - destruct (to_eqdsk_file_name_has_extension "eq.json" "BP_equilibria"
                (Some "out"%string) "json" 0%Z Toy.equilibrium _ Toy.no_files _
                (Hsaved "eq.json"%string (or_intror eq_refl)))
      as (dir & file & Hname & _ & _ & Hfile & Hdir).
    rewrite Hname, Hdir.
    assert (Hend : endswith "eq.json" ("." ++ "json")%string = true)
      by reflexivity.
    rewrite Hend in Hfile. rewrite Hfile. reflexivity.
Defined.

(** X9 at work: written as [eqdsk] in mode 0, the file holds a safety
    factor of two zeros; written as [json], none. *)
Lemma to_eqdsk_safety_factor_field_witness :
  let saved (filetype : string) :=
    Equilibrium.to_eqdsk "eq" "BP_equilibria" None filetype 0
      (Toy.equilibrium, Toy.no_files) in
  fst (saved "eqdsk"%string) = Return tt
  /\ fst (saved "json"%string) = Return tt
  /\ (exists e : EQDSKInterface,
        snd (snd (saved "eqdsk"%string)) "data/eq.eqdsk"%string = Some e
        /\ qpsi e = Some [0; 0]%float)
  /\ (exists e : EQDSKInterface,
        snd (snd (saved "json"%string)) "data/eq.json"%string = Some e
        /\ qpsi e = None).
Proof.
  cbv zeta beta.
  assert (Hsaved : forall filetype : string,
    filetype = "eqdsk"%string \/ filetype = "json"%string ->
    let r :=
      Equilibrium.to_eqdsk "eq" "BP_equilibria" None filetype 0
        (Toy.equilibrium, Toy.no_files) in
    r = (Return tt, (fst (snd r), snd (snd r)))).
  { intros filetype [-> | ->]; vm_compute; reflexivity. }
  split; [vm_compute; reflexivity |]. split; [vm_compute; reflexivity |]. split.
  - destruct (to_eqdsk_safety_factor_field "eq" "BP_equilibria" None "eqdsk" 0%Z
                Toy.equilibrium _ Toy.no_files _
                (Hsaved "eqdsk"%string (or_introl eq_refl)) ltac:(lia))
      as (path & e & Hname & Hfile & _ & Hq).
    assert (Hpath : path = "data/eq.eqdsk"%string).
    { assert (Hn : Equilibrium.filename
                     (fst (snd (Equilibrium.to_eqdsk "eq" "BP_equilibria" None
                                  "eqdsk" 0 (Toy.equilibrium, Toy.no_files))))
                   = Some "data/eq.eqdsk"%string) by (vm_compute; reflexivity).
      rewrite Hn in Hname. congruence. }
    subst path. exists e. split; [exact Hfile |]. rewrite Hq.
    assert (Hnx : e_nx e = 2%Z).
    { assert (Hf : snd (snd (Equilibrium.to_eqdsk "eq" "BP_equilibria" None
                               "eqdsk" 0 (Toy.equilibrium, Toy.no_files)))
                     "data/eq.eqdsk"%string
                   = Some e) by exact Hfile.
      apply (f_equal (fun o => match o with Some d => e_nx d | None => 0%Z end)) in Hf.
      vm_compute in Hf. symmetry. exact Hf. }
    rewrite Hnx. reflexivity.
  - destruct (to_eqdsk_safety_factor_field "eq" "BP_equilibria" None "json" 0%Z
                Toy.equilibrium _ Toy.no_files _
                (Hsaved "json"%string (or_intror eq_refl)) ltac:(lia))
      as (path & e & Hname & Hfile & _ & Hq).
    assert (Hpath : path = "data/eq.json"%string).
    { assert (Hn : Equilibrium.filename
                     (fst (snd (Equilibrium.to_eqdsk "eq" "BP_equilibria" None
                                  "json" 0 (Toy.equilibrium, Toy.no_files))))
                   = Some "data/eq.json"%string) by (vm_compute; reflexivity).
      rewrite Hn in Hname. congruence. }
    subst path. exists e. split; [exact Hfile |]. rewrite Hq. reflexivity.
Defined.

(** X10 at work: a limiter of five points is written with the toy
    equilibrium and is not there when the file is read back; one of two
    points is. *)
Lemma limiter_round_trip_witness :
  let five :=
    {| limiter_x := [1; 1; 2; 3; 3]%float; limiter_z := [0; 1; 1; 1; 0]%float |} in
  let two := {| limiter_x := [1; 3]%float; limiter_z := [0; 0]%float |} in
  let saved (l : Limiter) :=
    Equilibrium.to_eqdsk "eq" "BP_equilibria" None "json" 0
      (Equilibrium.set_limiter_filename_kwargs (Some l) None None Toy.equilibrium,
       Toy.no_files) in
  let reloaded (l : Limiter) :=
    Equilibrium.CoilSetMHDState_get_eqdsk (snd (snd (saved l))) "data/eq.json"
      false (None : option Toy.CoilSet) in
  fst (saved five) = Return tt
  /\ fst (saved two) = Return tt
  /\ (exists e psi1 coilset1 grid1,
        reloaded five = Return (e, psi1, coilset1, grid1, None))
  /\ (exists e psi1 coilset1 grid1,
        reloaded two = Return (e, psi1, coilset1, grid1, Some two)).
Proof.
  cbv zeta beta.
  assert (Hsaved : forall l : Limiter,
    l = {| limiter_x := [1; 1; 2; 3; 3]%float; limiter_z := [0; 1; 1; 1; 0]%float |}
    \/ l = {| limiter_x := [1; 3]%float; limiter_z := [0; 0]%float |} ->
    let r :=
      Equilibrium.to_eqdsk "eq" "BP_equilibria" None "json" 0
        (Equilibrium.set_limiter_filename_kwargs (Some l) None None Toy.equilibrium,
         Toy.no_files) in
    r = (Return tt, (fst (snd r), snd (snd r)))
    /\ Equilibrium.filename (fst (snd r)) = Some "data/eq.json"%string
    /\ Equilibrium.limiter (fst (snd r)) = Some l).
  { intros l [-> | ->]; repeat split; vm_compute; reflexivity. }
  split; [vm_compute; reflexivity |]. split; [vm_compute; reflexivity |]. split.
  - destruct (Hsaved _ (or_introl eq_refl)) as (Hs & Hname & Hlim).
    destruct (limiter_round_trip "eq" "BP_equilibria" None "json" 0%Z _ _
                Toy.no_files _ false None Hs)
      as (path & e & psi1 & coilset1 & grid1 & Hpath & Hread).
    rewrite Hname in Hpath. assert (path = "data/eq.json"%string) by congruence.
    subst path. rewrite Hlim in Hread.
    exists e, psi1, coilset1, grid1. exact Hread.
  - destruct (Hsaved _ (or_intror eq_refl)) as (Hs & Hname & Hlim).
    destruct (limiter_round_trip "eq" "BP_equilibria" None "json" 0%Z _ _
                Toy.no_files _ false None Hs)
      as (path & e & psi1 & coilset1 & grid1 & Hpath & Hread).
    rewrite Hname in Hpath. assert (path = "data/eq.json"%string) by congruence.
    subst path. rewrite Hlim in Hread.
    exists e, psi1, coilset1, grid1. exact Hread.
Defined.

(** X12 at work: the keyword [vcontrol="virtual"] makes [reset_grid] of
    the toy equilibrium raise, and nothing is reset. *)
Lemma reset_grid_rejects_keywords_witness :
  let kw :=
    {| Equilibrium.kw_psi := None;
       Equilibrium.kw_vcontrol := Some (Some "virtual"%string);
       Equilibrium.kw_others := [] |} in
  (Equilibrium.kw_vcontrol kw <> None \/ Equilibrium.kw_others kw <> [])
  /\ Equilibrium.reset_grid Toy.grid kw Toy.equilibrium
     = (Raise TypeError, Toy.equilibrium).
Proof.
  cbv zeta.
  assert (Hkw :
    Equilibrium.kw_vcontrol
      {| Equilibrium.kw_psi := None;
         Equilibrium.kw_vcontrol := Some (Some "virtual"%string);
         Equilibrium.kw_others := [] |} <> None
    \/ Equilibrium.kw_others
         {| Equilibrium.kw_psi := None;
            Equilibrium.kw_vcontrol := Some (Some "virtual"%string);
            Equilibrium.kw_others := [] |} <> [])
    by (left; discriminate).
  split; [exact Hkw |].
  exact (reset_grid_rejects_keywords Toy.grid _ Toy.equilibrium Hkw).
Defined.

(** X13 at work: the toy equilibrium moved to the shifted grid has its
    solver there and its boundary operator on the grid it was built on. *)
Lemma reset_grid_of_constructed_witness :
  Equilibrium.__init__ Toy.coilset Toy.grid Toy.profile false None None
    (Some Toy.psi_positive) None None = Return Toy.equilibrium
  /\ exists self' : Toy.eq_t,
       Equilibrium.reset_grid Toy.shifted_grid
         {| Equilibrium.kw_psi := None; Equilibrium.kw_vcontrol := None;
            Equilibrium.kw_others := [] |} Toy.equilibrium
       = (Return tt, self')
       /\ solver_grid (Equilibrium._solver self') = Toy.shifted_grid
       /\ boundary_grid (Equilibrium.boundary self') = Toy.grid.
Proof.
  assert (Hinit :
    Equilibrium.__init__ Toy.coilset Toy.grid Toy.profile false None None
      (Some Toy.psi_positive) None None = Return Toy.equilibrium)
    by reflexivity.
  split; [exact Hinit |].
  destruct (reset_grid_of_constructed _ _ _ _ _ _ _ _ _ _ Hinit Toy.shifted_grid None)
    as (self' & Hreset & _ & _ & _ & Hsolver & _ & _ & _ & _ & Hboundary & _).
  exists self'. split; [exact Hreset |]. split; [| exact Hboundary].
  rewrite Hsolver. reflexivity.
Defined.

(** X14 at work: the toy equilibrium, solved, comes back from a pickle as
    it went in. *)
Lemma pickle_round_trip_witness :
  let solved := snd (Equilibrium.solve None None Toy.equilibrium) in
  Equilibrium.__init__ Toy.coilset Toy.grid Toy.profile false None None
    (Some Toy.psi_positive) None None = Return Toy.equilibrium
  /\ Equilibrium.__setstate__
       (Equilibrium.__getstate__ solved
          {| solver_grid := Toy.shifted_grid; solver_force_symmetry := true |})
     = solved.
Proof.
  cbv zeta.
  assert (Hinit :
    Equilibrium.__init__ Toy.coilset Toy.grid Toy.profile false None None
      (Some Toy.psi_positive) None None = Return Toy.equilibrium)
    by reflexivity.
  split; [exact Hinit |].
  exact (proj1 (proj2 (pickle_round_trip _ _ _ _ _ _ _ _ _ _ Hinit
                         {| solver_grid := Toy.shifted_grid;
                            solver_force_symmetry := true |}))
           None None).
Defined.

(** X15 at work: the default fractions pass the check, and building the
    solver on the toy equilibrium fills the equilibrium's cache with the
    O-point that the solver keeps. *)
Lemma solver_axis_from_cache_witness :
  let r := ChargedParticleSolver.__init__ ([] : Toy.Config) None Toy.equilibrium in
  ChargedParticleSolver._check_params
    (ChargedParticleSolver.update_kw_parameters
       ChargedParticleSolver.default_params ([] : Toy.Config)) = Return tt
  /\ Equilibrium._o_points Toy.equilibrium = None
  /\ exists (solver : ChargedParticleSolver.t) (os : list Opoint),
       r = (Return solver, snd r)
       /\ Equilibrium._o_points (snd r)
          = Some (ChargedParticleSolver._o_point solver :: os).
Proof.
  cbv zeta.
  assert (Hcheck :
    ChargedParticleSolver._check_params
      (ChargedParticleSolver.update_kw_parameters
         ChargedParticleSolver.default_params ([] : Toy.Config)) = Return tt)
    by (vm_compute; reflexivity).
  split; [exact Hcheck |]. split; [reflexivity |].
  destruct (ChargedParticleSolver.__init__ ([] : Toy.Config) None Toy.equilibrium)
    as [[solver | e] s] eqn:E; [| vm_compute in E; discriminate E].
  destruct (proj1 (solver_axis_from_cache ([] : Toy.Config) None Toy.equilibrium
                     Hcheck) solver s E) as [[os Hos] _].
  exists solver, os. split; [reflexivity | exact Hos].
Defined.

(** X18 at work: the plant has a coil; a second component named [coil]
    is taken by [add_child] and refused by [add_children]. *)
Lemma add_child_checks_identity_only_witness :
  let t := ToyTree.plant in
  existsb (Component.node_is 2%nat) (Component.node_children t 0%nat) = false
  /\ Component.in_tree t 0%nat 2%nat = true
  /\ (exists t' : ToyTree.Tree,
        Component.add_child 0%nat 2%nat t = (Component.Ok 0%nat, t')
        /\ Component.node_children t' 0%nat = [1; 2]%nat)
  /\ Component.add_children 0%nat (Component.a_list [2%nat]) false t
     = (Component.Err
          (Component.ComponentError
             "Components [coil (Component)] are already a children of plant (Component)"),
        (Component.a_list [2%nat], t)).
Proof.
  cbv zeta.
  assert (Hnew :
    existsb (Component.node_is 2%nat) (Component.node_children ToyTree.plant 0%nat)
    = false) by reflexivity.
  assert (Hname : Component.in_tree ToyTree.plant 0%nat 2%nat = true) by reflexivity.
  split; [exact Hnew |]. split; [exact Hname |].
  destruct (add_child_checks_identity_only 0%nat 2%nat ToyTree.plant Hnew Hname)
    as [Hchild Hchildren].
  split.
  - eexists. split; [rewrite Hchild; reflexivity | reflexivity].
  - rewrite Hchildren. reflexivity.
Defined.
